(** * SYTC mmWave radar frames: the serial decoder of [demo.py]

    A shallow embedding of [MircoParser] ([demo.py]) and of the Pydantic
    models it builds ([models.py]), with the properties of the frame decoder
    proved over it; and of what [SerialReader] ([demo.py]) does with the
    bytes of the port: the thread that cuts them into frames, the plot that
    takes its points and the formatting of a header.

    Conventions of the embedding
    - a Python [bytes] value is a [list byte]; indexing it yields an [int],
      here a [Z] between 0 and 255 ([int_of]);
    - a Python [int] is a [Z], a [List[int]] a [list Z];
    - times ([time.time()], [timeout], the port's read timeout) are counted
      in milliseconds, so [time.sleep(0.01)] advances the clock by 10; a
      read that ran into the port's timeout comes back a positive time
      after it, so that the clock then shows more than the timeout;
    - a loop that may spin for ever takes fuel; running out of fuel is the
      [None] of the computation, and stands for a call that does not return;
    - [return None], a raised exception and a normal result are the three
      constructors of [outcome]. *)

From Stdlib Require Import ZArith Lia.
From Stdlib.Strings Require Import Byte.
From stdpp Require Import base option list strings gmap pretty.

Open Scope Z_scope.

(** ** Outcomes of Python code *)

Inductive exn : Type :=
  | ValidationError   (* pydantic refuses the field values *)
  | IndexError.       (* subscript out of range *)

Inductive outcome (A : Type) : Type :=
  | Ok (a : A)          (* evaluation goes on with the value [a] *)
  | ReturnNone          (* the enclosing function executed [return None] *)
  | Raised (e : exn).   (* an exception propagates to the caller *)

Arguments Ok {A} a.
Arguments ReturnNone {A}.
Arguments Raised {A} e.

Definition obind {A B} (m : outcome A) (k : A -> outcome B) : outcome B :=
  match m with
  | Ok a => k a
  | ReturnNone => ReturnNone
  | Raised e => Raised e
  end.

Declare Scope py_scope.
Delimit Scope py_scope with py.
Notation "'let?' x := m 'in' k" := (obind m (fun x => k))
  (at level 10, x pattern, m at level 100, k at level 200) : py_scope.
Open Scope py_scope.

(** ** Python sequences *)

Definition int_of (b : byte) : Z := Z.of_N (Byte.to_N b).

Definition len {A} (s : list A) : Z := Z.of_nat (length s).

(** [s[i]], negative subscripts counted from the end. *)
Definition getitem {A} (s : list A) (i : Z) : outcome A :=
  let j := if i <? 0 then i + len s else i in
  if j <? 0 then Raised IndexError
  else match s !! Z.to_nat j with
       | Some x => Ok x
       | None => Raised IndexError
       end.

(** Subscript of a [bytes] object: the element as an [int]. *)
Definition byte_at (s : list byte) (i : Z) : outcome Z :=
  let? b := getitem s i in Ok (int_of b).

(** Bound of a slice, clamped the way Python clamps it. *)
Definition slice_bound (n i : Z) : Z :=
  if i <? 0 then Z.max (i + n) 0 else Z.min i n.

(** [s[lo:hi]]. *)
Definition slice {A} (s : list A) (lo hi : Z) : list A :=
  let a := slice_bound (len s) lo in
  let b := slice_bound (len s) hi in
  take (Z.to_nat (b - a)) (drop (Z.to_nat a) s).

(** [list(b)] for a [bytes] object [b]. *)
Definition ints (s : list byte) : list Z := int_of <$> s.

(** ** The models of [models.py] *)

Record MircoHead : Type := mkMircoHead {
  start_signal : list Z;
  data_length : Z;
  mode : Z;
  time : list Z;
  num_TLV : Z;
  work_con : Z;
  reserve : list Z }.

Record MircoBody : Type := mkMircoBody {
  tlv_signal : Z;
  target_distance : Z;
  target_azimuth : Z;
  current_status : Z;
  respiration_value : Z;
  heart_rate_value : Z;
  respiration_curve : list Z;
  heart_rate_curve : list Z }.

Record MircoCheck : Type := mkMircoCheck {
  crc : list Z;
  zw : list Z }.

Record MircoData : Type := mkMircoData {
  header : MircoHead;
  bodies : list MircoBody;
  check : MircoCheck }.

(** [Field(ge=lo, le=hi)] *)
Definition ge_le (lo hi v : Z) : bool := (lo <=? v) && (v <=? hi).

(** [Field(min_length=n, max_length=n)] *)
Definition length_is {A} (n : Z) (l : list A) : bool := len l =? n.

(** Field validation of each model: the constructor call raises
    [ValidationError] when some field breaks its constraint. *)
Definition MircoHead_valid (h : MircoHead) : bool :=
  length_is 4 (start_signal h)
  && ge_le 0x00 0xFF (data_length h)
  && ge_le 0x00 0xFF (mode h)
  && length_is 2 (time h)
  && ge_le 0x00 0xFF (num_TLV h)
  && ge_le 0x01 0x03 (work_con h)
  && length_is 2 (reserve h).

Definition MircoBody_valid (b : MircoBody) : bool :=
  ge_le 0 2 (tlv_signal b)
  && ge_le 0 256 (target_distance b)
  && ge_le (-127) 128 (target_azimuth b)
  && ((current_status b =? 0x01) || (current_status b =? 0x02))
  && length_is 20 (respiration_curve b)
  && length_is 20 (heart_rate_curve b).

Definition MircoCheck_valid (c : MircoCheck) : bool :=
  length_is 2 (crc c).

Definition validated {A} (valid : A -> bool) (a : A) : outcome A :=
  if valid a then Ok a else Raised ValidationError.

Definition new_MircoHead (h : MircoHead) : outcome MircoHead :=
  validated MircoHead_valid h.
Definition new_MircoBody (b : MircoBody) : outcome MircoBody :=
  validated MircoBody_valid b.
Definition new_MircoCheck (c : MircoCheck) : outcome MircoCheck :=
  validated MircoCheck_valid c.
Definition new_MircoData (h : MircoHead) (bs : list MircoBody) (c : MircoCheck)
  : outcome MircoData :=
  Ok (mkMircoData h bs c).

(** ** The serial port and the clock

    The port is pySerial's, outside the repository; what the decoder relies
    on is modelled here.  The line delivers a sequence of bytes, the [i]-th
    at its own arrival time; [line i = None] from the byte after the last
    one.  [ser.read(n)] on a port opened with a read timeout blocks until [n]
    bytes have come in or the timeout has passed, and returns what it has.
    A read that runs into its timeout comes back after the timeout has
    passed, not at that instant: the clock read behind it shows more than
    the timeout, by the positive time [overrun].  Times are in
    milliseconds. *)

Record Serial : Type := mkSerial {
  line : nat -> option (Z * byte);   (* arrival time and value of byte [i] *)
  read_timeout : Z;                  (* [ser.timeout] *)
  consumed : nat;                    (* bytes already handed to the reader *)
  clock : Z;                         (* [time.time()] *)
  overrun : positive }.              (* lateness of a read that timed out *)

(** The bytes from position [i] on that are in by time [t], at most [n]. *)
Fixpoint arrived (ln : nat -> option (Z * byte)) (t : Z) (i n : nat)
  : list (Z * byte) :=
  match n with
  | O => []
  | S n' =>
      match ln i with
      | Some (a, b) => if a <=? t then (a, b) :: arrived ln t (S i) n' else []
      | None => []
      end
  end.

(** Effectful code: the port and the clock are threaded through; [None] is
    a computation that ran out of fuel. *)
Definition M (A : Type) : Type := Serial -> option (outcome A * Serial).

Definition ret {A} (a : A) : M A := fun s => Some (Ok a, s).

Definition lift {A} (o : outcome A) : M A := fun s => Some (o, s).

Definition bind {A B} (m : M A) (k : A -> M B) : M B :=
  fun s =>
    match m s with
    | None => None
    | Some (Ok a, s') => k a s'
    | Some (ReturnNone, s') => Some (ReturnNone, s')
    | Some (Raised e, s') => Some (Raised e, s')
    end.

Notation "x <- m ;; k" := (bind m (fun x => k))
  (at level 100, m at next level, right associativity) : py_scope.
Notation "m ;;; k" := (bind m (fun _ => k))
  (at level 100, right associativity) : py_scope.

(** The time at which the bytes [got] are all in, for a reader that started
    waiting at [now]. *)
Definition all_in (now : Z) (got : list (Z * byte)) : Z :=
  foldr (fun x t => Z.max x.1 t) now got.

(** [ser.read(size)] *)
Definition ser_read (size : Z) : M (list byte) :=
  fun s =>
    let got := arrived (line s) (clock s + read_timeout s) (consumed s)
                 (Z.to_nat size) in
    let now := if len got <? size
               then clock s + read_timeout s + Z.pos (overrun s)
               else all_in (clock s) got in
    Some (Ok (snd <$> got),
          mkSerial (line s) (read_timeout s)
            (consumed s + length got)%nat now (overrun s)).

(** [time.time()] *)
Definition time_time : M Z := fun s => Some (Ok (clock s), s).

(** [time.sleep(d)] *)
Definition time_sleep (d : Z) : M unit :=
  fun s =>
    Some (Ok tt,
          mkSerial (line s) (read_timeout s) (consumed s) (clock s + d)
            (overrun s)).

#[global] Instance byte_eq_dec : EqDecision byte := Byte.byte_eq_dec.

(** ** [MircoParser]

    The class of [demo.py]; its methods are static or class methods, so the
    class is a name space. *)

Module MircoParser.

Definition START_SEQ : list byte := [x53; x59; x54; x43].
Definition BODY_SIZE : Z := 46.

(** The [while len(buf) < size] loop of [read_exact]. *)
Fixpoint read_exact_loop (fuel : nat) (size : Z) (timeout : option Z)
    (start : Z) (buf : list byte) : M (list byte) :=
  match fuel with
  | O => fun _ => None
  | S fuel' =>
      if len buf <? size then
        let to_read := size - len buf in
        chunk <- ser_read to_read ;;
        if negb (len chunk =? 0) then
          read_exact_loop fuel' size timeout start (buf ++ chunk)
        else
          now <- time_time ;;
          if match timeout with
             | Some t => now - start >? t
             | None => false
             end
          then ret buf
          else time_sleep 10 ;;;
               read_exact_loop fuel' size timeout start buf
      else ret buf
  end.

Definition read_exact (fuel : nat) (size : Z) (timeout : option Z)
  : M (list byte) :=
  start <- time_time ;;
  read_exact_loop fuel size timeout start [].

(** The [while True] loop of [find_start]. *)
Fixpoint find_start_loop (fuel : nat) (timeout : Z) (start_time : Z)
    (window : list byte) : M bool :=
  match fuel with
  | O => fun _ => None
  | S fuel' =>
      b <- ser_read 1 ;;
      if len b =? 0 then
        now <- time_time ;;
        if now - start_time >? timeout then ret false
        else find_start_loop fuel' timeout start_time window
      else
        let window := window ++ b in
        let window := if len window >? len START_SEQ
                      then drop 1 window else window in
        if bool_decide (window = START_SEQ) then ret true
        else find_start_loop fuel' timeout start_time window
  end.

Definition find_start (fuel : nat) (timeout : Z) : M bool :=
  start_time <- time_time ;;
  find_start_loop fuel timeout start_time [].

(** One record of the payload: the body of the [for] loop up to the
    construction of the [MircoBody]. *)
Definition parse_body (chunk : list byte) : outcome MircoBody :=
  if len chunk <? BODY_SIZE then ReturnNone
  else
    let? tlv_signal := byte_at chunk 0 in
    let? target_distance := byte_at chunk 1 in
    let? target_azimuth := byte_at chunk 2 in
    let? current_status := byte_at chunk 3 in
    let? respiration_value := byte_at chunk 4 in
    let? heart_rate_value := byte_at chunk 5 in
    let respiration_curve := ints (slice chunk (-44) (-24)) in
    let heart_rate_curve := ints (slice chunk (-24) (-4)) in
    new_MircoBody
      (mkMircoBody
         (if tlv_signal =? 0 then 1 else tlv_signal)
         target_distance
         (if target_azimuth <=? 127 then target_azimuth
          else target_azimuth - 256)
         current_status
         respiration_value
         heart_rate_value
         respiration_curve
         heart_rate_curve).

(** [for i in range(num_TLV)]: [n] iterations still to run, the running
    [offset] and the list [bodies] built so far. *)
Fixpoint parse_bodies (n : nat) (bodies_bytes : list byte) (offset : Z)
    (bodies : list MircoBody) : outcome (list MircoBody) :=
  match n with
  | O => Ok bodies
  | S n' =>
      let chunk := slice bodies_bytes offset (offset + BODY_SIZE) in
      let? body := parse_body chunk in
      parse_bodies n' bodies_bytes (offset + BODY_SIZE) (bodies ++ [body])
  end.

(** Values stored in the dictionary returned next to the frame. *)
Inductive pyval : Type :=
  | PInt (z : Z)
  | PList (l : list Z)
  | PBool (b : bool).

Definition header_info (data_length mode : Z) (time_field : list Z)
    (num_TLV work_con : Z) (reserve : list Z)
  : outcome (gmap string pyval) :=
  let? t0 := getitem time_field 0 in
  let? t1 := getitem time_field 1 in
  Ok (<["data_length" := PInt data_length]>
     (<["mode" := PInt mode]>
     (<["time_minutes" := PInt (t0 + Z.shiftl t1 8)]>
     (<["num_targets" := PInt num_TLV]>
     (<["work_status" := PInt work_con]>
     (<["reserve" := PList reserve]> ∅)))))).

Definition parse_frame_from_serial (fuel : nat) (timeout : Z)
  : M (MircoData * gmap string pyval) :=
  found <- find_start fuel timeout ;;
  if negb found then lift ReturnNone
  else
    header_remain <- read_exact fuel (1 + 1 + 2 + 1 + 1 + 2) (Some timeout) ;;
    if len header_remain <? 8 then lift ReturnNone
    else
      data_length <- lift (byte_at header_remain 0) ;;
      mode <- lift (byte_at header_remain 1) ;;
      let time_field := ints (slice header_remain 2 4) in
      num_TLV <- lift (byte_at header_remain 4) ;;
      work_con <- lift (byte_at header_remain 5) ;;
      let reserve := ints (slice header_remain 6 8) in
      let expected_bodies_bytes := num_TLV * BODY_SIZE in
      bodies_bytes <- read_exact fuel expected_bodies_bytes (Some timeout) ;;
      if len bodies_bytes <? expected_bodies_bytes then lift ReturnNone
      else
        bodies <- lift (parse_bodies (Z.to_nat num_TLV) bodies_bytes 0 []) ;;
        check_bytes <- read_exact fuel 4 (Some timeout) ;;
        if len check_bytes <? 4 then lift ReturnNone
        else
          c0 <- lift (byte_at check_bytes 0) ;;
          c1 <- lift (byte_at check_bytes 1) ;;
          c2 <- lift (byte_at check_bytes 2) ;;
          c3 <- lift (byte_at check_bytes 3) ;;
          let crc := [c0; c1] in
          let zw := [c2; c3] in
          header <- lift (new_MircoHead
                            (mkMircoHead (ints START_SEQ) data_length mode
                               time_field num_TLV work_con reserve)) ;;
          check <- lift (new_MircoCheck (mkMircoCheck crc zw)) ;;
          data <- lift (new_MircoData header bodies check) ;;
          info <- lift (header_info data_length mode time_field num_TLV
                          work_con reserve) ;;
          ret (data, info).

End MircoParser.

Import MircoParser.

(** ** The decoder with subscripts and slices resolved

    The forms below are what the code computes once the lengths of the
    blocks are known; the lemmas of the second part relate them to the
    functions above. *)

(** The [i]-th byte of a block as an [int], 0 past its end. *)
Definition raw (s : list byte) (i : nat) : Z :=
  from_option int_of 0 (s !! i).

(** The field values [parse_frame_from_serial] passes to [MircoBody] for a
    46-byte record, subscripts and slices resolved. *)
Definition fields (chunk : list byte) : MircoBody :=
  mkMircoBody
    (if raw chunk 0 =? 0 then 1 else raw chunk 0)
    (raw chunk 1)
    (if raw chunk 2 <=? 127 then raw chunk 2 else raw chunk 2 - 256)
    (raw chunk 3)
    (raw chunk 4)
    (raw chunk 5)
    (ints (take 20 (drop 2 chunk)))
    (ints (take 20 (drop 22 chunk))).

(** The wire bytes of a record that [MircoBody] accepts. *)
Definition record_ok (chunk : list byte) : bool :=
  (raw chunk 0 <=? 2)
  && negb (raw chunk 2 =? 128)
  && ((raw chunk 3 =? 1) || (raw chunk 3 =? 2)).

(** The [i]-th record of a payload. *)
Definition record (bodies_bytes : list byte) (i : nat) : list byte :=
  take 46 (drop (46 * i) bodies_bytes).

Definition records (bodies_bytes : list byte) (n : nat) : list (list byte) :=
  record bodies_bytes <$> seq 0 n.

(** Header, footer and dictionary as built from the 8 bytes behind the
    marker and the 4 bytes behind the payload. *)
Definition head_of (hdr : list byte) : MircoHead :=
  mkMircoHead (ints START_SEQ) (raw hdr 0) (raw hdr 1)
    [raw hdr 2; raw hdr 3] (raw hdr 4) (raw hdr 5) [raw hdr 6; raw hdr 7].

Definition check_of (chk : list byte) : MircoCheck :=
  mkMircoCheck [raw chk 0; raw chk 1] [raw chk 2; raw chk 3].

Definition info_of (hdr : list byte) : gmap string pyval :=
  <["data_length" := PInt (raw hdr 0)]>
  (<["mode" := PInt (raw hdr 1)]>
  (<["time_minutes" := PInt (raw hdr 2 + Z.shiftl (raw hdr 3) 8)]>
  (<["num_targets" := PInt (raw hdr 4)]>
  (<["work_status" := PInt (raw hdr 5)]>
  (<["reserve" := PList [raw hdr 6; raw hdr 7]]> ∅))))).

(** The end of [parse_frame_from_serial], once header, payload and footer
    are read in full: the three models are built and returned with the
    dictionary. *)
Definition finish (hdr : list byte) (bodies : list MircoBody)
    (chk : list byte) : outcome (MircoData * gmap string pyval) :=
  if ge_le 0x01 0x03 (raw hdr 5)
  then Ok (mkMircoData (head_of hdr) bodies (check_of chk), info_of hdr)
  else Raised ValidationError.

(** The keys of the dictionary returned next to the frame. *)
Definition info_keys : gset string :=
  list_to_set ["data_length"; "mode"; "time_minutes"; "num_targets";
               "work_status"; "reserve"].

(** What holds of every body of a returned frame. *)
Definition body_in_range (b : MircoBody) : Prop :=
  0 <= target_distance b <= 255
  /\ -128 <= target_azimuth b <= 127
  /\ (current_status b = 1 \/ current_status b = 2)
  /\ len (respiration_curve b) = 20
  /\ len (heart_rate_curve b) = 20.

(** ** Lines, reads and runs *)

(** The next [n] bytes of the line from position [i] on, whenever they come
    in (fewer when the line ends before). *)
Fixpoint wire (ln : nat -> option (Z * byte)) (i n : nat) : list byte :=
  match n with
  | O => []
  | S n' =>
      match ln i with
      | Some (_, b) => b :: wire ln (S i) n'
      | None => []
      end
  end.

(** The bytes [l] are the next ones on the line and are already in. *)
Definition prompt (s : Serial) (l : list byte) : Prop :=
  forall (j : nat) (b : byte), l !! j = Some b ->
    exists a, line s (consumed s + j)%nat = Some (a, b) /\ a <= clock s.

(** The port after [n] more bytes were handed over at once. *)
Definition advance (s : Serial) (n : nat) : Serial :=
  mkSerial (line s) (read_timeout s) (consumed s + n)%nat (clock s)
    (overrun s).

(** The sliding window of [find_start] after the chunk [b] came in. *)
Definition slide (window b : list byte) : list byte :=
  let window := window ++ b in
  if len window >? len START_SEQ then drop 1 window else window.

(** What the marker search does to bytes that are already in: [scan w l] is
    what is left of [l] just behind the first point where the window,
    started at [w], equals the marker. *)
Fixpoint scan (window l : list byte) : option (list byte) :=
  match l with
  | [] => None
  | b :: l' =>
      if bool_decide (slide window [b] = START_SEQ) then Some l'
      else scan (slide window [b]) l'
  end.

(** A computation whose result, once it has one, does not depend on how much
    fuel it was given beyond that. *)
Definition fuel_mono {A} (m : nat -> M A) : Prop :=
  forall (f f' : nat) (s : Serial) r,
    (f <= f')%nat -> m f s = Some r -> m f' s = Some r.

(** Fuel that lets every read of one frame come back: the longest read is
    the payload of 255 records, and an idle read gives up after [timeout]. *)
Definition enough (timeout : Z) : nat :=
  S (Z.to_nat (255 * 46) + Z.to_nat (timeout + 10)).

(** The ways [parse_frame_from_serial] ends once the marker is found, the
    port then being [s1]: what is returned or raised, and the port left. *)
Inductive ends (fuel : nat) (timeout : Z) (s1 : Serial)
  : outcome (MircoData * gmap string pyval) -> Serial -> Prop :=
  | ends_header_short hdr s2 :
      read_exact fuel 8 (Some timeout) s1 = Some (Ok hdr, s2) ->
      len hdr < 8 ->
      ends fuel timeout s1 ReturnNone s2
  | ends_payload_short hdr s2 bb s3 :
      read_exact fuel 8 (Some timeout) s1 = Some (Ok hdr, s2) ->
      length hdr = 8%nat ->
      read_exact fuel (raw hdr 4 * 46) (Some timeout) s2 = Some (Ok bb, s3) ->
      len bb < raw hdr 4 * 46 ->
      ends fuel timeout s1 ReturnNone s3
  | ends_record_refused hdr s2 bb s3 :
      read_exact fuel 8 (Some timeout) s1 = Some (Ok hdr, s2) ->
      length hdr = 8%nat ->
      read_exact fuel (raw hdr 4 * 46) (Some timeout) s2 = Some (Ok bb, s3) ->
      len bb = raw hdr 4 * 46 ->
      forallb record_ok (records bb (Z.to_nat (raw hdr 4))) = false ->
      ends fuel timeout s1 (Raised ValidationError) s3
  | ends_footer_short hdr s2 bb s3 chk s4 :
      read_exact fuel 8 (Some timeout) s1 = Some (Ok hdr, s2) ->
      length hdr = 8%nat ->
      read_exact fuel (raw hdr 4 * 46) (Some timeout) s2 = Some (Ok bb, s3) ->
      len bb = raw hdr 4 * 46 ->
      forallb record_ok (records bb (Z.to_nat (raw hdr 4))) = true ->
      read_exact fuel 4 (Some timeout) s3 = Some (Ok chk, s4) ->
      len chk < 4 ->
      ends fuel timeout s1 ReturnNone s4
  | ends_built hdr s2 bb s3 chk s4 :
      read_exact fuel 8 (Some timeout) s1 = Some (Ok hdr, s2) ->
      length hdr = 8%nat ->
      read_exact fuel (raw hdr 4 * 46) (Some timeout) s2 = Some (Ok bb, s3) ->
      len bb = raw hdr 4 * 46 ->
      forallb record_ok (records bb (Z.to_nat (raw hdr 4))) = true ->
      read_exact fuel 4 (Some timeout) s3 = Some (Ok chk, s4) ->
      length chk = 4%nat ->
      ends fuel timeout s1
        (finish hdr (fields <$> records bb (Z.to_nat (raw hdr 4))) chk) s4.

(** The payload behind the marker is all on the line and holds a record
    that [MircoBody] refuses; [s1] is the port just behind the marker. *)
Definition payload_refused (s1 : Serial) : Prop :=
  let hdr := wire (line s1) (consumed s1) 8 in
  let k := Z.to_nat (raw hdr 4) in
  let bb := wire (line s1) (consumed s1 + 8) (46 * k) in
  length hdr = 8%nat /\ length bb = (46 * k)%nat
  /\ forallb record_ok (records bb k) = false.

(** The value a finished call handed back, the final port forgotten. *)
Definition run {A} (m : M A) (s : Serial) : option (outcome A) :=
  fst <$> m s.

(** The frame a finished call returned, if any, and the time of the
    return. *)
Definition frame_and_time
    (r : option (outcome (MircoData * gmap string pyval) * Serial))
  : option (MircoData * Z) :=
  match r with
  | Some (Ok (d, _), s') => Some (d, clock s')
  | _ => None
  end.

(** ** Concrete lines and frames *)

(** A line on which the bytes [l] are already waiting at time 0 and nothing
    comes after them. *)
Definition line_of (l : list byte) : nat -> option (Z * byte) :=
  fun i => (fun b => (0, b)) <$> l !! i.

Definition port_of (l : list byte) : Serial :=
  mkSerial (line_of l) 1000 0 0 1.

(** The byte of value [n] (0 for a value that is no byte). *)
Definition B (n : N) : byte :=
  match Byte.of_N n with
  | Some b => b
  | None => x00
  end.

(** A line that never falls silent and never carries the marker: a zero
    byte every millisecond. *)
Definition noise : nat -> option (Z * byte) :=
  fun i => Some (Z.of_nat i, x00).

Definition noise_port : Serial := mkSerial noise 1000 0 0 1.

(** Pieces of concrete frames: a header announcing one target in mode 1
    with work status 1, a footer with the terminator, and records given by
    their six scalar bytes, the curve bytes all zero. *)
Definition one_target_header : list byte :=
  [x2e; x01; x00; x00; x01; x01; x00; x00].

Definition good_footer : list byte := [xab; xcd; xee; xee].

Definition flat_record (scalars : list N) : list byte :=
  (B <$> scalars) ++ replicate 40 x00.

Definition scenario_record : list byte :=
  (B <$> [0; 10; 200; 1; 70; 75]%N) ++ replicate 40 x00.

Definition scenario_stream : list byte :=
  [x53; x59; x54; x43; x2e; x01; x00; x00; x01; x01; x00; x00]
  ++ scenario_record ++ [xab; xcd; xee; xee].

(** The frame and the dictionary of the concrete scenario, as the code
    returns them. *)
Definition scenario_frame : MircoData :=
  mkMircoData
    (mkMircoHead [0x53; 0x59; 0x54; 0x43] 0x2E 1 [0; 0] 1 1 [0; 0])
    [mkMircoBody 1 10 (-56) 1 70 75
       ([200; 1; 70; 75] ++ replicate 16 0) (replicate 20 0)]
    (mkMircoCheck [0xAB; 0xCD] [0xEE; 0xEE]).

Definition scenario_info : gmap string pyval :=
  <["data_length" := PInt 46]>
  (<["mode" := PInt 1]>
  (<["time_minutes" := PInt 0]>
  (<["num_targets" := PInt 1]>
  (<["work_status" := PInt 1]>
  (<["reserve" := PList [0; 0]]> ∅))))).

(** A valid record whose 40 bytes behind the six scalar fields are numbered
    106, 107, ..., 145, so that every curve byte shows where it came from. *)
Definition numbered_record : list byte :=
  B <$> ([1; 10; 20; 1; 70; 75]%N ++ (N.of_nat <$> seq 106 40)).

Definition numbered_stream : list byte :=
  START_SEQ ++ one_target_header ++ numbered_record ++ good_footer.

(** A record that is valid but for its azimuth byte, 128. *)
Definition azimuth_128_record : list byte :=
  flat_record [1; 10; 128; 1; 70; 75]%N.

Definition azimuth_128_stream : list byte :=
  START_SEQ ++ one_target_header ++ azimuth_128_record ++ good_footer.

(** A record whose status byte is 0, which [MircoBody] refuses. *)
Definition status_0_record : list byte := flat_record [1; 10; 20; 0; 70; 75]%N.

(** A complete frame whose one record has the status byte 0. *)
Definition status_0_stream : list byte :=
  START_SEQ ++ one_target_header ++ status_0_record ++ good_footer.

(** Marker, header and one refused record, and then silence: 54 bytes
    behind the marker where a frame of one target has 58. *)
Definition refused_no_footer : list byte :=
  START_SEQ ++ one_target_header ++ status_0_record.

(** Marker, header and the first 10 bytes of a record, and then silence. *)
Definition truncated_stream : list byte :=
  START_SEQ ++ one_target_header ++ take 10 scenario_record.

(** The scenario frame on a slow line: the marker is in at time 0 and the
    58 bytes behind it come in one every 900 ms. *)
Definition trickle : nat -> option (Z * byte) :=
  fun i => (fun b => (if (i <? 4)%nat then 0 else 900 * (Z.of_nat i - 3), b))
             <$> scenario_stream !! i.

Definition trickle_port : Serial := mkSerial trickle 1000 0 0 1.

(** A complete frame of one valid target whose header carries the work
    status byte 0. *)
Definition work_status_0_header : list byte :=
  [x2e; x01; x00; x00; x01; x00; x00; x00].

Definition work_status_0_stream : list byte :=
  START_SEQ ++ work_status_0_header
  ++ flat_record [1; 10; 20; 1; 70; 75]%N ++ good_footer.

(** A complete frame of two targets, the second with the TLV byte 3. *)
Definition two_target_header : list byte :=
  [x5c; x01; x00; x00; x02; x01; x00; x00].

Definition tlv_3_payload : list byte :=
  flat_record [0; 10; 20; 1; 70; 75]%N ++ flat_record [3; 10; 20; 1; 70; 75]%N.

Definition tlv_3_stream : list byte :=
  START_SEQ ++ two_target_header ++ tlv_3_payload ++ good_footer.

(** The scenario frame with the terminator bytes 00 00. *)
Definition zero_terminator_footer : list byte := [xab; xcd; x00; x00].

Definition zero_terminator_stream : list byte :=
  START_SEQ ++ one_target_header ++ scenario_record ++ zero_terminator_footer.

(** ** Notions for the statements about the decoder *)

(** The last four bytes of a sequence: the window of [find_start] once the
    bytes of the sequence have gone through it. *)
Definition last4 (p : list byte) : list byte := drop (length p - 4) p.

(** The marker stands at position [j] of [l]. *)
Definition marker_at (l : list byte) (j : nat) : Prop :=
  take 4 (drop j l) = START_SEQ.

(** The bytes handed to the reader between the states [s] and [s'] of the
    port. *)
Definition taken (s s' : Serial) : list byte :=
  wire (line s) (consumed s) (consumed s' - consumed s).

(** What the decoder makes of a record: the TLV byte normalized, bytes as
    values, and a respiration curve that begins with the azimuth byte, the
    status, the respiration value and the heart rate value. *)
Definition body_as_decoded (b : MircoBody) : Prop :=
  (tlv_signal b = 1 \/ tlv_signal b = 2)
  /\ 0 <= respiration_value b <= 255
  /\ 0 <= heart_rate_value b <= 255
  /\ (forall j v, respiration_curve b !! j = Some v -> 0 <= v <= 255)
  /\ (forall j v, heart_rate_curve b !! j = Some v -> 0 <= v <= 255)
  /\ respiration_curve b !! 0%nat = Some (target_azimuth b mod 256)
  /\ respiration_curve b !! 1%nat = Some (current_status b)
  /\ respiration_curve b !! 2%nat = Some (respiration_value b)
  /\ respiration_curve b !! 3%nat = Some (heart_rate_value b).

(** ** [SerialReader]

    The class of [demo.py] that owns the port; [read_loop] starts the thread
    [serial_read_thread] and polls its queue from [update_plot]. *)

Module SerialReader.

(** *** [read_loop]: the reader thread

    [serial_read_thread] collects what the port delivers in the bytearray
    [all_data], cuts it behind every [EE EE], and for each piece of 61 bytes
    or more appends twenty rows to [data.csv], one to [average1.csv] and
    puts twenty points on the queue read by [update_plot].  The two files
    are the lists of the rows appended to them.  Console output ([print])
    has no reader in the program and is left out; [datetime.now()] is the
    clock of the port, in milliseconds, so [timedelta(seconds=idx*0.05)] is
    [50 * idx]. *)

(** An item of [data_queue]. *)
Inductive item : Type :=
| Point (int_val : Z) (point_time : Z)   (* [(int_val, point_time)] *)
| ERROR.                                 (* [('ERROR', None)] *)

Record Reader : Type := mkReader {
  all_data : list byte;            (* the bytearray of the thread *)
  data_csv : list (Z * string);    (* rows appended to [data.csv] *)
  average1_csv : list Z;           (* rows appended to [average1.csv] *)
  data_queue : list item }.        (* [queue.Queue()], oldest item first *)

(** [f'{v:02X}'] for a byte value [v]. *)
Definition hex_digit (d : Z) : string :=
  String.substring (Z.to_nat d) 1 "0123456789ABCDEF".

Definition format_02X (v : Z) : string :=
  hex_digit (v / 16) +:+ hex_digit (v mod 16).

(** [enumerate(l, start)] *)
Definition enumerate {A} (start : Z) (l : list A) : list (Z * A) :=
  imap (fun i x => (start + Z.of_nat i, x)) l.

(** [for i in range(len(all_data) - 1)], up to the first [i] with
    [all_data[i] == 0xEE and all_data[i+1] == 0xEE]; [i] is the subscript
    to try next and [n] the number of subscripts left. *)
Fixpoint find_ee (all_data : list byte) (i n : nat) : option nat :=
  match n with
  | O => None
  | S n' =>
      if (raw all_data i =? 0xEE) && (raw all_data (i + 1) =? 0xEE)
      then Some i
      else find_ee all_data (S i) n'
  end.

(** [if int_val >= 128: int_val = int_val - 256] *)
Definition to_signed (int_val : Z) : Z :=
  if 128 <=? int_val then int_val - 256 else int_val.

(** The rows and the points one frame gives, from [hr_data = frame[41:61]]. *)
Definition frame_rows (frame : list byte) : list (Z * string) :=
  (fun p => (p.1, format_02X (int_of p.2)))
    <$> enumerate 1 (slice frame 41 61).

Definition frame_points (frame : list byte) (current_time : Z) : list item :=
  (fun p => Point (to_signed (int_of p.2)) (current_time + 50 * p.1))
    <$> enumerate 0 (slice frame 41 61).

(** The body of [if len(frame) >= 61]. *)
Definition record_frame (frame : list byte) (now : Z) (r : Reader)
  : Reader :=
  if 61 <=? len frame
  then mkReader (all_data r)
         (data_csv r ++ frame_rows frame)
         (average1_csv r ++ [raw frame 20])
         (data_queue r ++ frame_points frame now)
  else r.

(** The inner [while True]: frames are cut off the front of [all_data]
    until no [EE EE] is left in it. *)
Fixpoint cut_frames (fuel : nat) (now : Z) (r : Reader) : option Reader :=
  match fuel with
  | O => None
  | S fuel' =>
      match find_ee (all_data r) 0 (Z.to_nat (len (all_data r) - 1)) with
      | Some i =>
          let frame := slice (all_data r) 0 (Z.of_nat i + 2) in
          let r' := record_frame frame now r in
          cut_frames fuel' now
            (mkReader
               (slice (all_data r') (Z.of_nat i + 2) (len (all_data r')))
               (data_csv r') (average1_csv r') (data_queue r'))
      | None => Some r
      end
  end.

(** The body of the outer [while True] once [ser.read(1024)] has returned
    [data]. *)
Definition on_data (fuel : nat) (data : list byte) (now : Z) (r : Reader)
  : option Reader :=
  if bool_decide (data = []) then Some r
  else cut_frames fuel now
         (mkReader (all_data r ++ data) (data_csv r) (average1_csv r)
            (data_queue r)).

(** [serial_read_thread], [rounds] passes through its outer loop.  The
    loop has no exit of its own; an exception ends the thread with the
    item [ERROR] on the queue. *)
Fixpoint serial_read_thread (rounds fuel : nat) (r : Reader) (s : Serial)
  : option (Reader * Serial) :=
  match rounds with
  | O => Some (r, s)
  | S rounds' =>
      match ser_read 1024 s with
      | Some (Ok data, s') =>
          match on_data fuel data (clock s') r with
          | Some r' => serial_read_thread rounds' fuel r' s'
          | None => None
          end
      | Some (_, s') =>
          Some (mkReader (all_data r) (data_csv r) (average1_csv r)
                  (data_queue r ++ [ERROR]), s')
      | None => None
      end
  end.

(** The values of the points on a queue. *)
Definition point_values (q : list item) : list Z :=
  omap (fun it => match it with Point v _ => Some v | ERROR => None end) q.

(** Pieces of a buffer. *)

Definition has_ee (l : list byte) (i : nat) : Prop :=
  l !! i = Some xee /\ l !! (i + 1)%nat = Some xee.

Definition no_ee (l : list byte) : Prop := forall i, ~ has_ee l i.

(** A piece that ends with its first [EE EE]. *)
Definition is_frame (f : list byte) : Prop :=
  exists i, length f = (i + 2)%nat /\ has_ee f i
            /\ forall j, (j < i)%nat -> ~ has_ee f j.

(** The pieces the thread cuts a buffer into, and what is left. *)
Inductive cuts : list byte -> list (list byte) -> list byte -> Prop :=
| cuts_rest l : no_ee l -> cuts l [] l
| cuts_frame f l fs rest :
    is_frame f -> cuts l fs rest -> cuts (f ++ l) (f :: fs) rest.

(** What the frames of a list add to the files and to the queue. *)
Definition long_frames (fs : list (list byte)) : list (list byte) :=
  filter (fun f => 61 <= len f) fs.

(** The values [frame[41:61]] puts on the queue. *)
Definition frame_values (frame : list byte) : list Z :=
  to_signed <$> ints (slice frame 41 61).

(** What [rounds] calls of [ser.read(1024)] hand over, one behind the
    other, and the port they leave. *)
Fixpoint reads (rounds : nat) (s : Serial) : list byte * Serial :=
  match rounds with
  | O => ([], s)
  | S rounds' =>
      match ser_read 1024 s with
      | Some (Ok data, s1) =>
          let '(more, s') := reads rounds' s1 in (data ++ more, s')
      | _ => ([], s)
      end
  end.

(** *** [read_loop]: the plot

    [update_plot] runs in the Tk main loop every 100 ms.  Of the window it
    draws on, the model keeps the two labels, the curve held by the axes
    and the curve last painted by [canvas.draw()]; times are in
    milliseconds, also on the x axis.  A call works on the queue as it
    stands when the call begins. *)

(** The text of [status_label]. *)
Inductive status_text : Type :=
| Waiting_for_data                          (* "Waiting for data..." *)
| Serial_Error                              (* "Serial Error" *)
| Current_Avg (current total count : Z)
    (* f"Current: {current} | Avg (10s): {total/count:.1f}" *).

Record Plot : Type := mkPlot {
  heart_rate_data : list Z;
  times : list Z;
  status_label : status_text;
  points_label : Z;                       (* the number shown as text *)
  axes : option (list Z * list Z);        (* [None]: nothing plotted *)
  canvas : option (list Z * list Z) }.    (* what [canvas.draw()] painted *)

(** [while not data_queue.empty()]: items are taken off the queue up to
    and with the first [ERROR]. *)
Fixpoint drain (q : list item) (hr ts : list Z) (new_data_count : Z)
    (status : status_text)
  : list item * list Z * list Z * Z * status_text :=
  match q with
  | [] => ([], hr, ts, new_data_count, status)
  | ERROR :: q' => (q', hr, ts, new_data_count, Serial_Error)
  | Point hr_value point_time :: q' =>
      drain q' (hr ++ [hr_value]) (ts ++ [point_time]) (new_data_count + 1)
        status
  end.

(** [sum(l)] *)
Definition py_sum (l : list Z) : Z := foldr Z.add 0 l.

(** [list(range(n))] *)
Definition range (n : Z) : list Z := Z.of_nat <$> seq 0 (Z.to_nat n).

(** [l[-1]] of a list that is not empty. *)
Definition last_of (l : list Z) : Z := default 0 (last l).

Definition update_plot (q : list item) (p : Plot) : list item * Plot :=
  let '(q', hr, ts, new_data_count, status) :=
    drain q (heart_rate_data p) (times p) 0 (status_label p) in
  let max_points := 600 in
  let over := max_points <? len hr in
  let hr := if over then slice hr (- max_points) (len hr) else hr in
  let ts := if over then slice ts (- max_points) (len ts) else ts in
  if bool_decide (hr = []) then
    (q', mkPlot hr ts status (points_label p) (axes p) (canvas p))
  else
    let relative_times :=
      if bool_decide (ts = []) then (fun i => 1000 * i) <$> range (len hr)
      else
        let start_time := last_of ts - Z.min 30000 (50 * len hr) in
        (fun t => t - start_time) <$> slice ts (- len hr) (len ts) in
    if len relative_times =? len hr then
      let curve := Some (relative_times, hr) in
      let status :=
        Current_Avg (last_of hr) (py_sum (slice hr (-200) (len hr)))
          (Z.min 200 (len hr)) in
      (q', mkPlot hr ts status (len hr) curve
             (if 0 <? new_data_count then curve else canvas p))
    else
      (* [ax.plot] refuses x and y of different lengths; the handler of
         [update_plot] prints the error *)
      (q', mkPlot hr ts status (points_label p) None (canvas p)).

(** The points [vts], as queue items. *)
Definition points (vts : list (Z * Z)) : list item :=
  (fun vt => Point vt.1 vt.2) <$> vts.

(** The last [n] elements of a list. *)
Definition last_n {A} (n : nat) (l : list A) : list A :=
  drop (length l - n) l.

(** *** [_format_header_info]

    The method takes the dictionary [parse_frame_from_serial] returns next
    to the frame.  A subscript on a missing key raises [KeyError]; a list
    used as the key of [dict.get] raises [TypeError]. *)

Inductive format_error : Type :=
| KeyError (key : string)
| TypeError.

(** [header_data[key]] *)
Definition dict_item (header_data : gmap string pyval) (key : string)
  : format_error + pyval :=
  match header_data !! key with
  | Some v => inr v
  | None => inl (KeyError key)
  end.

(** [str(v)], as an f-string formats a value. *)
Definition py_str (v : pyval) : string :=
  match v with
  | PInt z => pretty z
  | PBool b => if b then "True" else "False"
  | PList l => "[" +:+ String.concat ", " (pretty <$> l) +:+ "]"
  end.

(** [m.get(v, default)] for a dictionary [m] with [int] keys: [True] and
    [False] hash and compare like 1 and 0, a list cannot be hashed. *)
Definition dict_get (m : gmap Z string) (v : pyval) (fallback : string)
  : format_error + string :=
  match v with
  | PInt z => inr (default fallback (m !! z))
  | PBool b => inr (default fallback (m !! (if b then 1 else 0)))
  | PList _ => inl TypeError
  end.

Definition mode_map : gmap Z string :=
  {[ 1 := "Forward Wide Area";
     2 := "Back Detection";
     3 := "Forward Narrow Area";
     4 := "Forward Tracking";
     5 := "Dual Person Monitoring" ]}.

Definition status_map : gmap Z string :=
  {[ 1 := "Normal"; 2 := "Standby"; 3 := "Abnormal" ]}.

Definition ebind {A B} (m : format_error + A) (k : A -> format_error + B)
  : format_error + B :=
  match m with
  | inl e => inl e
  | inr a => k a
  end.

Notation "x <-! m ;; k" := (ebind m (fun x => k))
  (at level 100, m at next level, right associativity) : py_scope.

Definition _format_header_info (header_data : gmap string pyval)
  : format_error + string :=
  mode <-! dict_item header_data "mode" ;;
  mode' <-! dict_item header_data "mode" ;;
  mode_str <-! dict_get mode_map mode ("Unknown(" +:+ py_str mode' +:+ ")") ;;
  work_status <-! dict_item header_data "work_status" ;;
  work_status' <-! dict_item header_data "work_status" ;;
  status_str <-! dict_get status_map work_status
                   ("Unknown(" +:+ py_str work_status' +:+ ")") ;;
  data_length <-! dict_item header_data "data_length" ;;
  time_minutes <-! dict_item header_data "time_minutes" ;;
  num_targets <-! dict_item header_data "num_targets" ;;
  reserve <-! dict_item header_data "reserve" ;;
  inr ("Data Length: " +:+ py_str data_length +:+ " bytes, "
       +:+ "Mode: " +:+ mode_str +:+ ", "
       +:+ "Time: " +:+ py_str time_minutes +:+ " mins, "
       +:+ "Targets: " +:+ py_str num_targets +:+ ", "
       +:+ "Status: " +:+ status_str +:+ ", "
       +:+ "Reserve: " +:+ py_str reserve).

(** The keys the method reads. *)
Definition format_keys : list string :=
  ["mode"; "work_status"; "data_length"; "time_minutes"; "num_targets";
   "reserve"].

Definition hashable (v : pyval) : Prop :=
  match v with PList _ => False | _ => True end.

End SerialReader.
Import SerialReader.

(** ** More lines, frames and queues *)

(** The scenario stream behind three bytes that begin like the marker. *)
Definition noisy_scenario : list byte := [x53; x59; x00] ++ scenario_stream.

(** Three bytes, none of the marker. *)
Definition three_noise_bytes : list byte := [x00; x01; x02].

(** The port of [truncated_stream] behind marker and header: 10 bytes of
    the record are waiting and nothing follows. *)
Definition short_payload_port : Serial :=
  advance (port_of truncated_stream) 12.

(** The scenario frame on a line that delivers the marker at once and the
    58 bytes behind it after 1.5 s. *)
Definition late_frame : nat -> option (Z * byte) :=
  fun i => (fun b => (if (i <? 4)%nat then 0 else 1500, b))
             <$> scenario_stream !! i.

(** The scenario frame between three bytes that begin like the marker and
    two bytes of another message. *)
Definition garbage_then_scenario : list byte :=
  [x53; x59; x00] ++ START_SEQ ++ one_target_header ++ scenario_record
  ++ good_footer ++ [x11; x22].

(** Two frames back to back: the scenario frame and the frame with the
    numbered record and the terminator 00 00. *)
Definition two_frames : list byte :=
  START_SEQ ++ one_target_header ++ scenario_record ++ good_footer
  ++ START_SEQ ++ one_target_header ++ numbered_record
  ++ zero_terminator_footer ++ [].

(** Marker, header and a record with the status byte 0, then the four
    bytes of its footer and the scenario frame. *)
Definition refused_then_scenario : list byte :=
  START_SEQ ++ one_target_header ++ status_0_record
  ++ good_footer ++ START_SEQ ++ one_target_header ++ scenario_record
  ++ good_footer ++ [].

(** A header that announces no target. *)
Definition no_target_header : list byte :=
  [x00; x01; x00; x00; x00; x01; x00; x00].

(** The frame without targets, and one byte of the next message. *)
Definition no_target_stream : list byte :=
  START_SEQ ++ no_target_header ++ good_footer ++ [x07].

(** The numbered record with other bytes in its last four places. *)
Definition numbered_record_other_tail : list byte :=
  take 42 numbered_record ++ [xff; xfe; xfd; xfc].

(** A buffer of two pieces that end in [EE EE], the second the scenario
    frame, and two bytes more. *)
Definition two_pieces_and_a_tail : list byte :=
  [x01; xee; xee] ++ scenario_stream ++ [x02; xee].

(** A queue of a thousand points, one every 50 ms. *)
Definition thousand_points : list item :=
  (fun i => Point (Z.of_nat i) (50 * Z.of_nat i)) <$> seq 0 1000.

Arguments read_exact : simpl never.
Arguments find_start : simpl never.
Arguments ser_read : simpl never.
Arguments parse_body : simpl never.

(** * Properties *)

(** ** Bytes, subscripts and slices *)

Lemma int_of_range (b : byte) : 0 <= int_of b <= 255.
Proof.
  unfold int_of. pose proof (Byte.to_N_bounded b). lia.
Qed.

Lemma len_app {A} (s1 s2 : list A) : len (s1 ++ s2) = len s1 + len s2.
Proof. unfold len. rewrite length_app. lia. Qed.

Lemma getitem_lookup {A} (s : list A) (i : nat) (x : A) :
  s !! i = Some x -> getitem s (Z.of_nat i) = Ok x.
Proof.
  intros H. unfold getitem.
  destruct (Z.ltb_spec (Z.of_nat i) 0) as [?|_]; [lia|].
  destruct (Z.ltb_spec (Z.of_nat i) 0) as [?|_]; [lia|].
  rewrite Nat2Z.id, H. reflexivity.
Qed.

Lemma raw_range (s : list byte) (i : nat) : 0 <= raw s i <= 255.
Proof.
  unfold raw. destruct (s !! i) as [b|]; simpl; [apply int_of_range|lia].
Qed.

Lemma byte_at_raw (s : list byte) (i : nat) :
  (i < length s)%nat -> byte_at s (Z.of_nat i) = Ok (raw s i).
Proof.
  intros Hi. destruct (lookup_lt_is_Some_2 s i Hi) as [b Hb].
  unfold byte_at, raw. rewrite (getitem_lookup _ _ _ Hb), Hb. reflexivity.
Qed.

Lemma byte_at_index (s : list byte) (i : Z) :
  0 <= i < len s -> byte_at s i = Ok (raw s (Z.to_nat i)).
Proof.
  intros Hi. rewrite <- (Z2Nat.id i) at 1 by lia.
  apply byte_at_raw. unfold len in Hi. lia.
Qed.

Lemma slice_nonneg {A} (s : list A) (lo hi : Z) :
  0 <= lo <= hi -> hi <= len s ->
  slice s lo hi = take (Z.to_nat (hi - lo)) (drop (Z.to_nat lo) s).
Proof.
  intros H1 H2. unfold slice, slice_bound.
  destruct (Z.ltb_spec lo 0); [lia|]. destruct (Z.ltb_spec hi 0); [lia|].
  rewrite !Z.min_l by lia. reflexivity.
Qed.

Lemma slice_from_end {A} (s : list A) (lo hi : Z) :
  - len s <= lo <= hi -> hi < 0 ->
  slice s lo hi
  = take (Z.to_nat (hi - lo)) (drop (Z.to_nat (len s + lo)) s).
Proof.
  intros H1 H2. unfold slice, slice_bound.
  destruct (Z.ltb_spec lo 0); [|lia]. destruct (Z.ltb_spec hi 0); [|lia].
  rewrite !Z.max_l by lia. f_equal; f_equal; lia.
Qed.

(** ** The monad *)

Lemma bind_Some {A B} (m : M A) (k : A -> M B) s a s' :
  m s = Some (Ok a, s') -> bind m k s = k a s'.
Proof. intros H. unfold bind. rewrite H. reflexivity. Qed.

Lemma bind_inv {A B} (m : M A) (k : A -> M B) s r :
  bind m k s = Some r ->
  (exists a s', m s = Some (Ok a, s') /\ k a s' = Some r)
  \/ (exists s', m s = Some (ReturnNone, s') /\ r = (ReturnNone, s'))
  \/ (exists e s', m s = Some (Raised e, s') /\ r = (Raised e, s')).
Proof.
  unfold bind. destruct (m s) as [[[a| |e] s']|]; intros H.
  - left. eauto.
  - right. left. exists s'. split; congruence.
  - right. right. exists e, s'. split; congruence.
  - discriminate.
Qed.

(** ** The line and [ser.read] *)

Lemma arrived_length_le ln t i n : (length (arrived ln t i n) <= n)%nat.
Proof.
  revert i. induction n as [|n IH]; intros i; simpl; [lia|].
  destruct (ln i) as [[a b]|]; simpl; [|lia].
  destruct (a <=? t); simpl; [|lia]. specialize (IH (S i)). lia.
Qed.

Lemma arrived_lookup ln t i n j x :
  arrived ln t i n !! j = Some x -> ln (i + j)%nat = Some x /\ x.1 <= t.
Proof.
  revert i j. induction n as [|n IH]; intros i j; simpl; [discriminate|].
  destruct (ln i) as [[a b]|] eqn:Hi; [|discriminate].
  destruct (Z.leb_spec a t) as [Hat|Hat]; [|discriminate].
  destruct j as [|j]; simpl.
  - intros [= <-]. rewrite Nat.add_0_r. auto.
  - intros Hj. apply IH in Hj.
    replace (i + S j)%nat with (S i + j)%nat by lia. exact Hj.
Qed.

Lemma arrived_full ln t i n :
  (forall j, (j < n)%nat -> exists x, ln (i + j)%nat = Some x /\ x.1 <= t) ->
  length (arrived ln t i n) = n.
Proof.
  revert i. induction n as [|n IH]; intros i H; simpl; [reflexivity|].
  destruct (H 0%nat) as [[a b] [H0 Ha]]; [lia|].
  rewrite Nat.add_0_r in H0. rewrite H0. simpl in Ha.
  destruct (Z.leb_spec a t); [|lia]. simpl. f_equal. apply IH.
  intros j Hj. destruct (H (S j)) as [x Hx]; [lia|].
  exists x. replace (S i + j)%nat with (i + S j)%nat by lia. exact Hx.
Qed.

Lemma arrived_wire ln t i n :
  (arrived ln t i n).*2 = wire ln i (length (arrived ln t i n)).
Proof.
  revert i. induction n as [|n IH]; intros i; simpl; [reflexivity|].
  destruct (ln i) as [[a b]|] eqn:Hi; simpl; [|reflexivity].
  destruct (a <=? t); simpl; [|reflexivity].
  rewrite Hi. f_equal. apply IH.
Qed.

Lemma wire_app ln i n m :
  length (wire ln i n) = n ->
  wire ln i (n + m) = wire ln i n ++ wire ln (i + n) m.
Proof.
  revert i. induction n as [|n IH]; intros i; simpl.
  - intros _. rewrite Nat.add_0_r. reflexivity.
  - destruct (ln i) as [[a b]|]; simpl; [|discriminate].
    intros [= Hlen]. rewrite (IH _ Hlen). do 2 f_equal. f_equal. lia.
Qed.

Lemma wire_lookup ln i n j b :
  wire ln i n !! j = Some b -> exists a, ln (i + j)%nat = Some (a, b).
Proof.
  revert i j. induction n as [|n IH]; intros i j; simpl; [discriminate|].
  destruct (ln i) as [[a b']|] eqn:Hi; [|discriminate].
  destruct j as [|j]; simpl.
  - intros [= <-]. rewrite Nat.add_0_r. eauto.
  - intros Hj. apply IH in Hj.
    replace (i + S j)%nat with (S i + j)%nat by lia. exact Hj.
Qed.

Lemma all_in_ge now got : now <= all_in now got.
Proof.
  induction got as [|x got IH]; simpl; lia.
Qed.

Lemma all_in_early now (got : list (Z * byte)) :
  (forall j x, got !! j = Some x -> x.1 <= now) -> all_in now got = now.
Proof.
  induction got as [|x got IH]; intros H; simpl; [reflexivity|].
  rewrite IH by (intros j y Hy; apply (H (S j) y Hy)).
  pose proof (H 0%nat x eq_refl). lia.
Qed.

(** What one [ser.read] does to the port, whatever the line. *)
Lemma ser_read_spec (size : Z) (s : Serial) :
  exists bs s',
    ser_read size s = Some (Ok bs, s')
    /\ line s' = line s /\ read_timeout s' = read_timeout s
    /\ consumed s' = (consumed s + length bs)%nat
    /\ (length bs <= Z.to_nat size)%nat
    /\ bs = wire (line s) (consumed s) (length bs)
    /\ (0 <= read_timeout s -> clock s <= clock s')
    /\ (len bs < size
        -> clock s' = clock s + read_timeout s + Z.pos (overrun s)).
Proof.
  unfold ser_read.
  set (got := arrived _ _ _ _).
  eexists _, _. split; [reflexivity|]. simpl.
  split; [reflexivity|]. split; [reflexivity|].
  rewrite length_fmap. split; [reflexivity|].
  split; [apply arrived_length_le|].
  split; [apply arrived_wire|].
  unfold len. rewrite length_fmap. split.
  - intros HT. destruct (Z.ltb_spec (Z.of_nat (length got)) size); [lia|].
    apply all_in_ge.
  - intros Hlt. destruct (Z.ltb_spec (Z.of_nat (length got)) size); [|lia].
    reflexivity.
Qed.

Lemma prompt_advance s l n :
  prompt s l -> prompt (advance s n) (drop n l).
Proof.
  intros H j b Hj. rewrite lookup_drop in Hj.
  destruct (H _ _ Hj) as [a [Ha1 Ha2]].
  exists a. simpl. split; [|exact Ha2].
  rewrite <- Ha1. f_equal. lia.
Qed.

(** Bytes that are already in are handed over at once, and the clock does
    not move. *)
Lemma ser_read_prompt (size : Z) (s : Serial) (l : list byte) :
  0 <= read_timeout s -> prompt s l -> 0 <= size <= len l ->
  ser_read size s
  = Some (Ok (take (Z.to_nat size) l), advance s (Z.to_nat size)).
Proof.
  intros HT Hp Hsz. unfold ser_read.
  set (got := arrived _ _ _ _).
  assert (Hgot : forall j x, got !! j = Some x ->
            exists b, l !! j = Some b /\ x.2 = b /\ x.1 <= clock s).
  { intros j x Hx. pose proof (lookup_lt_Some _ _ _ Hx) as Hj.
    pose proof (arrived_length_le (line s) (clock s + read_timeout s)
                  (consumed s) (Z.to_nat size)) as Hle. fold got in Hle.
    apply arrived_lookup in Hx as [Hx _].
    destruct (lookup_lt_is_Some_2 l j) as [b Hb]; [unfold len in Hsz; lia|].
    destruct (Hp _ _ Hb) as [a [Ha1 Ha2]].
    exists b. rewrite Hx in Ha1. injection Ha1 as ->. auto. }
  assert (Hfull : length got = Z.to_nat size).
  { apply arrived_full. intros j Hj.
    destruct (lookup_lt_is_Some_2 l j) as [b Hb]; [unfold len in Hsz; lia|].
    destruct (Hp _ _ Hb) as [a [Ha1 Ha2]].
    exists (a, b). split; [exact Ha1|]. simpl. lia. }
  assert (Hbytes : got.*2 = take (Z.to_nat size) l).
  { apply list_eq. intros j. rewrite list_lookup_fmap.
    destruct (got !! j) as [x|] eqn:Hx; simpl.
    - destruct (Hgot _ _ Hx) as (b & Hb & -> & _).
      pose proof (lookup_lt_Some _ _ _ Hx).
      rewrite lookup_take_lt by lia. congruence.
    - apply lookup_ge_None in Hx. symmetry. apply lookup_ge_None.
      rewrite length_take. lia. }
  assert (Hclock : all_in (clock s) got = clock s).
  { apply all_in_early. intros j x Hx.
    destruct (Hgot _ _ Hx) as (_ & _ & _ & Ha). exact Ha. }
  unfold len. rewrite Hfull, Hbytes, Hclock.
  destruct (Z.ltb_spec (Z.of_nat (Z.to_nat size)) size); [lia|].
  reflexivity.
Qed.

(** A read that finds nothing in before its deadline hands back nothing
    and comes back behind the deadline. *)
Lemma ser_read_idle (size : Z) (s : Serial) :
  0 < size ->
  (forall a b, line s (consumed s) = Some (a, b)
               -> clock s + read_timeout s < a) ->
  ser_read size s
  = Some (Ok [],
          mkSerial (line s) (read_timeout s) (consumed s)
            (clock s + read_timeout s + Z.pos (overrun s)) (overrun s)).
Proof.
  intros Hsize Hlate. unfold ser_read.
  destruct (Z.to_nat size) as [|n] eqn:Hn; [lia|]. cbn [arrived].
  assert (Hgot : match line s (consumed s) with
                 | Some (a, b) =>
                     if a <=? clock s + read_timeout s
                     then (a, b) :: arrived (line s)
                                      (clock s + read_timeout s)
                                      (S (consumed s)) n
                     else []
                 | None => []
                 end = []).
  { destruct (line s (consumed s)) as [[a b]|] eqn:Hl; [|reflexivity].
    specialize (Hlate a b eq_refl).
    destruct (Z.leb_spec a (clock s + read_timeout s)); [lia|reflexivity]. }
  rewrite Hgot. change (len (@nil (Z * byte))) with 0.
  destruct (Z.ltb_spec 0 size); [|lia].
  simpl. rewrite Nat.add_0_r. reflexivity.
Qed.

(** ** [read_exact] *)

(** One turn of the loop of [read_exact]. *)
Lemma read_exact_loop_S fuel size timeout start buf s :
  read_exact_loop (S fuel) size timeout start buf s
  = if len buf <? size then
      match ser_read (size - len buf) s with
      | Some (Ok chunk, s1) =>
          if negb (len chunk =? 0)
          then read_exact_loop fuel size timeout start (buf ++ chunk) s1
          else if match timeout with
                  | Some t => clock s1 - start >? t
                  | None => false
                  end
               then Some (Ok buf, s1)
               else read_exact_loop fuel size timeout start buf
                      (mkSerial (line s1) (read_timeout s1) (consumed s1)
                         (clock s1 + 10) (overrun s1))
      | Some (ReturnNone, s1) => Some (ReturnNone, s1)
      | Some (Raised e, s1) => Some (Raised e, s1)
      | None => None
      end
    else Some (Ok buf, s).
Proof.
  cbn [read_exact_loop]. destruct (len buf <? size); [|reflexivity].
  unfold bind at 1.
  destruct (ser_read _ s) as [[[chunk| |e] s1]|]; try reflexivity.
  destruct (negb _); [reflexivity|].
  unfold bind, time_time, time_sleep, ret. cbn [clock].
  destruct timeout as [t|]; [destruct (_ >? _)|]; reflexivity.
Qed.

(** More fuel does not change the result of a call that returned. *)
Lemma read_exact_loop_mono fuel fuel' size timeout start buf s r :
  (fuel <= fuel')%nat ->
  read_exact_loop fuel size timeout start buf s = Some r ->
  read_exact_loop fuel' size timeout start buf s = Some r.
Proof.
  revert fuel' buf s. induction fuel as [|fuel IH]; intros fuel' buf s Hle H.
  - discriminate.
  - destruct fuel' as [|fuel']; [lia|].
    rewrite read_exact_loop_S in *.
    destruct (len buf <? size); [|exact H].
    destruct (ser_read _ s) as [[[chunk| |e] s1]|]; try exact H.
    destruct (negb _); [apply IH; [lia|exact H]|].
    destruct (match timeout with Some _ => _ | None => _ end); [exact H|].
    apply IH; [lia|exact H].
Qed.

Lemma read_exact_mono fuel fuel' size timeout s r :
  (fuel <= fuel')%nat ->
  read_exact fuel size timeout s = Some r ->
  read_exact fuel' size timeout s = Some r.
Proof.
  unfold read_exact, bind, time_time. apply read_exact_loop_mono.
Qed.

(** A call of the loop that returns hands back the buffer, extended by the
    next bytes of the line in their order, never more than [size] in all,
    and leaves the port just behind them. *)
Lemma read_exact_loop_spec fuel size timeout start buf s o s' :
  read_exact_loop fuel size timeout start buf s = Some (o, s') ->
  exists n : nat,
    o = Ok (buf ++ wire (line s) (consumed s) n)
    /\ length (wire (line s) (consumed s) n) = n
    /\ line s' = line s /\ read_timeout s' = read_timeout s
    /\ consumed s' = (consumed s + n)%nat
    /\ (0 <= read_timeout s -> clock s <= clock s')
    /\ len buf + Z.of_nat n <= Z.max (len buf) size.
Proof.
  revert buf s. induction fuel as [|fuel IH]; intros buf s H.
  - discriminate.
  - rewrite read_exact_loop_S in H.
    destruct (Z.ltb_spec (len buf) size) as [Hlt|Hge].
    + destruct (ser_read_spec (size - len buf) s)
        as (bs & s1 & Hrd & Hl & Ht & Hc & Hn & Hw & Hck & Hidle).
      rewrite Hrd in H.
      destruct (Z.eqb_spec (len bs) 0) as [Hz|Hnz]; simpl in H.
      * assert (bs = []) as -> by (destruct bs; [reflexivity|discriminate]).
        simpl in Hc. rewrite Nat.add_0_r in Hc.
        destruct (match timeout with Some _ => _ | None => _ end).
        -- injection H as <- <-. exists 0%nat. simpl.
           rewrite app_nil_r, Nat.add_0_r. repeat split; auto; lia.
        -- apply IH in H. simpl in H.
           destruct H as (n & Ho & H1 & H2 & H3 & H4 & H5 & H6).
           rewrite Hl, Hc in *. exists n.
           repeat split; auto; try congruence; lia.
      * apply IH in H.
        destruct H as (n & Ho & H1 & H2 & H3 & H4 & H5 & H6).
        rewrite Hl, Hc in *. exists (length bs + n)%nat.
        assert (Hfull : length (wire (line s) (consumed s) (length bs))
                        = length bs) by (rewrite <- Hw; reflexivity).
        rewrite (wire_app _ _ _ n Hfull), <- Hw, app_assoc.
        rewrite length_app, H1. rewrite len_app in H6.
        unfold len in *. repeat split; auto; try congruence; lia.
    + injection H as <- <-. exists 0%nat. simpl.
      rewrite app_nil_r, Nat.add_0_r. repeat split; auto; lia.
Qed.

(** [read_exact] never raises and never makes its caller return: when it
    comes back it hands over the next bytes of the line, at most [size]. *)
Lemma read_exact_spec fuel size timeout s o s' :
  read_exact fuel size timeout s = Some (o, s') ->
  exists buf,
    o = Ok buf
    /\ buf = wire (line s) (consumed s) (length buf)
    /\ line s' = line s /\ read_timeout s' = read_timeout s
    /\ consumed s' = (consumed s + length buf)%nat
    /\ (0 <= read_timeout s -> clock s <= clock s')
    /\ len buf <= Z.max 0 size.
Proof.
  unfold read_exact, bind, time_time. intros H.
  apply read_exact_loop_spec in H.
  destruct H as (n & -> & H1 & H2 & H3 & H4 & H5 & H6).
  simpl in *. exists (wire (line s) (consumed s) n).
  rewrite H1. unfold len in *. simpl in H6. rewrite H1.
  repeat split; auto.
Qed.

(** With a timeout, [read_exact] comes back: every turn of the loop either
    takes bytes off what is still wanted or, the read having stayed idle,
    moves the clock 10 ms nearer to the time where it gives up. *)
Lemma read_exact_loop_terminates fuel size t start buf s :
  0 <= read_timeout s ->
  (Z.to_nat (size - len buf) + Z.to_nat (start + t + 10 - clock s) < fuel)%nat ->
  exists r, read_exact_loop fuel size (Some t) start buf s = Some r.
Proof.
  revert buf s. induction fuel as [|fuel IH]; intros buf s HT Hfuel; [lia|].
  rewrite read_exact_loop_S.
  destruct (Z.ltb_spec (len buf) size) as [Hlt|Hge]; [|eauto].
  destruct (ser_read_spec (size - len buf) s)
    as (bs & s1 & Hrd & Hl & Ht & Hc & Hn & Hw & Hck & Hidle).
  rewrite Hrd. specialize (Hck HT).
  destruct (Z.eqb_spec (len bs) 0) as [Hz|Hnz]; simpl.
  - destruct (Z.gtb_spec (clock s1 - start) t) as [Hgt|Hle]; [eauto|].
    apply IH; simpl; [lia|]. rewrite Hidle by lia. lia.
  - apply IH; [lia|]. rewrite len_app. unfold len in *. lia.
Qed.

Lemma read_exact_terminates fuel size t s :
  0 <= read_timeout s ->
  (Z.to_nat size + Z.to_nat (t + 10) < fuel)%nat ->
  exists buf s', read_exact fuel size (Some t) s = Some (Ok buf, s').
Proof.
  intros HT Hfuel.
  destruct (read_exact_loop_terminates fuel size t (clock s) [] s HT)
    as [[o s'] Hr].
  { unfold len. simpl. replace (clock s + t + 10 - clock s) with (t + 10) by lia.
    rewrite Z.sub_0_r. exact Hfuel. }
  assert (H : read_exact fuel size (Some t) s = Some (o, s')) by exact Hr.
  destruct (read_exact_spec _ _ _ _ _ _ H) as (buf & -> & _).
  eauto.
Qed.

Lemma wire_silent ln i n m :
  ln (i + m)%nat = None -> (length (wire ln i n) <= m)%nat.
Proof.
  revert i m. induction n as [|n IH]; intros i m H; simpl; [lia|].
  destruct (ln i) as [[a b]|] eqn:Hi; simpl; [|lia].
  destruct m as [|m]; [rewrite Nat.add_0_r in H; congruence|].
  specialize (IH (S i) m). replace (S i + m)%nat with (i + S m)%nat in IH by lia.
  specialize (IH H). lia.
Qed.

Lemma advance_0 s : advance s 0 = s.
Proof. destruct s. unfold advance. simpl. f_equal. lia. Qed.

Lemma advance_advance s n m : advance (advance s n) m = advance s (n + m).
Proof. unfold advance. simpl. f_equal. lia. Qed.

(** Bytes that are already in are read in one turn. *)
Lemma read_exact_prompt fuel size timeout s l :
  0 <= read_timeout s -> prompt s l -> 0 <= size <= len l ->
  (2 <= fuel)%nat ->
  read_exact fuel size timeout s
  = Some (Ok (take (Z.to_nat size) l), advance s (Z.to_nat size)).
Proof.
  intros HT Hp Hsz Hfuel. unfold read_exact, bind, time_time.
  destruct fuel as [|[|fuel]]; [lia|lia|].
  rewrite read_exact_loop_S. change (len (@nil byte)) with 0.
  destruct (Z.ltb_spec 0 size) as [Hpos|Hz].
  - rewrite Z.sub_0_r, (ser_read_prompt _ _ _ HT Hp Hsz).
    assert (Hlen : len (take (Z.to_nat size) l) = size).
    { unfold len in *. rewrite length_take. lia. }
    rewrite Hlen. destruct (Z.eqb_spec size 0); [lia|]. cbn [negb app].
    rewrite read_exact_loop_S, Hlen, Z.ltb_irrefl. reflexivity.
  - replace size with 0 by lia. simpl. rewrite advance_0, take_0. reflexivity.
Qed.

(** When nothing comes in before the deadline of the first read and the
    timeout of the call is not longer than the port's, [read_exact] gives up
    behind that read. *)
Lemma read_exact_idle fuel size timeout s :
  0 < size ->
  (forall a b, line s (consumed s) = Some (a, b)
               -> clock s + read_timeout s < a) ->
  timeout <= read_timeout s ->
  read_exact (S fuel) size (Some timeout) s
  = Some (Ok [],
          mkSerial (line s) (read_timeout s) (consumed s)
            (clock s + read_timeout s + Z.pos (overrun s)) (overrun s)).
Proof.
  intros Hsize Hlate Ht. unfold read_exact, bind, time_time.
  rewrite read_exact_loop_S. change (len (@nil byte)) with 0.
  destruct (Z.ltb_spec 0 size); [|lia].
  rewrite Z.sub_0_r, (ser_read_idle size s Hsize Hlate).
  change (len (@nil byte) =? 0) with true. cbn [negb clock].
  destruct (Z.gtb_spec (clock s + read_timeout s + Z.pos (overrun s) - clock s)
              timeout); [reflexivity|lia].
Qed.

(** ** [find_start] *)

(** One turn of the loop of [find_start]. *)
Lemma find_start_loop_S fuel timeout start_time window s :
  find_start_loop (S fuel) timeout start_time window s
  = match ser_read 1 s with
    | Some (Ok b, s1) =>
        if len b =? 0 then
          if clock s1 - start_time >? timeout then Some (Ok false, s1)
          else find_start_loop fuel timeout start_time window s1
        else if bool_decide (slide window b = START_SEQ)
             then Some (Ok true, s1)
             else find_start_loop fuel timeout start_time (slide window b) s1
    | Some (ReturnNone, s1) => Some (ReturnNone, s1)
    | Some (Raised e, s1) => Some (Raised e, s1)
    | None => None
    end.
Proof.
  cbn [find_start_loop]. unfold bind at 1.
  destruct (ser_read 1 s) as [[[b| |e] s1]|]; try reflexivity.
  destruct (len b =? 0).
  - unfold bind, time_time, ret.
    destruct (clock s1 - start_time >? timeout); reflexivity.
  - fold (slide window b). destruct (bool_decide _); reflexivity.
Qed.

Lemma find_start_loop_mono fuel fuel' timeout start_time window s r :
  (fuel <= fuel')%nat ->
  find_start_loop fuel timeout start_time window s = Some r ->
  find_start_loop fuel' timeout start_time window s = Some r.
Proof.
  revert fuel' window s.
  induction fuel as [|fuel IH]; intros fuel' window s Hle H; [discriminate|].
  destruct fuel' as [|fuel']; [lia|].
  rewrite find_start_loop_S in *.
  destruct (ser_read 1 s) as [[[b| |e] s1]|]; try exact H.
  destruct (len b =? 0).
  - destruct (_ >? _); [exact H|]. apply IH; [lia|exact H].
  - destruct (bool_decide _); [exact H|]. apply IH; [lia|exact H].
Qed.

Lemma find_start_mono fuel fuel' timeout s r :
  (fuel <= fuel')%nat ->
  find_start fuel timeout s = Some r -> find_start fuel' timeout s = Some r.
Proof.
  unfold find_start, bind, time_time. apply find_start_loop_mono.
Qed.

(** When nothing comes in before the deadline of the first read and the
    timeout of the call is not longer than the port's, the search gives up
    behind that read. *)
Lemma find_start_idle fuel timeout s :
  (forall a b, line s (consumed s) = Some (a, b)
               -> clock s + read_timeout s < a) ->
  timeout <= read_timeout s ->
  find_start (S fuel) timeout s
  = Some (Ok false,
          mkSerial (line s) (read_timeout s) (consumed s)
            (clock s + read_timeout s + Z.pos (overrun s)) (overrun s)).
Proof.
  intros Hlate Ht. unfold find_start, bind, time_time.
  rewrite find_start_loop_S, (ser_read_idle 1 s ltac:(lia) Hlate).
  change (len (@nil byte) =? 0) with true. cbn [clock].
  destruct (Z.gtb_spec (clock s + read_timeout s + Z.pos (overrun s) - clock s)
              timeout); [reflexivity|lia].
Qed.

(** [find_start] answers [True] or [False] when it comes back; it only
    moves forward on the line. *)
Lemma find_start_loop_spec fuel timeout start_time window s o s' :
  find_start_loop fuel timeout start_time window s = Some (o, s') ->
  (exists found : bool, o = Ok found)
  /\ line s' = line s /\ read_timeout s' = read_timeout s
  /\ (consumed s <= consumed s')%nat.
Proof.
  revert window s. induction fuel as [|fuel IH]; intros window s H.
  - discriminate.
  - rewrite find_start_loop_S in H.
    destruct (ser_read_spec 1 s)
      as (bs & s1 & Hrd & Hl & Ht & Hc & Hn & Hw & Hck & Hidle).
    rewrite Hrd in H.
    assert (Hnext : forall w,
              find_start_loop fuel timeout start_time w s1 = Some (o, s') ->
              (exists found : bool, o = Ok found)
              /\ line s' = line s /\ read_timeout s' = read_timeout s
              /\ (consumed s <= consumed s')%nat).
    { intros w Hw'. apply IH in Hw'. destruct Hw' as (Ho & H1 & H2 & H3).
      repeat split; auto; try congruence; lia. }
    destruct (len bs =? 0).
    + destruct (_ >? _); [|eauto].
      injection H as <- <-. repeat split; eauto; lia.
    + destruct (bool_decide _); [|eauto].
      injection H as <- <-. repeat split; eauto; lia.
Qed.

Lemma find_start_spec fuel timeout s o s' :
  find_start fuel timeout s = Some (o, s') ->
  (exists found : bool, o = Ok found)
  /\ line s' = line s /\ read_timeout s' = read_timeout s
  /\ (consumed s <= consumed s')%nat.
Proof.
  unfold find_start, bind, time_time. apply find_start_loop_spec.
Qed.

Lemma scan_length window l rest :
  scan window l = Some rest -> (length rest < length l)%nat.
Proof.
  revert window. induction l as [|b l IH]; intros window; simpl.
  - discriminate.
  - destruct (bool_decide _).
    + intros [= ->]. lia.
    + intros H. apply IH in H. lia.
Qed.

(** On bytes that are already in, the search stops just behind the first
    point where the window equals the marker. *)
Lemma find_start_loop_prompt fuel timeout start_time window s l rest :
  0 <= read_timeout s -> prompt s l -> scan window l = Some rest ->
  (length l - length rest <= fuel)%nat ->
  find_start_loop fuel timeout start_time window s
  = Some (Ok true, advance s (length l - length rest)).
Proof.
  revert fuel window s.
  induction l as [|b l IH]; intros fuel window s HT Hp Hscan Hfuel.
  - discriminate.
  - pose proof (scan_length _ _ _ Hscan) as Hlen. simpl in Hscan, Hlen.
    destruct fuel as [|fuel]; [simpl in Hfuel; lia|].
    rewrite find_start_loop_S.
    rewrite (ser_read_prompt 1 s (b :: l) HT Hp)
      by (unfold len; simpl length; lia).
    change (take (Z.to_nat 1) (b :: l)) with [b].
    change (len [b] =? 0) with false. cbn iota.
    destruct (bool_decide (slide window [b] = START_SEQ)).
    + injection Hscan as <-. do 2 f_equal. f_equal. simpl. lia.
    + rewrite (IH fuel (slide window [b]) (advance s (Z.to_nat 1)) HT).
      * rewrite advance_advance. do 2 f_equal. f_equal. simpl length. lia.
      * apply (prompt_advance s (b :: l) 1 Hp).
      * exact Hscan.
      * simpl in Hfuel. lia.
Qed.

Lemma find_start_prompt fuel timeout s l rest :
  0 <= read_timeout s -> prompt s l -> scan [] l = Some rest ->
  (length l - length rest <= fuel)%nat ->
  find_start fuel timeout s
  = Some (Ok true, advance s (length l - length rest)).
Proof.
  intros. unfold find_start, bind, time_time.
  apply find_start_loop_prompt with (l := l); assumption.
Qed.

(** ** Records *)

Ltac case_cmp :=
  repeat match goal with
    | |- context [?a <=? ?b] => destruct (Z.leb_spec a b)
    | |- context [?a <? ?b] => destruct (Z.ltb_spec a b)
    | |- context [?a =? ?b] => destruct (Z.eqb_spec a b)
    end.

Lemma parse_body_46 (chunk : list byte) :
  length chunk = 46%nat -> parse_body chunk = new_MircoBody (fields chunk).
Proof.
  intros Hlen. assert (Hl : len chunk = 46) by (unfold len; lia).
  unfold parse_body, BODY_SIZE. rewrite Hl. cbn [Z.ltb Z.compare Pos.compare Pos.compare_cont].
  rewrite !byte_at_index by lia. cbn [obind].
  rewrite !slice_from_end by lia. rewrite Hl. reflexivity.
Qed.

Lemma fields_valid (chunk : list byte) :
  length chunk = 46%nat -> MircoBody_valid (fields chunk) = record_ok chunk.
Proof.
  intros Hlen. unfold MircoBody_valid, fields, record_ok, ge_le, length_is.
  cbn [tlv_signal target_distance target_azimuth current_status
       respiration_curve heart_rate_curve].
  assert (H20 : forall k, (k + 20 <= 46)%nat ->
            len (ints (take 20 (drop k chunk))) = 20).
  { intros k Hk. unfold len, ints.
    rewrite length_fmap, length_take, length_drop. lia. }
  rewrite !H20 by lia.
  pose proof (raw_range chunk 0). pose proof (raw_range chunk 1).
  pose proof (raw_range chunk 2).
  destruct (Z.eqb_spec (raw chunk 0) 0);
    destruct (Z.leb_spec (raw chunk 2) 127);
    case_cmp; simpl; try reflexivity; lia.
Qed.

Lemma parse_body_ok (chunk : list byte) :
  length chunk = 46%nat -> record_ok chunk = true ->
  parse_body chunk = Ok (fields chunk).
Proof.
  intros Hlen Hok. rewrite parse_body_46 by exact Hlen.
  unfold new_MircoBody, validated. rewrite fields_valid, Hok by exact Hlen.
  reflexivity.
Qed.

Lemma parse_body_refused (chunk : list byte) :
  length chunk = 46%nat -> record_ok chunk = false ->
  parse_body chunk = Raised ValidationError.
Proof.
  intros Hlen Hok. rewrite parse_body_46 by exact Hlen.
  unfold new_MircoBody, validated. rewrite fields_valid, Hok by exact Hlen.
  reflexivity.
Qed.

Lemma length_record (bb : list byte) (i : nat) :
  (46 * S i <= length bb)%nat -> length (record bb i) = 46%nat.
Proof.
  intros H. unfold record. rewrite length_take, length_drop. lia.
Qed.

(** The [for] loop over a payload that holds its [n] records: every record
    is decoded in order, or the first one the model refuses raises. *)
Lemma parse_bodies_from (n i : nat) (bb : list byte) (acc : list MircoBody) :
  (46 * (i + n) <= length bb)%nat ->
  parse_bodies n bb (Z.of_nat (46 * i)) acc
  = if forallb record_ok (record bb <$> seq i n)
    then Ok (acc ++ (fields <$> (record bb <$> seq i n)))
    else Raised ValidationError.
Proof.
  revert i acc. induction n as [|n IH]; intros i acc Hlen.
  - simpl. rewrite app_nil_r. reflexivity.
  - cbn [parse_bodies seq fmap list_fmap forallb].
    assert (Hchunk : slice bb (Z.of_nat (46 * i)) (Z.of_nat (46 * i) + BODY_SIZE)
                     = record bb i).
    { unfold BODY_SIZE. rewrite slice_nonneg by (unfold len; lia).
      unfold record. f_equal; [lia|]. f_equal. lia. }
    rewrite Hchunk.
    pose proof (length_record bb i ltac:(lia)) as H46.
    destruct (record_ok (record bb i)) eqn:Hok.
    + rewrite (parse_body_ok _ H46 Hok). cbn [obind andb].
      replace (Z.of_nat (46 * i) + BODY_SIZE) with (Z.of_nat (46 * S i))
        by (unfold BODY_SIZE; lia).
      rewrite IH by lia. destruct (forallb _ _); [|reflexivity].
      rewrite <- app_assoc. reflexivity.
    + rewrite (parse_body_refused _ H46 Hok). reflexivity.
Qed.

Lemma parse_bodies_complete (n : nat) (bb : list byte) :
  (46 * n <= length bb)%nat ->
  parse_bodies n bb 0 []
  = if forallb record_ok (records bb n)
    then Ok (fields <$> records bb n)
    else Raised ValidationError.
Proof.
  intros H. apply (parse_bodies_from n 0 bb []). exact H.
Qed.

(** ** Header and footer *)

Lemma header_slices (hdr : list byte) :
  length hdr = 8%nat ->
  ints (slice hdr 2 4) = [raw hdr 2; raw hdr 3]
  /\ ints (slice hdr 6 8) = [raw hdr 6; raw hdr 7].
Proof.
  intros Hlen.
  do 9 (destruct hdr as [|? hdr]; try discriminate Hlen).
  split; reflexivity.
Qed.

Lemma head_valid (hdr : list byte) :
  MircoHead_valid (head_of hdr) = ge_le 0x01 0x03 (raw hdr 5).
Proof.
  unfold MircoHead_valid, head_of, ge_le, length_is.
  cbn [start_signal data_length mode time num_TLV work_con reserve].
  change (len (ints START_SEQ) =? 4) with true.
  change (len [raw hdr 2; raw hdr 3] =? 2) with true.
  change (len [raw hdr 6; raw hdr 7] =? 2) with true.
  pose proof (raw_range hdr 0). pose proof (raw_range hdr 1).
  pose proof (raw_range hdr 4).
  case_cmp; simpl; try reflexivity; lia.
Qed.

(** ** The stages of [parse_frame_from_serial] *)

Lemma bind_lift {A B} (o : outcome A) (k : A -> M B) s :
  bind (lift o) k s
  = match o with
    | Ok a => k a s
    | ReturnNone => Some (ReturnNone, s)
    | Raised e => Some (Raised e, s)
    end.
Proof. destruct o; reflexivity. Qed.

Ltac lift_byte Hlen :=
  rewrite bind_lift, byte_at_index by (unfold len; rewrite Hlen; lia);
  cbv beta iota.

(** No marker found: [None] is returned. *)
Lemma parse_not_found fuel timeout s s1 :
  find_start fuel timeout s = Some (Ok false, s1) ->
  parse_frame_from_serial fuel timeout s = Some (ReturnNone, s1).
Proof.
  intros Hfind. unfold parse_frame_from_serial.
  rewrite (bind_Some _ _ _ _ _ Hfind). reflexivity.
Qed.

(** Short header read: [None] is returned. *)
Lemma parse_header_short fuel timeout s s1 hdr s2 :
  find_start fuel timeout s = Some (Ok true, s1) ->
  read_exact fuel 8 (Some timeout) s1 = Some (Ok hdr, s2) ->
  len hdr < 8 ->
  parse_frame_from_serial fuel timeout s = Some (ReturnNone, s2).
Proof.
  intros Hfind Hhdr Hlen. unfold parse_frame_from_serial.
  rewrite (bind_Some _ _ _ _ _ Hfind). cbn [negb].
  change (1 + 1 + 2 + 1 + 1 + 2) with 8.
  rewrite (bind_Some _ _ _ _ _ Hhdr).
  destruct (Z.ltb_spec (len hdr) 8); [reflexivity|lia].
Qed.

(** Short payload read: [None] is returned. *)
Lemma parse_bodies_short fuel timeout s s1 hdr s2 bb s3 :
  find_start fuel timeout s = Some (Ok true, s1) ->
  read_exact fuel 8 (Some timeout) s1 = Some (Ok hdr, s2) ->
  length hdr = 8%nat ->
  read_exact fuel (raw hdr 4 * 46) (Some timeout) s2 = Some (Ok bb, s3) ->
  len bb < raw hdr 4 * 46 ->
  parse_frame_from_serial fuel timeout s = Some (ReturnNone, s3).
Proof.
  intros Hfind Hhdr Hlen Hbb Hshort. unfold parse_frame_from_serial.
  rewrite (bind_Some _ _ _ _ _ Hfind). cbn [negb].
  change (1 + 1 + 2 + 1 + 1 + 2) with 8.
  rewrite (bind_Some _ _ _ _ _ Hhdr).
  destruct (Z.ltb_spec (len hdr) 8); [unfold len in *; lia|].
  do 4 lift_byte Hlen.
  change (Z.to_nat 4) with 4%nat. unfold BODY_SIZE.
  rewrite (bind_Some _ _ _ _ _ Hbb).
  destruct (Z.ltb_spec (len bb) (raw hdr 4 * 46)); [reflexivity|lia].
Qed.

(** Header and payload read in full: the records are decoded, then the
    footer is read and the frame built. *)
Lemma parse_payload_read fuel timeout s s1 hdr s2 bb s3 :
  find_start fuel timeout s = Some (Ok true, s1) ->
  read_exact fuel 8 (Some timeout) s1 = Some (Ok hdr, s2) ->
  length hdr = 8%nat ->
  read_exact fuel (raw hdr 4 * 46) (Some timeout) s2 = Some (Ok bb, s3) ->
  raw hdr 4 * 46 <= len bb ->
  parse_frame_from_serial fuel timeout s
  = match parse_bodies (Z.to_nat (raw hdr 4)) bb 0 [] with
    | Ok bodies =>
        match read_exact fuel 4 (Some timeout) s3 with
        | Some (Ok chk, s4) =>
            if len chk <? 4 then Some (ReturnNone, s4)
            else Some (finish hdr bodies chk, s4)
        | Some (ReturnNone, s4) => Some (ReturnNone, s4)
        | Some (Raised e, s4) => Some (Raised e, s4)
        | None => None
        end
    | ReturnNone => Some (ReturnNone, s3)
    | Raised e => Some (Raised e, s3)
    end.
Proof.
  intros Hfind Hhdr Hlen Hbb Hfull. unfold parse_frame_from_serial.
  rewrite (bind_Some _ _ _ _ _ Hfind). cbn [negb].
  change (1 + 1 + 2 + 1 + 1 + 2) with 8.
  rewrite (bind_Some _ _ _ _ _ Hhdr).
  destruct (Z.ltb_spec (len hdr) 8); [unfold len in *; lia|].
  do 4 lift_byte Hlen.
  change (Z.to_nat 0) with 0%nat. change (Z.to_nat 1) with 1%nat.
  change (Z.to_nat 4) with 4%nat. change (Z.to_nat 5) with 5%nat.
  unfold BODY_SIZE.
  rewrite (bind_Some _ _ _ _ _ Hbb).
  destruct (Z.ltb_spec (len bb) (raw hdr 4 * 46)); [lia|].
  rewrite bind_lift.
  destruct (parse_bodies _ bb 0 []) as [bodies| |e]; try reflexivity.
  unfold bind at 1.
  destruct (read_exact fuel 4 (Some timeout) s3) as [[[chk| |e] s4]|];
    try reflexivity.
  destruct (Z.ltb_spec (len chk) 4) as [Hc|Hc]; [reflexivity|].
  do 4 (rewrite bind_lift, byte_at_index by lia; cbv beta iota).
  change (Z.to_nat 0) with 0%nat. change (Z.to_nat 1) with 1%nat.
  change (Z.to_nat 2) with 2%nat. change (Z.to_nat 3) with 3%nat.
  destruct (header_slices hdr Hlen) as [-> ->].
  rewrite bind_lift. unfold new_MircoHead, validated.
  fold (head_of hdr). rewrite head_valid. unfold finish.
  destruct (ge_le 1 3 (raw hdr 5)); reflexivity.
Qed.

(** A payload read in full holds its records: they are all decoded, or the
    first one the model refuses raises. *)
Lemma parse_bodies_read (hdr bb : list byte) :
  len bb = raw hdr 4 * 46 ->
  parse_bodies (Z.to_nat (raw hdr 4)) bb 0 []
  = if forallb record_ok (records bb (Z.to_nat (raw hdr 4)))
    then Ok (fields <$> records bb (Z.to_nat (raw hdr 4)))
    else Raised ValidationError.
Proof.
  intros Hlen. apply parse_bodies_complete.
  pose proof (raw_range hdr 4). unfold len in Hlen. lia.
Qed.

(** What a returned frame tells about the run that produced it. *)
Lemma parse_Ok_inv fuel timeout s d info s' :
  parse_frame_from_serial fuel timeout s = Some (Ok (d, info), s') ->
  exists s1 hdr s2 bb s3 chk,
    find_start fuel timeout s = Some (Ok true, s1)
    /\ read_exact fuel 8 (Some timeout) s1 = Some (Ok hdr, s2)
    /\ length hdr = 8%nat
    /\ read_exact fuel (raw hdr 4 * 46) (Some timeout) s2 = Some (Ok bb, s3)
    /\ len bb = raw hdr 4 * 46
    /\ forallb record_ok (records bb (Z.to_nat (raw hdr 4))) = true
    /\ read_exact fuel 4 (Some timeout) s3 = Some (Ok chk, s')
    /\ length chk = 4%nat
    /\ ge_le 0x01 0x03 (raw hdr 5) = true
    /\ d = mkMircoData (head_of hdr)
             (fields <$> records bb (Z.to_nat (raw hdr 4))) (check_of chk)
    /\ info = info_of hdr.
Proof.
  intros H.
  destruct (find_start fuel timeout s) as [[o s1]|] eqn:Hfind.
  2:{ unfold parse_frame_from_serial, bind in H. rewrite Hfind in H.
      discriminate. }
  destruct (find_start_spec _ _ _ _ _ Hfind) as ([found ->] & _).
  destruct found.
  2:{ rewrite (parse_not_found _ _ _ _ Hfind) in H. discriminate. }
  destruct (read_exact fuel 8 (Some timeout) s1) as [[o s2]|] eqn:Hhdr.
  2:{ unfold parse_frame_from_serial in H.
      rewrite (bind_Some _ _ _ _ _ Hfind) in H. cbn [negb] in H.
      change (1 + 1 + 2 + 1 + 1 + 2) with 8 in H.
      unfold bind at 1 in H. rewrite Hhdr in H. discriminate. }
  destruct (read_exact_spec _ _ _ _ _ _ Hhdr) as (hdr & -> & _ & _ & _ & _ & _ & Hle).
  destruct (Z.ltb_spec (len hdr) 8) as [Hshort|Hfull].
  { rewrite (parse_header_short _ _ _ _ _ _ Hfind Hhdr Hshort) in H.
    discriminate. }
  assert (Hlen : length hdr = 8%nat) by (unfold len in *; lia).
  pose proof (raw_range hdr 4) as Hk.
  destruct (read_exact fuel (raw hdr 4 * 46) (Some timeout) s2)
    as [[o s3]|] eqn:Hbb.
  2:{ unfold parse_frame_from_serial in H.
      rewrite (bind_Some _ _ _ _ _ Hfind) in H. cbn [negb] in H.
      change (1 + 1 + 2 + 1 + 1 + 2) with 8 in H.
      rewrite (bind_Some _ _ _ _ _ Hhdr) in H.
      destruct (Z.ltb_spec (len hdr) 8); [lia|].
      do 4 (rewrite bind_lift, byte_at_index in H by lia; cbv beta iota in H).
      change (Z.to_nat 4) with 4%nat in H. unfold BODY_SIZE in H.
      unfold bind at 1 in H. rewrite Hbb in H. discriminate. }
  destruct (read_exact_spec _ _ _ _ _ _ Hbb) as (bb & -> & _ & _ & _ & _ & _ & Hble).
  destruct (Z.ltb_spec (len bb) (raw hdr 4 * 46)) as [Hbshort|Hbfull].
  { rewrite (parse_bodies_short _ _ _ _ _ _ _ _ Hfind Hhdr Hlen Hbb Hbshort) in H.
    discriminate. }
  assert (Hblen : len bb = raw hdr 4 * 46) by lia.
  rewrite (parse_payload_read _ _ _ _ _ _ _ _ Hfind Hhdr Hlen Hbb Hbfull) in H.
  rewrite (parse_bodies_read _ _ Hblen) in H.
  destruct (forallb record_ok _) eqn:Hok; [|discriminate].
  destruct (read_exact fuel 4 (Some timeout) s3) as [[o s4]|] eqn:Hchk;
    [|discriminate].
  destruct (read_exact_spec _ _ _ _ _ _ Hchk) as (chk & -> & _ & _ & _ & _ & _ & Hcle).
  destruct (Z.ltb_spec (len chk) 4) as [Hcshort|Hcfull]; [discriminate|].
  unfold finish in H. destruct (ge_le 1 3 (raw hdr 5)) eqn:Hwork; [|discriminate].
  injection H as <- <- <-.
  exists s1, hdr, s2, bb, s3, chk.
  repeat split; auto. unfold len in *. lia.
Qed.

(** ** Fuel *)

Lemma mono_const {A} (m : M A) : fuel_mono (fun _ => m).
Proof. intros f f' s r _ H. exact H. Qed.

Lemma mono_bind {A B} (m : nat -> M A) (k : nat -> A -> M B) :
  fuel_mono m -> (forall a, fuel_mono (fun f => k f a)) ->
  fuel_mono (fun f => bind (m f) (k f)).
Proof.
  intros Hm Hk f f' s r Hle H.
  destruct (bind_inv _ _ _ _ H)
    as [(a & s1 & H1 & H2)|[(s1 & H1 & ->)|(e & s1 & H1 & ->)]];
    unfold bind; rewrite (Hm _ _ _ _ Hle H1); [|reflexivity..].
  apply (Hk a _ _ _ _ Hle H2).
Qed.

Lemma mono_if {A} (b : bool) (m1 m2 : nat -> M A) :
  fuel_mono m1 -> fuel_mono m2 ->
  fuel_mono (fun f => if b then m1 f else m2 f).
Proof. destruct b; auto. Qed.

Lemma parse_frame_mono timeout :
  fuel_mono (fun fuel => parse_frame_from_serial fuel timeout).
Proof.
  unfold parse_frame_from_serial.
  repeat first
    [ apply mono_const
    | intros f f' s r; apply find_start_mono
    | intros f f' s r; apply read_exact_mono
    | apply mono_if
    | apply mono_bind; [|intros ?]
    | progress cbv zeta ].
Qed.

(** ** A complete frame that is already in *)

Lemma scan_suffix window l rest :
  scan window l = Some rest -> exists pre, l = pre ++ rest.
Proof.
  revert window. induction l as [|b l IH]; intros window; simpl.
  - discriminate.
  - destruct (bool_decide _).
    + intros [= ->]. exists [b]. reflexivity.
    + intros H. destruct (IH _ H) as [pre ->]. exists (b :: pre). reflexivity.
Qed.

Lemma parse_valid_frame fuel timeout s l hdr bb chk rest (k : nat) :
  0 <= read_timeout s -> prompt s l ->
  scan [] l = Some (hdr ++ bb ++ chk ++ rest) ->
  length hdr = 8%nat -> raw hdr 4 = Z.of_nat k ->
  length bb = (46 * k)%nat -> length chk = 4%nat ->
  forallb record_ok (records bb k) = true ->
  ge_le 0x01 0x03 (raw hdr 5) = true ->
  (2 <= fuel)%nat -> (length l <= fuel)%nat ->
  parse_frame_from_serial fuel timeout s
  = Some (Ok (mkMircoData (head_of hdr) (fields <$> records bb k)
                (check_of chk), info_of hdr),
          advance s (length l - length rest)).
Proof.
  intros HT Hp Hscan Hhdr Hk Hbb Hchk Hok Hwork Hf2 Hfl.
  destruct (scan_suffix _ _ _ Hscan) as [pre ->].
  pose proof (find_start_prompt fuel timeout s _ _ HT Hp Hscan ltac:(lia))
    as Hfind.
  rewrite !length_app in *.
  replace (length pre + (length hdr + (length bb + (length chk + length rest)))
           - (length hdr + (length bb + (length chk + length rest))))%nat
    with (length pre) in Hfind by lia.
  assert (Hp1 : prompt (advance s (length pre)) (hdr ++ bb ++ chk ++ rest)).
  { pose proof (prompt_advance _ _ (length pre) Hp) as Hp'.
    rewrite drop_app_length in Hp'. exact Hp'. }
  assert (Hrd1 : read_exact fuel 8 (Some timeout) (advance s (length pre))
                 = Some (Ok hdr, advance s (length pre + 8))).
  { rewrite (read_exact_prompt fuel 8 (Some timeout)
               (advance s (length pre)) _ HT Hp1)
      by (unfold len; try rewrite !length_app; lia).
    change (Z.to_nat 8) with 8%nat. rewrite <- Hhdr at 1.
    rewrite take_app_length, advance_advance. reflexivity. }
  assert (Hp2 : prompt (advance s (length pre + 8)) (bb ++ chk ++ rest)).
  { pose proof (prompt_advance _ _ 8 Hp1) as Hp'.
    rewrite <- Hhdr, drop_app_length, Hhdr, advance_advance in Hp'. exact Hp'. }
  assert (Hrd2 : read_exact fuel (raw hdr 4 * 46) (Some timeout)
                   (advance s (length pre + 8))
                 = Some (Ok bb, advance s (length pre + 8 + 46 * k))).
  { rewrite (read_exact_prompt fuel _ (Some timeout)
               (advance s (length pre + 8)) _ HT Hp2)
      by (unfold len; try rewrite !length_app; lia).
    replace (Z.to_nat (raw hdr 4 * 46)) with (length bb) by lia.
    rewrite take_app_length, advance_advance, Hbb. reflexivity. }
  assert (Hp3 : prompt (advance s (length pre + 8 + 46 * k)) (chk ++ rest)).
  { pose proof (prompt_advance _ _ (46 * k) Hp2) as Hp'.
    rewrite <- Hbb, drop_app_length, Hbb, advance_advance in Hp'. exact Hp'. }
  assert (Hrd3 : read_exact fuel 4 (Some timeout)
                   (advance s (length pre + 8 + 46 * k))
                 = Some (Ok chk, advance s (length pre + 8 + 46 * k + 4))).
  { rewrite (read_exact_prompt fuel 4 (Some timeout)
               (advance s (length pre + 8 + 46 * k)) _ HT Hp3)
      by (unfold len; try rewrite !length_app; lia).
    change (Z.to_nat 4) with 4%nat. rewrite <- Hchk at 1.
    rewrite take_app_length, advance_advance. reflexivity. }
  rewrite (parse_payload_read _ _ _ _ _ _ _ _ Hfind Hrd1 Hhdr Hrd2)
    by (unfold len; lia).
  rewrite parse_bodies_read by (unfold len; lia).
  rewrite Hk, Nat2Z.id, Hok, Hrd3.
  destruct (Z.ltb_spec (len chk) 4); [unfold len in *; lia|].
  unfold finish. rewrite Hwork. do 2 f_equal. f_equal. lia.
Qed.

Lemma prompt_port_of (l : list byte) : prompt (port_of l) l.
Proof.
  intros j b Hj. exists 0. simpl. unfold line_of. rewrite Hj.
  split; [reflexivity|lia].
Qed.

Lemma scan_marker (l : list byte) : scan [] (START_SEQ ++ l) = Some l.
Proof. reflexivity. Qed.

(** A complete frame that is waiting on the port, nothing before it and
    nothing behind it. *)
Lemma parse_waiting_frame fuel timeout (hdr bb chk : list byte) (k : nat) :
  length hdr = 8%nat -> raw hdr 4 = Z.of_nat k ->
  length bb = (46 * k)%nat -> length chk = 4%nat ->
  forallb record_ok (records bb k) = true ->
  ge_le 0x01 0x03 (raw hdr 5) = true ->
  (16 + 46 * k <= fuel)%nat ->
  parse_frame_from_serial fuel timeout
    (port_of (START_SEQ ++ hdr ++ bb ++ chk))
  = Some (Ok (mkMircoData (head_of hdr) (fields <$> records bb k)
                (check_of chk), info_of hdr),
          advance (port_of (START_SEQ ++ hdr ++ bb ++ chk)) (16 + 46 * k)).
Proof.
  intros Hhdr Hk Hbb Hchk Hok Hwork Hfuel.
  assert (Hlen : length (START_SEQ ++ hdr ++ bb ++ chk) = (16 + 46 * k)%nat).
  { rewrite !length_app, Hhdr, Hbb, Hchk. simpl. lia. }
  rewrite (parse_valid_frame fuel timeout _ (START_SEQ ++ hdr ++ bb ++ chk)
             hdr bb chk [] k); try assumption.
  - simpl length at 2. rewrite Hlen, Nat.sub_0_r. reflexivity.
  - simpl. lia.
  - apply prompt_port_of.
  - rewrite app_nil_r. apply scan_marker.
  - lia.
  - lia.
Qed.

(** The run on the scenario stream, port included. *)
Lemma scenario_run :
  parse_frame_from_serial 62 1000 (port_of scenario_stream)
  = Some (Ok (scenario_frame, scenario_info),
          advance (port_of scenario_stream) 62).
Proof.
  exact (parse_waiting_frame 62 1000 one_target_header scenario_record
           good_footer 1 eq_refl eq_refl eq_refl eq_refl eq_refl eq_refl
           (le_n 62)).
Qed.

(** ** Every decode that found the marker comes to an end *)

Lemma parse_ends fuel timeout s s1 :
  0 <= read_timeout s ->
  find_start fuel timeout s = Some (Ok true, s1) ->
  (enough timeout <= fuel)%nat ->
  exists o s',
    parse_frame_from_serial fuel timeout s = Some (o, s')
    /\ ends fuel timeout s1 o s'.
Proof.
  intros HT Hfind Hfuel. unfold enough in Hfuel.
  destruct (find_start_spec _ _ _ _ _ Hfind) as (_ & _ & HT1 & _).
  destruct (read_exact_terminates fuel 8 timeout s1) as (hdr & s2 & Hhdr);
    [lia|lia|].
  destruct (read_exact_spec _ _ _ _ _ _ Hhdr)
    as (? & [= <-] & _ & _ & HT2 & _ & _ & Hle).
  destruct (Z.ltb_spec (len hdr) 8) as [Hshort|Hfull].
  { exists ReturnNone, s2. split.
    - apply (parse_header_short _ _ _ _ _ _ Hfind Hhdr Hshort).
    - apply (ends_header_short _ _ _ hdr s2 Hhdr Hshort). }
  assert (Hlen : length hdr = 8%nat) by (unfold len in *; lia).
  pose proof (raw_range hdr 4) as Hk.
  destruct (read_exact_terminates fuel (raw hdr 4 * 46) timeout s2)
    as (bb & s3 & Hbb); [lia|lia|].
  destruct (read_exact_spec _ _ _ _ _ _ Hbb)
    as (? & [= <-] & _ & _ & HT3 & _ & _ & Hble).
  destruct (Z.ltb_spec (len bb) (raw hdr 4 * 46)) as [Hbshort|Hbfull].
  { exists ReturnNone, s3. split.
    - apply (parse_bodies_short _ _ _ _ _ _ _ _ Hfind Hhdr Hlen Hbb Hbshort).
    - apply (ends_payload_short _ _ _ hdr s2 bb s3 Hhdr Hlen Hbb Hbshort). }
  assert (Hblen : len bb = raw hdr 4 * 46) by lia.
  rewrite (parse_payload_read _ _ _ _ _ _ _ _ Hfind Hhdr Hlen Hbb Hbfull).
  rewrite (parse_bodies_read _ _ Hblen).
  destruct (forallb record_ok _) eqn:Hok.
  2:{ exists (Raised ValidationError), s3. split; [reflexivity|].
      apply (ends_record_refused _ _ _ hdr s2 bb s3 Hhdr Hlen Hbb Hblen Hok). }
  destruct (read_exact_terminates fuel 4 timeout s3) as (chk & s4 & Hchk);
    [lia|lia|].
  destruct (read_exact_spec _ _ _ _ _ _ Hchk)
    as (? & [= <-] & _ & _ & _ & _ & _ & Hcle).
  rewrite Hchk.
  destruct (Z.ltb_spec (len chk) 4) as [Hcshort|Hcfull].
  - exists ReturnNone, s4. split; [reflexivity|].
    apply (ends_footer_short _ _ _ hdr s2 bb s3 chk s4
             Hhdr Hlen Hbb Hblen Hok Hchk Hcshort).
  - eexists _, s4. split; [reflexivity|].
    apply (ends_built _ _ _ hdr s2 bb s3 chk s4 Hhdr Hlen Hbb Hblen Hok Hchk).
    unfold len in *. lia.
Qed.

(** Two reads in a row hand over one run of the line. *)
Lemma read_exact_twice fuel n1 n2 t s1 b1 s2 b2 s3 :
  read_exact fuel n1 t s1 = Some (Ok b1, s2) ->
  read_exact fuel n2 t s2 = Some (Ok b2, s3) ->
  b1 ++ b2 = wire (line s1) (consumed s1) (length b1 + length b2)
  /\ b2 = wire (line s1) (consumed s1 + length b1) (length b2)
  /\ line s3 = line s1
  /\ consumed s3 = (consumed s1 + (length b1 + length b2))%nat.
Proof.
  intros H1 H2.
  destruct (read_exact_spec _ _ _ _ _ _ H1)
    as (? & [= <-] & Hw1 & Hl1 & _ & Hc1 & _).
  destruct (read_exact_spec _ _ _ _ _ _ H2)
    as (? & [= <-] & Hw2 & Hl2 & _ & Hc2 & _).
  rewrite Hl1, Hc1 in Hw2. rewrite Hl2, Hc2, Hl1, Hc1.
  repeat split; auto; [|lia].
  rewrite wire_app by (rewrite <- Hw1; reflexivity).
  rewrite <- Hw1, <- Hw2. reflexivity.
Qed.

(** Three reads in a row: all they handed over is on the line. *)
Lemma read_exact_thrice fuel n1 n2 n3 t s1 b1 s2 b2 s3 b3 s4 :
  read_exact fuel n1 t s1 = Some (Ok b1, s2) ->
  read_exact fuel n2 t s2 = Some (Ok b2, s3) ->
  read_exact fuel n3 t s3 = Some (Ok b3, s4) ->
  length (wire (line s1) (consumed s1)
            (length b1 + length b2 + length b3))
  = (length b1 + length b2 + length b3)%nat.
Proof.
  intros H1 H2 H3.
  destruct (read_exact_twice _ _ _ _ _ _ _ _ _ H1 H2) as (H12 & _ & Hl & Hc).
  destruct (read_exact_spec _ _ _ _ _ _ H3) as (? & [= <-] & Hw3 & _).
  rewrite Hl, Hc in Hw3.
  rewrite wire_app by (rewrite <- H12, length_app; reflexivity).
  rewrite <- H12, <- Hw3, !length_app. reflexivity.
Qed.

(** ** Records of a payload *)

Lemma records_lookup (bb : list byte) (k i : nat) :
  (i < k)%nat -> records bb k !! i = Some (record bb i).
Proof.
  intros Hi. unfold records. rewrite list_lookup_fmap, lookup_seq_lt by lia.
  reflexivity.
Qed.

Lemma records_lookup_inv (bb : list byte) (k i : nat) (r : list byte) :
  records bb k !! i = Some r -> (i < k)%nat /\ r = record bb i.
Proof.
  intros H. pose proof (lookup_lt_Some _ _ _ H) as Hlt.
  unfold records in Hlt. rewrite length_fmap, length_seq in Hlt.
  rewrite records_lookup in H by lia. injection H as <-. auto.
Qed.

Lemma records_all_ok (bb : list byte) (k i : nat) :
  forallb record_ok (records bb k) = true -> (i < k)%nat ->
  record_ok (record bb i) = true.
Proof.
  intros Hall Hi. rewrite forallb_forall in Hall. apply Hall.
  apply list_elem_of_In, list_elem_of_lookup. exists i.
  apply records_lookup, Hi.
Qed.

Lemma records_one_refused (bb : list byte) (k i : nat) :
  (i < k)%nat -> record_ok (record bb i) = false ->
  forallb record_ok (records bb k) = false.
Proof.
  intros Hi Hbad. destruct (forallb record_ok (records bb k)) eqn:Hall;
    [|reflexivity].
  rewrite (records_all_ok _ _ _ Hall Hi) in Hbad. discriminate.
Qed.

Lemma decoded_body_lookup (bb : list byte) (k i : nat) (body : MircoBody) :
  (fields <$> records bb k) !! i = Some body ->
  (i < k)%nat /\ body = fields (record bb i).
Proof.
  rewrite list_lookup_fmap. destruct (records bb k !! i) as [r|] eqn:Hr;
    [|discriminate].
  apply records_lookup_inv in Hr as [Hi ->]. intros [= <-]. auto.
Qed.

(** * The claims *)

(** ** C1: the concrete scenario *)

(** C1.  On the scenario stream the decode returns a frame with the header,
    the scalar fields of the body and the footer of the scenario, and with an
    all-zero heart rate curve; the respiration curve, though, is not twenty
    zero bytes: it is read from bytes 2..21 of the record and so begins with
    the azimuth, status, respiration and heart rate bytes 200, 1, 70, 75. *)
Theorem C1_scenario_respiration_curve_not_zero :
  run (parse_frame_from_serial 62 1000) (port_of scenario_stream)
  = Some (Ok (scenario_frame, scenario_info))
  /\ respiration_curve <$> bodies scenario_frame
     = [[200; 1; 70; 75; 0; 0; 0; 0; 0; 0; 0; 0; 0; 0; 0; 0; 0; 0; 0; 0]]
  /\ respiration_curve <$> bodies scenario_frame <> [replicate 20 0]
  /\ heart_rate_curve <$> bodies scenario_frame = [replicate 20 0].
Proof.
  split; [unfold run; rewrite scenario_run; reflexivity|].
  split; [reflexivity|]. split; [discriminate|reflexivity].
Qed.

(** ** C2: where the curves are read *)

(** The curves of a decoded 46-byte record are its bytes 2..21 and 22..41. *)
Lemma parse_body_curves (chunk : list byte) (body : MircoBody) :
  length chunk = 46%nat -> parse_body chunk = Ok body ->
  respiration_curve body = ints (take 20 (drop 2 chunk))
  /\ heart_rate_curve body = ints (take 20 (drop 22 chunk)).
Proof.
  intros Hlen H. rewrite (parse_body_46 _ Hlen) in H.
  unfold new_MircoBody, validated in H.
  destruct (MircoBody_valid _); [|discriminate].
  injection H as <-. split; reflexivity.
Qed.

(** C2.  On a frame whose record has its bytes 6..45 numbered, the decoded
    respiration curve is bytes 2..21 of the record and the decoded heart rate
    curve bytes 22..41: neither is the run of 20 bytes that follows the six
    scalar fields, bytes 6..25 and 26..45. *)
Theorem C2_curves_not_behind_scalar_fields :
  exists d info,
    run (parse_frame_from_serial 62 1000) (port_of numbered_stream)
    = Some (Ok (d, info))
    /\ respiration_curve <$> bodies d
       = [ints (take 20 (drop 2 numbered_record))]
    /\ heart_rate_curve <$> bodies d
       = [ints (take 20 (drop 22 numbered_record))]
    /\ respiration_curve <$> bodies d
       <> [ints (take 20 (drop 6 numbered_record))]
    /\ heart_rate_curve <$> bodies d
       <> [ints (take 20 (drop 26 numbered_record))].
Proof.
  eexists _, _. split.
  { unfold run, numbered_stream.
    rewrite (parse_waiting_frame 62 1000 one_target_header numbered_record
               good_footer 1 eq_refl eq_refl eq_refl eq_refl eq_refl eq_refl
               (le_n 62)).
    reflexivity. }
  split; [reflexivity|]. split; [reflexivity|].
  split; vm_compute; discriminate.
Qed.

(** ** C3: the azimuth byte *)

(** Every azimuth byte but 128 is decoded to its signed value. *)
Lemma azimuth_decoded (chunk : list byte) :
  length chunk = 46%nat -> record_ok chunk = true ->
  exists body,
    parse_body chunk = Ok body
    /\ target_azimuth body
       = (if raw chunk 2 <=? 127 then raw chunk 2 else raw chunk 2 - 256)
    /\ -127 <= target_azimuth body <= 127.
Proof.
  intros Hlen Hok. exists (fields chunk).
  split; [apply parse_body_ok; assumption|]. split; [reflexivity|].
  unfold record_ok in Hok. pose proof (raw_range chunk 2).
  cbn [fields target_azimuth].
  destruct (Z.eqb_spec (raw chunk 2) 128);
    [rewrite andb_false_r in Hok; discriminate|].
  case_cmp; lia.
Qed.

(** C3.  The azimuth byte 128 is normalized to -128, which the model, whose
    range is -127..128, refuses: a frame that is valid but for this byte is
    not decoded, the decode raises. *)
Theorem C3_azimuth_byte_128_raises :
  raw azimuth_128_record 2 = 128
  /\ target_azimuth (fields azimuth_128_record) = -128
  /\ parse_body azimuth_128_record = Raised ValidationError
  /\ run (parse_frame_from_serial 8 1000) (port_of azimuth_128_stream)
     = Some (Raised ValidationError).
Proof. repeat split; vm_compute; reflexivity. Qed.

(** ** C4: failures that are not returned *)

(** C4.  On a complete frame whose record has the status byte 0 the decode
    does not return a failure value: the exception raised by the model
    reaches the caller. *)
Theorem C4_invalid_status_raises :
  raw status_0_record 3 = 0
  /\ run (parse_frame_from_serial 8 1000) (port_of status_0_stream)
     = Some (Raised ValidationError)
  /\ forall fuel o s',
       parse_frame_from_serial fuel 1000 (port_of status_0_stream)
       = Some (o, s') -> o = Raised ValidationError.
Proof.
  split; [reflexivity|].
  assert (H8 : run (parse_frame_from_serial 8 1000) (port_of status_0_stream)
               = Some (Raised ValidationError)) by (vm_compute; reflexivity).
  split; [exact H8|]. intros fuel o s' H.
  unfold run in H8.
  destruct (parse_frame_from_serial 8 1000 (port_of status_0_stream))
    as [[o8 s8]|] eqn:E8; [|discriminate].
  simpl in H8. injection H8 as ->.
  pose proof (parse_frame_mono 1000 fuel (Nat.max fuel 8) _ _ ltac:(lia) H) as H1.
  pose proof (parse_frame_mono 1000 8%nat (Nat.max fuel 8) _ _ ltac:(lia) E8)
    as H2.
  simpl in H1, H2. congruence.
Qed.

(** ** C5: a stream that stops short *)

(** What the decode does get right.  When the marker was found and the line
    then goes silent with fewer than [8 + k*46 + 4] bytes behind it, [k]
    being the count byte of the header, the decode comes back and returns no
    frame: [None] when the header read, the payload read or the footer read
    comes back short, and otherwise the failure of a record the model
    refuses, raised before the footer is read. *)
Lemma short_silent_stream_gives_no_frame fuel timeout s s1 (n : nat) :
  0 <= read_timeout s ->
  find_start fuel timeout s = Some (Ok true, s1) ->
  line s1 (consumed s1 + n)%nat = None ->
  (forall a kb, line s1 (consumed s1 + 4)%nat = Some (a, kb) ->
                Z.of_nat n < 8 + int_of kb * 46 + 4) ->
  exists fuel0, forall fuel', (fuel0 <= fuel')%nat ->
    exists o s',
      parse_frame_from_serial fuel' timeout s = Some (o, s')
      /\ (o = ReturnNone
          \/ (o = Raised ValidationError /\ payload_refused s1)).
Proof.
  intros HT Hfind Hsilent Hn.
  exists (Nat.max fuel (enough timeout)). intros fuel' Hfuel.
  pose proof (find_start_mono fuel fuel' timeout s _ ltac:(lia) Hfind) as Hfind'.
  destruct (parse_ends fuel' timeout s s1 HT Hfind' ltac:(lia))
    as (o & s' & Hparse & Hends).
  exists o, s'. split; [exact Hparse|].
  destruct Hends as [hdr s2 Hhdr Hshort
                    |hdr s2 bb s3 Hhdr Hlen Hbb Hshort
                    |hdr s2 bb s3 Hhdr Hlen Hbb Hblen Hok
                    |hdr s2 bb s3 chk s4 Hhdr Hlen Hbb Hblen Hok Hchk Hshort
                    |hdr s2 bb s3 chk s4 Hhdr Hlen Hbb Hblen Hok Hchk Hclen];
    try (left; reflexivity).
  - right. split; [reflexivity|].
    destruct (read_exact_twice _ _ _ _ _ _ _ _ _ Hhdr Hbb) as (_ & Hwbb & _).
    destruct (read_exact_spec _ _ _ _ _ _ Hhdr) as (? & [= <-] & Hwh & _).
    rewrite Hlen in Hwh, Hwbb. pose proof (raw_range hdr 4).
    unfold payload_refused. cbv zeta. rewrite <- Hwh.
    replace (46 * Z.to_nat (raw hdr 4))%nat with (length bb)
      by (unfold len in Hblen; lia).
    rewrite <- Hwbb. repeat split; auto; unfold len in Hblen; lia.
  - exfalso.
    pose proof (read_exact_thrice _ _ _ _ _ _ _ _ _ _ _ _ Hhdr Hbb Hchk) as Hall.
    pose proof (wire_silent (line s1) (consumed s1)
                  (length hdr + length bb + length chk) n Hsilent) as Hle.
    rewrite Hall in Hle.
    destruct (lookup_lt_is_Some_2 hdr 4) as [kb Hkb]; [lia|].
    destruct (read_exact_spec _ _ _ _ _ _ Hhdr) as (? & [= <-] & Hwh & _).
    pose proof Hkb as Hkb'. rewrite Hwh in Hkb'.
    apply wire_lookup in Hkb' as [a Ha].
    specialize (Hn a kb Ha).
    assert (raw hdr 4 = int_of kb) by (unfold raw; rewrite Hkb; reflexivity).
    unfold len in Hblen. lia.
Qed.

(** C5.  The decode does not keep to its deadline, and a stream that stops
    short is not always reported as truncated.  On the slow line the marker
    is found at time 0 and one of the 58 bytes behind it is in when the
    deadline of 1000 ms has passed; yet the header read comes back with all
    its 8 bytes, 7200 ms after it started, and the decode returns the frame,
    52.2 s after it started: [read_exact] looks at the clock only behind a
    read that brought nothing, and here every read brought a byte.  And on
    the stream that ends behind a record the model refuses, 4 bytes short of
    the frame, the decode does not end in the truncation failure, whatever
    the fuel: the refused record raises before the footer is read. *)
Theorem C5_short_stream_not_reported_truncated :
  (find_start 64 1000 trickle_port
   = Some (Ok true, mkSerial trickle 1000 4 0 1)
   /\ length (arrived trickle (0 + 1000) 4 58) = 1%nat
   /\ (exists s2,
         read_exact 64 8 (Some 1000) (mkSerial trickle 1000 4 0 1)
         = Some (Ok one_target_header, s2)
         /\ clock s2 = 7200)
   /\ frame_and_time (parse_frame_from_serial 64 1000 trickle_port)
      = Some (scenario_frame, 52200))
  /\ (find_start 8 1000 (port_of refused_no_footer)
      = Some (Ok true, advance (port_of refused_no_footer) 4)
      /\ line (port_of refused_no_footer) (4 + 54)%nat = None
      /\ 54 < 8 + 1 * 46 + 4
      /\ run (parse_frame_from_serial 8 1000) (port_of refused_no_footer)
         = Some (Raised ValidationError)
      /\ forall fuel s',
           parse_frame_from_serial fuel 1000 (port_of refused_no_footer)
           <> Some (ReturnNone, s')).
Proof.
  split.
  { split; [vm_compute; reflexivity|]. split; [vm_compute; reflexivity|].
    split; [|vm_compute; reflexivity].
    eexists. split; [vm_compute; reflexivity|reflexivity]. }
  split; [vm_compute; reflexivity|]. split; [reflexivity|]. split; [lia|].
  assert (H8 : run (parse_frame_from_serial 8 1000) (port_of refused_no_footer)
               = Some (Raised ValidationError)) by (vm_compute; reflexivity).
  split; [exact H8|]. intros fuel s' H.
  unfold run in H8.
  destruct (parse_frame_from_serial 8 1000 (port_of refused_no_footer))
    as [[o8 s8]|] eqn:E8; [|discriminate].
  simpl in H8. injection H8 as ->.
  pose proof (parse_frame_mono 1000 fuel (Nat.max fuel 8) _ _ ltac:(lia) H) as H1.
  pose proof (parse_frame_mono 1000 8%nat (Nat.max fuel 8) _ _ ltac:(lia) E8)
    as H2.
  simpl in H1, H2. congruence.
Qed.

(** ** C6: a line that never falls silent *)

(** On the noisy line a read of one byte always gets its byte. *)
Lemma ser_read_noise (s : Serial) :
  line s = noise -> Z.of_nat (consumed s) <= clock s + read_timeout s ->
  ser_read 1 s
  = Some (Ok [x00],
          mkSerial noise (read_timeout s) (consumed s + 1)
            (Z.max (Z.of_nat (consumed s)) (clock s)) (overrun s)).
Proof.
  intros Hline Hin. unfold ser_read. rewrite Hline.
  change (Z.to_nat 1) with 1%nat. cbn [arrived noise].
  destruct (Z.leb_spec (Z.of_nat (consumed s)) (clock s + read_timeout s));
    [|lia].
  reflexivity.
Qed.

(** A window of zero bytes is never the marker. *)
Lemma zeros_slide (window : list byte) :
  Forall (fun b => b = x00) window ->
  Forall (fun b => b = x00) (slide window [x00])
  /\ slide window [x00] <> START_SEQ.
Proof.
  intros Hz.
  assert (Hz' : Forall (fun b => b = x00) (slide window [x00])).
  { unfold slide. destruct (_ >? _).
    - apply Forall_drop, Forall_app. split; [exact Hz|]. repeat constructor.
    - apply Forall_app. split; [exact Hz|]. repeat constructor. }
  split; [exact Hz'|]. intros Heq. rewrite Heq in Hz'.
  inversion Hz' as [|? ? Hhd _]. discriminate Hhd.
Qed.

(** While the zero bytes keep coming the deadline is never looked at: the
    search does not come back, whatever the fuel. *)
Lemma find_start_loop_noise fuel timeout start_time window s :
  line s = noise -> 1 <= read_timeout s ->
  Z.of_nat (consumed s) <= clock s + 1 ->
  Forall (fun b => b = x00) window ->
  find_start_loop fuel timeout start_time window s = None.
Proof.
  revert window s.
  induction fuel as [|fuel IH]; intros window s Hline HT Hpace Hz;
    [reflexivity|].
  rewrite find_start_loop_S, (ser_read_noise s Hline) by lia.
  change (len [x00] =? 0) with false. cbv iota.
  destruct (zeros_slide window Hz) as [Hz' Hne].
  rewrite bool_decide_eq_false_2 by exact Hne.
  apply IH; simpl; auto; lia.
Qed.

(** C6.  On a line that delivers a zero byte every millisecond, a stream
    without the marker, neither [find_start] nor the decode ever comes back
    with the timeout failure: no amount of fuel makes them return, the
    deadline of one second notwithstanding. *)
Theorem C6_find_start_never_returns_on_noise :
  forall fuel : nat,
    find_start fuel 1000 noise_port = None
    /\ parse_frame_from_serial fuel 1000 noise_port = None.
Proof.
  intros fuel.
  assert (H : find_start fuel 1000 noise_port = None).
  { unfold find_start, bind, time_time.
    apply find_start_loop_noise; simpl; auto; lia. }
  split; [exact H|].
  unfold parse_frame_from_serial, bind. rewrite H. reflexivity.
Qed.

(** What the search does get right: on a line that carries no marker and
    falls silent, a port with a read timeout of at least 1 ms makes the
    search come back with [False], and the decode with [None]. *)
Lemma find_start_loop_silent fuel timeout start_time window s (n : nat) :
  1 <= read_timeout s ->
  line s (consumed s + n)%nat = None ->
  scan window (wire (line s) (consumed s) n) = None ->
  (n + Z.to_nat (start_time + timeout + 1 - clock s) < fuel)%nat ->
  exists s', find_start_loop fuel timeout start_time window s
             = Some (Ok false, s').
Proof.
  revert window s n.
  induction fuel as [|fuel IH]; intros window s n HT Hsilent Hscan Hfuel;
    [lia|].
  rewrite find_start_loop_S.
  destruct (ser_read_spec 1 s)
    as (bs & s1 & Hrd & Hl & Ht & Hc & Hn & Hw & Hck & Hidle).
  rewrite Hrd. specialize (Hck ltac:(lia)).
  destruct bs as [|x [|y bs]]; [| |simpl in Hn; lia].
  - change (len (@nil byte) =? 0) with true. cbv iota.
    specialize (Hidle ltac:(unfold len; simpl; lia)).
    simpl in Hc. rewrite Nat.add_0_r in Hc.
    destruct (Z.gtb_spec (clock s1 - start_time) timeout); [eauto|].
    apply (IH window s1 n); rewrite ?Hl, ?Hc, ?Ht; auto; lia.
  - change (len [x] =? 0) with false. cbv iota.
    simpl in Hw, Hc.
    destruct (line s (consumed s)) as [[a x']|] eqn:Hx; [|discriminate].
    injection Hw as ->.
    destruct n as [|n]; [rewrite Nat.add_0_r in Hsilent; congruence|].
    simpl in Hscan. rewrite Hx in Hscan. simpl in Hscan.
    destruct (bool_decide (slide window [x'] = START_SEQ)); [discriminate|].
    apply (IH (slide window [x']) s1 n); rewrite ?Hl, ?Hc, ?Ht; auto.
    + rewrite <- Hsilent. f_equal. lia.
    + replace (consumed s + 1)%nat with (S (consumed s)) by lia. exact Hscan.
    + lia.
Qed.

Lemma parse_silent_line fuel timeout s (n : nat) :
  1 <= read_timeout s ->
  line s (consumed s + n)%nat = None ->
  scan [] (wire (line s) (consumed s) n) = None ->
  (n + Z.to_nat (timeout + 1) < fuel)%nat ->
  exists s', find_start fuel timeout s = Some (Ok false, s')
             /\ parse_frame_from_serial fuel timeout s = Some (ReturnNone, s').
Proof.
  intros HT Hsilent Hscan Hfuel.
  destruct (find_start_loop_silent fuel timeout (clock s) [] s n HT Hsilent Hscan)
    as [s' Hs'].
  { replace (clock s + timeout + 1 - clock s) with (timeout + 1) by lia.
    exact Hfuel. }
  exists s'. split; [exact Hs'|]. apply parse_not_found. exact Hs'.
Qed.

(** ** C7: the TLV byte *)

(** A payload whose records all have a TLV byte of 0, 1 or 2, an azimuth
    byte other than 128 and a status byte of 1 or 2 holds no record the
    model refuses. *)
Lemma records_accepted (bb : list byte) (k : nat) :
  (forall i, (i < k)%nat ->
     0 <= raw (record bb i) 0 <= 2
     /\ raw (record bb i) 2 <> 128
     /\ (raw (record bb i) 3 = 1 \/ raw (record bb i) 3 = 2)) ->
  forallb record_ok (records bb k) = true.
Proof.
  intros Hall. apply forallb_forall. intros c Hc.
  apply list_elem_of_In, list_elem_of_lookup in Hc as [i Hi].
  apply records_lookup_inv in Hi as [Hi ->].
  destruct (Hall i Hi) as (Htlv & Haz & Hst).
  unfold record_ok.
  rewrite !andb_true_iff, negb_true_iff, orb_true_iff, Z.leb_le, Z.eqb_neq,
    !Z.eqb_eq.
  repeat split; auto; lia.
Qed.

(** The record of a payload read in full is decoded when the model accepts
    its bytes, with the TLV byte 0 turned into 1. *)
Lemma parse_body_tlv (bb : list byte) (k i : nat) :
  length bb = (46 * k)%nat -> (i < k)%nat ->
  0 <= raw (record bb i) 0 <= 2 ->
  raw (record bb i) 2 <> 128 ->
  raw (record bb i) 3 = 1 \/ raw (record bb i) 3 = 2 ->
  exists body,
    parse_body (record bb i) = Ok body
    /\ tlv_signal body
       = (if raw (record bb i) 0 =? 0 then 1 else raw (record bb i) 0).
Proof.
  intros Hlen Hi Htlv Haz Hst.
  exists (fields (record bb i)). split; [|reflexivity].
  apply parse_body_ok; [apply length_record; lia|].
  unfold record_ok.
  rewrite !andb_true_iff, negb_true_iff, orb_true_iff, Z.leb_le, Z.eqb_neq,
    !Z.eqb_eq.
  repeat split; auto; lia.
Qed.

(** C7.  Marker found, header and payload read in full.  (1) A record of the
    payload whose TLV byte is 0 is decoded, into a body with [tlv_signal] 1;
    one whose byte is 2 is decoded with 2, and one whose byte is 1 with 1,
    the azimuth and status bytes of the record being such as the model
    accepts.  (2) When every record is such, the work status is 1, 2 or 3
    and the footer is read in full, the decode returns the frame, with one
    body for each record and in each body the TLV byte so normalized.
    (3) In every frame the decode returns, the bodies carry the TLV bytes so
    normalized, no byte other than 0, 1, 2 occurring.  (4) When some record
    of the payload has a TLV byte outside 0, 1, 2 the decode does not return
    a frame: the model refuses the record and the decode raises
    [ValidationError]. *)
Theorem C7_tlv_signal_normalized fuel timeout s s1 hdr s2 bb s3 :
  find_start fuel timeout s = Some (Ok true, s1) ->
  read_exact fuel 8 (Some timeout) s1 = Some (Ok hdr, s2) ->
  length hdr = 8%nat ->
  read_exact fuel (raw hdr 4 * 46) (Some timeout) s2 = Some (Ok bb, s3) ->
  len bb = raw hdr 4 * 46 ->
  (forall i,
     (i < Z.to_nat (raw hdr 4))%nat ->
     raw (record bb i) 2 <> 128 ->
     raw (record bb i) 3 = 1 \/ raw (record bb i) 3 = 2 ->
     (raw (record bb i) 0 = 0 ->
      exists body, parse_body (record bb i) = Ok body /\ tlv_signal body = 1)
     /\ (raw (record bb i) 0 = 1 ->
         exists body, parse_body (record bb i) = Ok body
                      /\ tlv_signal body = 1)
     /\ (raw (record bb i) 0 = 2 ->
         exists body, parse_body (record bb i) = Ok body
                      /\ tlv_signal body = 2))
  /\ (forall chk s4,
        read_exact fuel 4 (Some timeout) s3 = Some (Ok chk, s4) ->
        length chk = 4%nat ->
        1 <= raw hdr 5 <= 3 ->
        (forall i, (i < Z.to_nat (raw hdr 4))%nat ->
           0 <= raw (record bb i) 0 <= 2
           /\ raw (record bb i) 2 <> 128
           /\ (raw (record bb i) 3 = 1 \/ raw (record bb i) 3 = 2)) ->
        exists d info,
          parse_frame_from_serial fuel timeout s = Some (Ok (d, info), s4)
          /\ length (bodies d) = Z.to_nat (raw hdr 4)
          /\ forall i, (i < Z.to_nat (raw hdr 4))%nat ->
               exists body,
                 bodies d !! i = Some body
                 /\ (raw (record bb i) 0 = 0 -> tlv_signal body = 1)
                 /\ (raw (record bb i) 0 = 1 -> tlv_signal body = 1)
                 /\ (raw (record bb i) 0 = 2 -> tlv_signal body = 2))
  /\ (forall d info s' i body,
        parse_frame_from_serial fuel timeout s = Some (Ok (d, info), s') ->
        bodies d !! i = Some body ->
        (raw (record bb i) 0 = 0 -> tlv_signal body = 1)
        /\ (raw (record bb i) 0 = 1 -> tlv_signal body = 1)
        /\ (raw (record bb i) 0 = 2 -> tlv_signal body = 2)
        /\ 0 <= raw (record bb i) 0 <= 2)
  /\ (forall i,
        (i < Z.to_nat (raw hdr 4))%nat ->
        ~ (0 <= raw (record bb i) 0 <= 2) ->
        parse_frame_from_serial fuel timeout s
        = Some (Raised ValidationError, s3)).
Proof.
  intros Hfind Hhdr Hlen Hbb Hblen.
  pose proof (raw_range hdr 4) as Hk.
  assert (Hbl : length bb = (46 * Z.to_nat (raw hdr 4))%nat)
    by (unfold len in Hblen; lia).
  split; [|split; [|split]].
  - intros i Hi Haz Hst.
    repeat split; intros Htlv;
      (destruct (parse_body_tlv bb _ i Hbl Hi ltac:(lia) Haz Hst)
         as (body & Hbody & Hsig);
       exists body; split; [exact Hbody|]; rewrite Hsig, Htlv; reflexivity).
  - intros chk s4 Hchk Hclen Hwork Hall.
    exists (mkMircoData (head_of hdr)
              (fields <$> records bb (Z.to_nat (raw hdr 4))) (check_of chk)),
      (info_of hdr).
    split; [|split].
    + rewrite (parse_payload_read _ _ _ _ _ _ _ _ Hfind Hhdr Hlen Hbb) by lia.
      rewrite (parse_bodies_read _ _ Hblen), (records_accepted _ _ Hall), Hchk.
      destruct (Z.ltb_spec (len chk) 4); [unfold len in *; lia|].
      unfold finish, ge_le.
      destruct (Z.leb_spec 1 (raw hdr 5)); [|lia].
      destruct (Z.leb_spec (raw hdr 5) 3); [|lia].
      reflexivity.
    + cbn [bodies]. unfold records. rewrite !length_fmap, length_seq.
      reflexivity.
    + intros i Hi. exists (fields (record bb i)). cbn [bodies].
      split.
      { rewrite list_lookup_fmap, (records_lookup _ _ _ Hi). reflexivity. }
      cbn [fields tlv_signal].
      repeat split; intros ->; reflexivity.
  - intros d info s' i body Hparse Hbody.
    destruct (parse_Ok_inv _ _ _ _ _ _ Hparse)
      as (s1' & hdr' & s2' & bb' & s3' & chk & Hf' & Hh' & _ & Hb' & _
          & Hok & _ & _ & _ & -> & _).
    rewrite Hfind in Hf'. injection Hf' as <-.
    rewrite Hhdr in Hh'. injection Hh' as <- <-.
    rewrite Hbb in Hb'. injection Hb' as <- <-.
    cbn [bodies] in Hbody.
    apply decoded_body_lookup in Hbody as [Hi ->].
    pose proof (records_all_ok _ _ _ Hok Hi) as Hrec.
    unfold record_ok in Hrec. apply andb_prop in Hrec as [Hrec _].
    apply andb_prop in Hrec as [Htlv _]. apply Z.leb_le in Htlv.
    pose proof (raw_range (record bb i) 0).
    cbn [fields tlv_signal].
    repeat split; try lia; intros ->; reflexivity.
  - intros i Hi Hout.
    rewrite (parse_payload_read _ _ _ _ _ _ _ _ Hfind Hhdr Hlen Hbb) by lia.
    rewrite (parse_bodies_read _ _ Hblen).
    rewrite (records_one_refused bb _ i Hi); [reflexivity|].
    unfold record_ok. pose proof (raw_range (record bb i) 0).
    destruct (Z.leb_spec (raw (record bb i) 0) 2); [lia|reflexivity].
Qed.

(** C7, witness: the scenario stream, whose record carries the TLV byte 0,
    is decoded into a frame whose body has [tlv_signal] 1; the stream of two
    targets whose second record carries the TLV byte 3 makes the decode
    raise. *)
Lemma C7_tlv_signal_witness :
  (raw (record scenario_record 0) 0 = 0
   /\ (exists body, parse_body (record scenario_record 0) = Ok body
                    /\ tlv_signal body = 1)
   /\ exists d info body,
        parse_frame_from_serial 62 1000 (port_of scenario_stream)
        = Some (Ok (d, info), advance (port_of scenario_stream) 62)
        /\ bodies d !! 0%nat = Some body
        /\ tlv_signal body = 1)
  /\ (raw (record tlv_3_payload 1) 0 = 3
      /\ parse_frame_from_serial 8 1000 (port_of tlv_3_stream)
         = Some (Raised ValidationError, advance (port_of tlv_3_stream) 104)).
Proof.
  split.
  - split; [reflexivity|].
    pose proof (C7_tlv_signal_normalized 62 1000
                  (port_of scenario_stream)
                  (advance (port_of scenario_stream) 4) one_target_header
                  (advance (port_of scenario_stream) 12) scenario_record
                  (advance (port_of scenario_stream) 58)) as H.
    destruct H as (Hrec & Hframe & _ & _); try (vm_compute; reflexivity).
    split.
    + destruct (Hrec 0%nat) as (H0 & _ & _);
        [vm_compute; lia|vm_compute; discriminate|left; reflexivity|].
      apply H0. reflexivity.
    + destruct (Hframe good_footer (advance (port_of scenario_stream) 62))
        as (d & info & Hparse & _ & Hbodies).
      * vm_compute. reflexivity.
      * reflexivity.
      * vm_compute. split; discriminate.
      * intros i Hi. assert (i = 0%nat) as -> by (vm_compute in Hi; lia).
        vm_compute. repeat split; try discriminate. left. reflexivity.
      * destruct (Hbodies 0%nat) as (body & Hb & H0 & _);
          [vm_compute; lia|].
        exists d, info, body. split; [exact Hparse|]. split; [exact Hb|].
        apply H0. reflexivity.
  - split; [reflexivity|].
    refine (proj2 (proj2 (proj2 (C7_tlv_signal_normalized 8 1000
             (port_of tlv_3_stream)
             (advance (port_of tlv_3_stream) 4) two_target_header
             (advance (port_of tlv_3_stream) 12) tlv_3_payload
             (advance (port_of tlv_3_stream) 104) _ _ _ _ _))) 1%nat _ _);
      try (vm_compute; reflexivity).
    change (raw (record tlv_3_payload 1) 0) with 3. lia.
Defined.

(** ** C8: the terminator *)

Lemma info_of_keys (hdr : list byte) :
  dom (info_of hdr) = info_keys /\ info_of hdr !! "checksum_invalid" = None.
Proof.
  unfold info_of, info_keys. split.
  - rewrite !dom_insert_L, dom_empty_L. simpl. set_solver.
  - rewrite !lookup_insert_ne by discriminate. apply lookup_empty.
Qed.

(** C8 (as amended).  When a complete frame is already in, with a header
    and records the models accept, the decode returns the frame whatever the
    last two bytes are: the footer of the frame holds the two checksum bytes
    and the two terminator bytes as they came, and nothing in the result
    flags a terminator other than EE EE: the dictionary returned next to the
    frame has its six header keys and no [checksum_invalid]. *)
Theorem C8_terminator_kept_unflagged fuel timeout s l hdr bb chk rest
    (k : nat) :
  0 <= read_timeout s -> prompt s l ->
  scan [] l = Some (hdr ++ bb ++ chk ++ rest) ->
  length hdr = 8%nat -> raw hdr 4 = Z.of_nat k ->
  length bb = (46 * k)%nat -> length chk = 4%nat ->
  forallb record_ok (records bb k) = true ->
  ge_le 0x01 0x03 (raw hdr 5) = true ->
  (2 <= fuel)%nat -> (length l <= fuel)%nat ->
  exists d info s',
    parse_frame_from_serial fuel timeout s = Some (Ok (d, info), s')
    /\ crc (check d) = [raw chk 0; raw chk 1]
    /\ zw (check d) = [raw chk 2; raw chk 3]
    /\ dom info = info_keys
    /\ info !! "checksum_invalid" = None.
Proof.
  intros HT Hp Hscan Hhdr Hk Hbb Hchk Hok Hwork Hf2 Hfl.
  eexists _, _, _. split.
  - apply (parse_valid_frame fuel timeout s l hdr bb chk rest k);
      assumption.
  - cbn [check check_of crc zw].
    destruct (info_of_keys hdr) as [Hdom Hflag]. auto.
Qed.

(** C8, witness: the scenario frame with the terminator bytes 00 00. *)
Lemma C8_terminator_witness :
  exists d info s',
    parse_frame_from_serial 62 1000 (port_of zero_terminator_stream)
    = Some (Ok (d, info), s')
    /\ crc (check d) = [0xAB; 0xCD]
    /\ zw (check d) = [0; 0]
    /\ dom info = info_keys
    /\ info !! "checksum_invalid" = None.
Proof.
  apply (C8_terminator_kept_unflagged 62 1000 (port_of zero_terminator_stream)
           zero_terminator_stream one_target_header scenario_record
           zero_terminator_footer [] 1).
  - simpl. lia.
  - apply prompt_port_of.
  - apply scan_marker.
  - reflexivity.
  - reflexivity.
  - reflexivity.
  - reflexivity.
  - vm_compute. reflexivity.
  - reflexivity.
  - lia.
  - apply le_n.
Defined.

(** C8, counterexample to the claim as stated: the frame with the
    terminator 00 00 is returned, and the result carries no
    [checksum_invalid] flag, let alone one that is true. *)
Lemma C8_counterexample :
  exists d info,
    run (parse_frame_from_serial 62 1000) (port_of zero_terminator_stream)
    = Some (Ok (d, info))
    /\ zw (check d) = [0; 0]
    /\ zw (check d) <> [0xEE; 0xEE]
    /\ info !! "checksum_invalid" = None
    /\ info !! "checksum_invalid" <> Some (PBool true).
Proof.
  eexists _, _. split.
  { unfold run, zero_terminator_stream.
    rewrite (parse_waiting_frame 62 1000 one_target_header scenario_record
               zero_terminator_footer 1 eq_refl eq_refl eq_refl eq_refl
               eq_refl eq_refl (le_n 62)).
    reflexivity. }
  split; [reflexivity|]. split; [discriminate|].
  destruct (info_of_keys one_target_header) as [_ Hflag].
  split; [exact Hflag|]. rewrite Hflag. discriminate.
Qed.

(** ** C9: what holds of every returned frame *)

Lemma fields_in_range (chunk : list byte) :
  length chunk = 46%nat -> record_ok chunk = true ->
  body_in_range (fields chunk).
Proof.
  intros Hlen Hok. unfold body_in_range, fields.
  cbn [target_distance target_azimuth current_status respiration_curve
       heart_rate_curve].
  pose proof (raw_range chunk 1). pose proof (raw_range chunk 2).
  unfold record_ok in Hok. apply andb_prop in Hok as [_ Hst].
  apply orb_prop in Hst. rewrite !Z.eqb_eq in Hst.
  assert (H20 : forall k, (k + 20 <= 46)%nat ->
            len (ints (take 20 (drop k chunk))) = 20).
  { intros k Hk. unfold len, ints.
    rewrite length_fmap, length_take, length_drop. lia. }
  repeat split; try lia; try (apply H20; lia); try exact Hst.
  - destruct (Z.leb_spec (raw chunk 2) 127); lia.
  - destruct (Z.leb_spec (raw chunk 2) 127); lia.
Qed.

(** C9.  Every frame the decode returns has as many bodies as its header
    counts, and that is the count byte that follows the marker found on the
    line; its start signal is the marker; and every body has its distance in
    0..255, its azimuth in -128..127, its status 1 or 2 and two curves of
    exactly 20 values.  Such frames exist for every count: a complete frame
    of [k] targets that is already in, with a header and records the models
    accept, is returned with [k] bodies and [num_TLV] equal to [k]. *)
Theorem C9_returned_frame_invariants :
  (forall fuel timeout s d info s',
     parse_frame_from_serial fuel timeout s = Some (Ok (d, info), s') ->
     len (bodies d) = num_TLV (header d)
     /\ start_signal (header d) = [0x53; 0x59; 0x54; 0x43]
     /\ Forall body_in_range (bodies d)
     /\ exists s1 a kb,
          find_start fuel timeout s = Some (Ok true, s1)
          /\ line s1 (consumed s1 + 4)%nat = Some (a, kb)
          /\ num_TLV (header d) = int_of kb
          /\ len (bodies d) = int_of kb)
  /\ (forall fuel timeout s l hdr bb chk rest (k : nat),
        0 <= read_timeout s -> prompt s l ->
        scan [] l = Some (hdr ++ bb ++ chk ++ rest) ->
        length hdr = 8%nat -> raw hdr 4 = Z.of_nat k ->
        length bb = (46 * k)%nat -> length chk = 4%nat ->
        forallb record_ok (records bb k) = true ->
        ge_le 0x01 0x03 (raw hdr 5) = true ->
        (2 <= fuel)%nat -> (length l <= fuel)%nat ->
        exists d info s',
          parse_frame_from_serial fuel timeout s = Some (Ok (d, info), s')
          /\ len (bodies d) = Z.of_nat k
          /\ num_TLV (header d) = Z.of_nat k).
Proof.
  split.
  - intros fuel timeout s d info s' Hparse.
    destruct (parse_Ok_inv _ _ _ _ _ _ Hparse)
      as (s1 & hdr & s2 & bb & s3 & chk & Hfind & Hhdr & Hlen & Hbb & Hblen
          & Hok & _ & _ & _ & -> & _).
    cbn [bodies header head_of num_TLV start_signal].
    pose proof (raw_range hdr 4) as Hk.
    assert (Hcount : len (fields <$> records bb (Z.to_nat (raw hdr 4)))
                     = raw hdr 4).
    { unfold len, records. rewrite !length_fmap, length_seq. lia. }
    split; [exact Hcount|]. split; [reflexivity|]. split.
    + apply Forall_lookup. intros i body Hbody.
      apply decoded_body_lookup in Hbody as [Hi ->].
      apply fields_in_range.
      * apply length_record. unfold len in Hblen. lia.
      * apply (records_all_ok _ _ _ Hok Hi).
    + destruct (lookup_lt_is_Some_2 hdr 4) as [kb Hkb]; [lia|].
      destruct (read_exact_spec _ _ _ _ _ _ Hhdr) as (? & [= <-] & Hwh & _).
      pose proof Hkb as Hkb'. rewrite Hwh in Hkb'.
      apply wire_lookup in Hkb' as [a Ha].
      assert (Hraw : raw hdr 4 = int_of kb)
        by (unfold raw; rewrite Hkb; reflexivity).
      exists s1, a, kb. rewrite Hcount, Hraw. auto.
  - intros fuel timeout s l hdr bb chk rest k
      HT Hp Hscan Hhdr Hk Hbb Hchk Hok Hwork Hf2 Hfl.
    eexists _, _, _. split.
    + apply (parse_valid_frame fuel timeout s l hdr bb chk rest k);
        assumption.
    + cbn [bodies header head_of num_TLV]. split; [|exact Hk].
      unfold len, records. rewrite !length_fmap, length_seq. reflexivity.
Qed.

(** C9, witness: the frame returned on the scenario stream, and the
    scenario stream as a waiting frame of one target. *)
Lemma C9_returned_frame_witness :
  (parse_frame_from_serial 62 1000 (port_of scenario_stream)
   = Some (Ok (scenario_frame, scenario_info),
           advance (port_of scenario_stream) 62)
   /\ len (bodies scenario_frame) = num_TLV (header scenario_frame)
   /\ start_signal (header scenario_frame) = [0x53; 0x59; 0x54; 0x43]
   /\ Forall body_in_range (bodies scenario_frame))
  /\ (exists d info s',
        parse_frame_from_serial 62 1000 (port_of scenario_stream)
        = Some (Ok (d, info), s')
        /\ len (bodies d) = 1 /\ num_TLV (header d) = 1).
Proof.
  split.
  - split; [exact scenario_run|].
    destruct (proj1 C9_returned_frame_invariants 62%nat 1000
                (port_of scenario_stream) scenario_frame scenario_info
                (advance (port_of scenario_stream) 62) scenario_run)
      as (H1 & H2 & H3 & _).
    auto.
  - apply (proj2 C9_returned_frame_invariants 62%nat 1000
             (port_of scenario_stream) scenario_stream one_target_header
             scenario_record good_footer [] 1%nat).
    + simpl. lia.
    + apply prompt_port_of.
    + apply scan_marker.
    + reflexivity.
    + reflexivity.
    + reflexivity.
    + reflexivity.
    + vm_compute. reflexivity.
    + reflexivity.
    + lia.
    + apply le_n.
Defined.

(** ** C10: a header the model refuses *)

(** C10.  When the marker was found and the 8 header bytes were all read,
    but the work status byte (byte 5 of the block) is outside 1..3, the
    decode comes back without a frame: it returns [None] or raises.  When the
    payload and the footer are read in full and every record is accepted, it
    is the construction of the header itself that raises. *)
Theorem C10_bad_work_status_gives_no_frame fuel timeout s s1 hdr s2 :
  0 <= read_timeout s ->
  find_start fuel timeout s = Some (Ok true, s1) ->
  read_exact fuel 8 (Some timeout) s1 = Some (Ok hdr, s2) ->
  length hdr = 8%nat ->
  ~ (1 <= raw hdr 5 <= 3) ->
  (exists fuel0, forall fuel', (fuel0 <= fuel')%nat ->
     exists o s',
       parse_frame_from_serial fuel' timeout s = Some (o, s')
       /\ (o = ReturnNone \/ o = Raised ValidationError))
  /\ (forall bb s3 chk s4,
        read_exact fuel (raw hdr 4 * 46) (Some timeout) s2 = Some (Ok bb, s3) ->
        len bb = raw hdr 4 * 46 ->
        forallb record_ok (records bb (Z.to_nat (raw hdr 4))) = true ->
        read_exact fuel 4 (Some timeout) s3 = Some (Ok chk, s4) ->
        length chk = 4%nat ->
        parse_frame_from_serial fuel timeout s
        = Some (Raised ValidationError, s4)).
Proof.
  intros HT Hfind Hhdr Hlen Hwork.
  assert (Hbad : ge_le 1 3 (raw hdr 5) = false).
  { unfold ge_le. case_cmp; simpl; try reflexivity; lia. }
  split.
  - exists (Nat.max fuel (enough timeout)). intros fuel' Hfuel.
    pose proof (find_start_mono fuel fuel' timeout s _ ltac:(lia) Hfind)
      as Hfind'.
    pose proof (read_exact_mono fuel fuel' 8 (Some timeout) s1 _ ltac:(lia) Hhdr)
      as Hhdr'.
    destruct (parse_ends fuel' timeout s s1 HT Hfind' ltac:(lia))
      as (o & s' & Hparse & Hends).
    exists o, s'. split; [exact Hparse|].
    destruct Hends as [hdr' ? Hh ?|hdr' ? ? ? Hh|hdr' ? ? ? Hh
                      |hdr' ? ? ? ? ? Hh|hdr' ? ? ? ? ? Hh];
      try (left; reflexivity); try (right; reflexivity).
    right. rewrite Hhdr' in Hh. injection Hh as <- <-.
    unfold finish. rewrite Hbad. reflexivity.
  - intros bb s3 chk s4 Hbb Hblen Hok Hchk Hclen.
    rewrite (parse_payload_read _ _ _ _ _ _ _ _ Hfind Hhdr Hlen Hbb)
      by lia.
    rewrite (parse_bodies_read _ _ Hblen), Hok, Hchk.
    destruct (Z.ltb_spec (len chk) 4); [unfold len in *; lia|].
    unfold finish. rewrite Hbad. reflexivity.
Qed.

(** C10, witness: a complete frame of one valid target with work status 0. *)
Lemma C10_bad_work_status_witness :
  raw work_status_0_header 5 = 0
  /\ run (parse_frame_from_serial 8 1000) (port_of work_status_0_stream)
     = Some (Raised ValidationError)
  /\ exists fuel0, forall fuel', (fuel0 <= fuel')%nat ->
       exists o s',
         parse_frame_from_serial fuel' 1000 (port_of work_status_0_stream)
         = Some (o, s')
         /\ (o = ReturnNone \/ o = Raised ValidationError).
Proof.
  split; [reflexivity|]. split; [vm_compute; reflexivity|].
  apply (C10_bad_work_status_gives_no_frame 8 1000
           (port_of work_status_0_stream)
           (advance (port_of work_status_0_stream) 4)
           work_status_0_header
           (advance (port_of work_status_0_stream) 12)).
  - simpl. lia.
  - vm_compute. reflexivity.
  - vm_compute. reflexivity.
  - reflexivity.
  - change (raw work_status_0_header 5) with 0. lia.
Defined.

(** * Further properties *)

(** ** What [find_start] has read when it comes back *)

Lemma slide_last4 (p : list byte) (x : byte) :
  slide (last4 p) [x] = last4 (p ++ [x]).
Proof.
  unfold slide, last4, len. rewrite !length_app, length_drop. simpl length.
  destruct (Z.gtb_spec (Z.of_nat (length p - (length p - 4) + 1)) (Z.of_nat 4))
    as [Hgt|Hle].
  - rewrite drop_app_le by (rewrite length_drop; lia).
    rewrite drop_drop, drop_app_le by lia. do 2 f_equal. lia.
  - replace (length p - 4)%nat with 0%nat by lia.
    replace (length p + 1 - 4)%nat with 0%nat by lia. reflexivity.
Qed.

Lemma last4_marker (q : list byte) :
  last4 q = START_SEQ <->
  (4 <= length q)%nat /\ marker_at q (length q - 4).
Proof.
  unfold last4, marker_at. split.
  - intros H. assert (Hlen : length (drop (length q - 4) q) = 4%nat)
      by (rewrite H; reflexivity).
    rewrite length_drop in Hlen. split; [lia|].
    rewrite take_ge by (rewrite length_drop; lia). exact H.
  - intros [Hlen H]. rewrite take_ge in H by (rewrite length_drop; lia).
    exact H.
Qed.

Lemma scan_found (p l r : list byte) :
  scan (last4 p) l = Some r ->
  exists k : nat,
    (1 <= k <= length l)%nat /\ r = drop k l
    /\ last4 (p ++ take k l) = START_SEQ
    /\ forall k', (1 <= k' < k)%nat -> last4 (p ++ take k' l) <> START_SEQ.
Proof.
  revert p. induction l as [|x l IH]; intros p; simpl; [discriminate|].
  rewrite slide_last4.
  destruct (decide (last4 (p ++ [x]) = START_SEQ)) as [Heq|Hne].
  - rewrite bool_decide_eq_true_2 by exact Heq. intros [= <-].
    exists 1%nat. simpl. rewrite take_0. repeat split; auto; lia.
  - rewrite bool_decide_eq_false_2 by exact Hne. intros H.
    destruct (IH _ H) as (k & Hk & -> & Hm & Hmin).
    exists (S k). simpl. rewrite <- app_assoc in Hm.
    repeat split; auto; try lia.
    intros k' Hk'. destruct k' as [|[|k']]; [lia| |].
    + simpl. rewrite take_0. exact Hne.
    + simpl. rewrite cons_middle, app_assoc. apply Hmin. lia.
Qed.

Lemma scan_not_found (p l : list byte) :
  scan (last4 p) l = None ->
  forall k, (1 <= k <= length l)%nat -> last4 (p ++ take k l) <> START_SEQ.
Proof.
  revert p. induction l as [|x l IH]; intros p; simpl; [intros; lia|].
  rewrite slide_last4.
  destruct (decide (last4 (p ++ [x]) = START_SEQ)) as [Heq|Hne].
  - rewrite bool_decide_eq_true_2 by exact Heq. discriminate.
  - rewrite bool_decide_eq_false_2 by exact Hne. intros H k Hk.
    destruct k as [|[|k]]; [lia| |].
    + simpl. rewrite take_0. exact Hne.
    + simpl. rewrite cons_middle, app_assoc. apply (IH _ H). lia.
Qed.

Lemma marker_at_take (l : list byte) (j k : nat) :
  (j + 4 <= k)%nat -> marker_at (take k l) j <-> marker_at l j.
Proof.
  intros H. unfold marker_at.
  rewrite !take_drop_commute, take_take.
  replace ((j + 4) `min` k)%nat with (j + 4)%nat by lia. reflexivity.
Qed.

Lemma marker_at_length (l : list byte) (j : nat) :
  marker_at l j -> (j + 4 <= length l)%nat.
Proof.
  unfold marker_at. intros H.
  assert (Hlen : length (take 4 (drop j l)) = 4%nat) by (rewrite H; reflexivity).
  rewrite length_take, length_drop in Hlen. lia.
Qed.

Lemma last4_take_marker (l : list byte) (k : nat) :
  (k <= length l)%nat ->
  last4 (take k l) = START_SEQ <-> (4 <= k)%nat /\ marker_at l (k - 4).
Proof.
  intros Hk. rewrite last4_marker, length_take.
  replace (k `min` length l)%nat with k by lia.
  split; intros [H4 Hm]; (split; [exact H4|]).
  - apply (marker_at_take l (k - 4) k) in Hm; [exact Hm|lia].
  - apply (marker_at_take l (k - 4) k); [lia|exact Hm].
Qed.

Lemma scan_first_marker (l : list byte) (j : nat) :
  marker_at l j -> (forall i, (i < j)%nat -> ~ marker_at l i) ->
  scan [] l = Some (drop (j + 4) l).
Proof.
  intros Hj Hfirst. pose proof (marker_at_length _ _ Hj) as Hlen.
  destruct (scan [] l) as [r|] eqn:Hscan.
  - destruct (scan_found [] l r Hscan) as (k & Hk & -> & Hm & Hmin).
    simpl in Hm. apply last4_take_marker in Hm as [H4 Hm]; [|lia].
    destruct (Nat.lt_trichotomy (k - 4) j) as [Hlt|[Heq|Hgt]].
    + destruct (Hfirst _ Hlt Hm).
    + do 2 f_equal. lia.
    + destruct (Hmin (j + 4)%nat ltac:(lia)). simpl.
      apply last4_take_marker; [lia|]. split; [lia|].
      replace (j + 4 - 4)%nat with j by lia. exact Hj.
  - destruct (scan_not_found [] l Hscan (j + 4)%nat ltac:(lia)). simpl.
    apply last4_take_marker; [lia|]. split; [lia|].
    replace (j + 4 - 4)%nat with j by lia. exact Hj.
Qed.

Lemma scan_none_no_marker (l : list byte) (j : nat) :
  scan [] l = None -> ~ marker_at l j.
Proof.
  intros Hscan Hj. pose proof (marker_at_length _ _ Hj) as Hlen.
  destruct (scan_not_found [] l Hscan (j + 4)%nat ltac:(lia)). simpl.
  apply last4_take_marker; [lia|]. split; [lia|].
  replace (j + 4 - 4)%nat with j by lia. exact Hj.
Qed.

Lemma scan_all_consumed (q : list byte) :
  scan [] q = Some [] ->
  (4 <= length q)%nat /\ marker_at q (length q - 4)
  /\ forall j, (j < length q - 4)%nat -> ~ marker_at q j.
Proof.
  intros Hscan.
  destruct (scan_found [] q [] Hscan) as (k & Hk & Hr & Hm & Hmin).
  assert (k = length q) as ->.
  { symmetry in Hr. apply drop_nil_inv in Hr. lia. }
  simpl in Hm. rewrite take_ge in Hm by lia.
  apply last4_marker in Hm as [H4 Hm]. repeat split; auto.
  intros j Hj Hmj. destruct (Hmin (j + 4)%nat ltac:(lia)). simpl.
  apply last4_take_marker; [lia|]. split; [lia|].
  replace (j + 4 - 4)%nat with j by lia. exact Hmj.
Qed.

(** What the loop of [find_start] has done when it comes back: the bytes it
    took off the line, fed to the window one by one, end in the marker (and
    nothing is left over) or never show it. *)
Lemma find_start_loop_scan fuel timeout start_time window s o s' :
  find_start_loop fuel timeout start_time window s = Some (o, s') ->
  exists found : bool,
    o = Ok found
    /\ (consumed s <= consumed s')%nat
    /\ length (wire (line s) (consumed s) (consumed s' - consumed s))
       = (consumed s' - consumed s)%nat
    /\ scan window (wire (line s) (consumed s) (consumed s' - consumed s))
       = (if found then Some [] else None)
    /\ (found = false -> clock s' - start_time > timeout).
Proof.
  revert window s. induction fuel as [|fuel IH]; intros window s H;
    [discriminate|].
  rewrite find_start_loop_S in H.
  destruct (ser_read_spec 1 s)
    as (bs & s1 & Hrd & Hl & Ht & Hc & Hn & Hw & Hck & Hidle).
  rewrite Hrd in H.
  destruct bs as [|x [|y bs]]; [| |simpl in Hn; lia].
  - change (len (@nil byte) =? 0) with true in H. cbv iota in H.
    simpl in Hc. rewrite Nat.add_0_r in Hc.
    destruct (Z.gtb_spec (clock s1 - start_time) timeout) as [Hgt|Hle].
    + injection H as <- <-. exists false. rewrite Hc, Nat.sub_diag. simpl.
      repeat split; auto; lia.
    + apply IH in H. rewrite Hl, Hc in H. exact H.
  - change (len [x] =? 0) with false in H. cbv iota in H.
    simpl in Hw, Hc.
    destruct (line s (consumed s)) as [[a x']|] eqn:Hx; [|discriminate].
    injection Hw as ->.
    destruct (decide (slide window [x'] = START_SEQ)) as [Heq|Hne].
    + rewrite bool_decide_eq_true_2 in H by exact Heq.
      injection H as <- <-. exists true. rewrite Hc.
      replace (consumed s + 1 - consumed s)%nat with 1%nat by lia.
      simpl. rewrite Hx. simpl.
      rewrite bool_decide_eq_true_2 by exact Heq.
      repeat split; auto; first [lia|discriminate].
    + rewrite bool_decide_eq_false_2 in H by exact Hne.
      apply IH in H. rewrite Hl, Hc in H.
      destruct H as (found & -> & Hle & Hlen & Hscan & Hlate).
      exists found.
      replace (consumed s' - consumed s)%nat
        with (S (consumed s' - (consumed s + 1))) by lia.
      simpl. rewrite Hx. simpl.
      replace (S (consumed s)) with (consumed s + 1)%nat by lia.
      rewrite bool_decide_eq_false_2 by exact Hne.
      repeat split; auto; lia.
Qed.

Lemma no_marker_scan (l : list byte) :
  (forall j, ~ marker_at l j) -> scan [] l = None.
Proof.
  intros Hno. destruct (scan [] l) as [r|] eqn:Hscan; [|reflexivity].
  destruct (scan_found [] l r Hscan) as (k & Hk & _ & Hm & _).
  simpl in Hm. apply last4_take_marker in Hm as [_ Hm]; [|lia].
  destruct (Hno _ Hm).
Qed.

Lemma find_start_taken fuel timeout s o s' :
  find_start fuel timeout s = Some (o, s') ->
  (consumed s <= consumed s')%nat
  /\ length (taken s s') = (consumed s' - consumed s)%nat
  /\ ((o = Ok true
       /\ (4 <= length (taken s s'))%nat
       /\ marker_at (taken s s') (length (taken s s') - 4)
       /\ forall j, (j < length (taken s s') - 4)%nat ->
                    ~ marker_at (taken s s') j)
      \/ (o = Ok false
          /\ (forall j, ~ marker_at (taken s s') j)
          /\ clock s' - clock s > timeout)).
Proof.
  unfold find_start, bind, time_time. intros H.
  apply find_start_loop_scan in H.
  destruct H as (found & -> & Hle & Hlen & Hscan & Hlate).
  fold (taken s s') in Hlen, Hscan.
  split; [exact Hle|]. split; [exact Hlen|].
  destruct found.
  - left. split; [reflexivity|]. apply scan_all_consumed, Hscan.
  - right. split; [reflexivity|]. split; [|auto].
    intros j. apply scan_none_no_marker, Hscan.
Qed.

(** On a line that ends, the search comes back. *)
Lemma find_start_loop_returns fuel timeout start_time window s (n : nat) :
  1 <= read_timeout s ->
  line s (consumed s + n)%nat = None ->
  (n + Z.to_nat (start_time + timeout + 1 - clock s) < fuel)%nat ->
  exists found s', find_start_loop fuel timeout start_time window s
                   = Some (Ok found, s').
Proof.
  revert window s n.
  induction fuel as [|fuel IH]; intros window s n HT Hsilent Hfuel; [lia|].
  rewrite find_start_loop_S.
  destruct (ser_read_spec 1 s)
    as (bs & s1 & Hrd & Hl & Ht & Hc & Hn & Hw & Hck & Hidle).
  rewrite Hrd. specialize (Hck ltac:(lia)).
  destruct bs as [|x [|y bs]]; [| |simpl in Hn; lia].
  - change (len (@nil byte) =? 0) with true. cbv iota.
    specialize (Hidle ltac:(unfold len; simpl; lia)).
    simpl in Hc. rewrite Nat.add_0_r in Hc.
    destruct (Z.gtb_spec (clock s1 - start_time) timeout); [eauto|].
    apply (IH window s1 n); rewrite ?Hl, ?Hc, ?Ht; auto; lia.
  - change (len [x] =? 0) with false. cbv iota.
    simpl in Hw, Hc.
    destruct (line s (consumed s)) as [[a x']|] eqn:Hx; [|discriminate].
    injection Hw as ->.
    destruct n as [|n]; [rewrite Nat.add_0_r in Hsilent; congruence|].
    destruct (bool_decide (slide window [x'] = START_SEQ)); [eauto|].
    apply (IH (slide window [x']) s1 n); rewrite ?Hl, ?Hc, ?Ht; auto.
    + rewrite <- Hsilent. f_equal. lia.
    + lia.
Qed.

(** X1.  On a line that ends, a port with a read timeout of 1 ms or more
    makes [find_start] come back.  And whatever the line and its timing,
    when [find_start] comes back it has taken bytes off the line in their
    order: if it answers [True], the bytes it took end with the marker and
    hold it nowhere before, so the search stops at the first marker; if it
    answers [False], the bytes it took do not hold the marker, and more than
    [timeout] has passed on the clock since the call. *)
Theorem X1_find_start_stops_at_first_marker fuel timeout s :
  (forall n : nat,
     1 <= read_timeout s ->
     line s (consumed s + n)%nat = None ->
     (n + Z.to_nat (timeout + 1) < fuel)%nat ->
     exists found s', find_start fuel timeout s = Some (Ok found, s'))
  /\ (forall o s',
        find_start fuel timeout s = Some (o, s') ->
        (consumed s <= consumed s')%nat
        /\ length (taken s s') = (consumed s' - consumed s)%nat
        /\ ((o = Ok true
             /\ (4 <= length (taken s s'))%nat
             /\ marker_at (taken s s') (length (taken s s') - 4)
             /\ forall j, (j < length (taken s s') - 4)%nat ->
                          ~ marker_at (taken s s') j)
            \/ (o = Ok false
                /\ (forall j, ~ marker_at (taken s s') j)
                /\ clock s' - clock s > timeout))).
Proof.
  split.
  - intros n HT Hsilent Hfuel. unfold find_start, bind, time_time.
    apply (find_start_loop_returns fuel timeout (clock s) [] s n HT Hsilent).
    replace (clock s + timeout + 1 - clock s) with (timeout + 1) by lia.
    exact Hfuel.
  - intros o s'. apply find_start_taken.
Qed.

(** X1, witness: the scenario stream behind three bytes that begin like
    the marker. *)
Lemma X1_find_start_witness :
  (exists found s',
     find_start 1100 1000 (port_of noisy_scenario) = Some (Ok found, s'))
  /\ find_start 8 1000 (port_of noisy_scenario)
     = Some (Ok true, advance (port_of noisy_scenario) 7)
  /\ marker_at (taken (port_of noisy_scenario)
                  (advance (port_of noisy_scenario) 7)) 3.
Proof.
  split.
  - apply (proj1 (X1_find_start_stops_at_first_marker 1100 1000
                    (port_of noisy_scenario)) 65%nat).
    + simpl. lia.
    + reflexivity.
    + simpl. lia.
  - assert (H : find_start 8 1000 (port_of noisy_scenario)
                = Some (Ok true, advance (port_of noisy_scenario) 7))
      by (vm_compute; reflexivity).
    split; [exact H|].
    destruct (proj2 (X1_find_start_stops_at_first_marker 8 1000
                       (port_of noisy_scenario)) _ _ H)
      as (_ & _ & [(_ & _ & Hm & _)|(Hf & _)]); [exact Hm|discriminate Hf].
Defined.

(** X2.  When the bytes [l] are waiting on the port and the marker stands
    first at position [j] of them, [find_start] answers [True], has taken
    the [j] bytes before the marker and the marker itself, and leaves the
    bytes behind the marker waiting. *)
Theorem X2_find_start_resynchronizes fuel timeout s (l : list byte) (j : nat) :
  0 <= read_timeout s -> prompt s l ->
  marker_at l j -> (forall i, (i < j)%nat -> ~ marker_at l i) ->
  (j + 4 <= fuel)%nat ->
  find_start fuel timeout s = Some (Ok true, advance s (j + 4))
  /\ prompt (advance s (j + 4)) (drop (j + 4) l).
Proof.
  intros HT Hp Hj Hfirst Hfuel.
  pose proof (marker_at_length _ _ Hj) as Hlen.
  pose proof (scan_first_marker l j Hj Hfirst) as Hscan.
  split; [|apply prompt_advance, Hp].
  rewrite (find_start_prompt fuel timeout s l _ HT Hp Hscan)
    by (rewrite length_drop; lia).
  rewrite length_drop. do 3 f_equal. lia.
Qed.

(** X2, witness: the marker three bytes into the stream. *)
Lemma X2_find_start_resynchronizes_witness :
  marker_at noisy_scenario 3
  /\ find_start 7 1000 (port_of noisy_scenario)
     = Some (Ok true, advance (port_of noisy_scenario) 7)
  /\ prompt (advance (port_of noisy_scenario) 7) (drop 7 noisy_scenario).
Proof.
  split; [reflexivity|].
  apply (X2_find_start_resynchronizes 7 1000 (port_of noisy_scenario)
           noisy_scenario 3).
  - simpl. lia.
  - apply prompt_port_of.
  - reflexivity.
  - intros i Hi Hm. destruct i as [|[|[|i]]]; [discriminate Hm..|lia].
  - lia.
Defined.

(** X3.  On a line that holds no marker and ends after [n] more bytes, a
    port with a read timeout of 1 ms or more makes [find_start] come back
    with [False] and the decode with [None], and more than [timeout] has
    then passed on the clock. *)
Theorem X3_find_start_gives_up_on_silent_line fuel timeout s (n : nat) :
  1 <= read_timeout s ->
  line s (consumed s + n)%nat = None ->
  (forall j, ~ marker_at (wire (line s) (consumed s) n) j) ->
  (n + Z.to_nat (timeout + 1) < fuel)%nat ->
  exists s',
    find_start fuel timeout s = Some (Ok false, s')
    /\ parse_frame_from_serial fuel timeout s = Some (ReturnNone, s')
    /\ clock s' - clock s > timeout.
Proof.
  intros HT Hsilent Hno Hfuel.
  destruct (parse_silent_line fuel timeout s n HT Hsilent
              (no_marker_scan _ Hno) Hfuel) as (s' & Hfind & Hparse).
  exists s'. split; [exact Hfind|]. split; [exact Hparse|].
  destruct (find_start_taken _ _ _ _ _ Hfind)
    as (_ & _ & [(Hf & _)|(_ & _ & Hlate)]); [discriminate Hf|exact Hlate].
Qed.

(** X3, witness: three bytes and then silence. *)
Lemma X3_find_start_gives_up_witness :
  exists s',
    find_start 1100 1000 (port_of three_noise_bytes) = Some (Ok false, s')
    /\ parse_frame_from_serial 1100 1000 (port_of three_noise_bytes)
       = Some (ReturnNone, s')
    /\ clock s' - clock (port_of three_noise_bytes) > 1000.
Proof.
  apply (X3_find_start_gives_up_on_silent_line 1100 1000
           (port_of three_noise_bytes) 3).
  - simpl. lia.
  - reflexivity.
  - intros j Hm. apply marker_at_length in Hm.
    assert (length (wire (line (port_of three_noise_bytes))
                      (consumed (port_of three_noise_bytes)) 3) = 3%nat)
      by reflexivity.
    lia.
  - simpl. lia.
Defined.

(** ** What [read_exact] hands back *)

Lemma read_exact_loop_short fuel size timeout start buf s buf' s' :
  read_exact_loop fuel size timeout start buf s = Some (Ok buf', s') ->
  len buf' < size ->
  exists t, timeout = Some t /\ clock s' - start > t.
Proof.
  revert buf s. induction fuel as [|fuel IH]; intros buf s H Hshort;
    [discriminate|].
  rewrite read_exact_loop_S in H.
  destruct (Z.ltb_spec (len buf) size) as [Hlt|Hge].
  - destruct (ser_read_spec (size - len buf) s) as (bs & s1 & Hrd & _).
    rewrite Hrd in H.
    destruct (negb (len bs =? 0)); [exact (IH _ _ H Hshort)|].
    destruct timeout as [t|].
    + destruct (Z.gtb_spec (clock s1 - start) t) as [Hgt|Hle].
      * injection H as <- <-. exists t. split; [reflexivity|lia].
      * exact (IH _ _ H Hshort).
    + exact (IH _ _ H Hshort).
  - injection H as <- <-. lia.
Qed.

(** X4.  Called with a timeout on a port whose read timeout is not
    negative, [read_exact] comes back, whatever the line does.  And when
    [read_exact] comes back it has not raised: it hands over at most [size]
    bytes, the very bytes taken off the line in between, in their order;
    and it hands over fewer than [size] only when it was called with a
    timeout and more than that timeout has passed on the clock. *)
Theorem X4_read_exact_result fuel size timeout s :
  (forall t,
     timeout = Some t -> 0 <= read_timeout s ->
     (Z.to_nat size + Z.to_nat (t + 10) < fuel)%nat ->
     exists buf s', read_exact fuel size timeout s = Some (Ok buf, s'))
  /\ (forall o s',
        read_exact fuel size timeout s = Some (o, s') ->
        exists buf,
          o = Ok buf
          /\ len buf <= Z.max 0 size
          /\ buf = taken s s'
          /\ consumed s' = (consumed s + length buf)%nat
          /\ (len buf < size ->
              exists t, timeout = Some t /\ clock s' - clock s > t)).
Proof.
  split.
  - intros t -> HT Hfuel. apply read_exact_terminates; assumption.
  - intros o s' H.
    destruct (read_exact_spec _ _ _ _ _ _ H)
      as (buf & -> & Hw & _ & _ & Hc & _ & Hle).
    exists buf. split; [reflexivity|]. split; [exact Hle|].
    split; [|split; [exact Hc|]].
    + unfold taken. rewrite Hc.
      replace (consumed s + length buf - consumed s)%nat
        with (length buf) by lia.
      exact Hw.
    + unfold read_exact, bind, time_time in H.
      apply (read_exact_loop_short _ _ _ _ _ _ _ _ H).
Qed.

(** X4, witness: 46 bytes wanted, 10 on the line. *)
Lemma X4_read_exact_result_witness :
  (exists buf s',
     read_exact 1100 46 (Some 1000) short_payload_port = Some (Ok buf, s'))
  /\ read_exact 8 46 (Some 1000) short_payload_port
     = Some (Ok (take 10 scenario_record),
             mkSerial (line_of truncated_stream) 1000 22 2002 1)
  /\ exists buf,
       Ok (take 10 scenario_record) = Ok buf
       /\ len buf <= Z.max 0 46
       /\ buf = taken short_payload_port
                  (mkSerial (line_of truncated_stream) 1000 22 2002 1)
       /\ 22%nat = (12 + length buf)%nat
       /\ (len buf < 46 ->
           exists t, Some 1000 = Some t /\ 2002 - 0 > t).
Proof.
  split.
  - apply (proj1 (X4_read_exact_result 1100 46 (Some 1000)
                    short_payload_port) 1000).
    + reflexivity.
    + simpl. lia.
    + simpl. lia.
  - assert (H : read_exact 8 46 (Some 1000) short_payload_port
                = Some (Ok (take 10 scenario_record),
                        mkSerial (line_of truncated_stream) 1000 22 2002 1))
      by (vm_compute; reflexivity).
    split; [exact H|].
    exact (proj2 (X4_read_exact_result 8 46 (Some 1000) short_payload_port)
             _ _ H).
Defined.

(** X5.  When the marker is waiting on the port and nothing behind it comes
    in before the deadline of the next read, a call whose timeout is not
    longer than the port's finds the marker, reads an empty header and
    returns [None]: it has taken the marker only, and the clock shows the
    port's timeout and the lateness of the read more than at the call. *)
Theorem X5_decode_gives_up_when_bytes_come_late fuel timeout s :
  0 <= read_timeout s ->
  prompt s START_SEQ ->
  (forall a b, line s (consumed s + 4)%nat = Some (a, b)
               -> clock s + read_timeout s < a) ->
  timeout <= read_timeout s ->
  (4 <= fuel)%nat ->
  let s' := mkSerial (line s) (read_timeout s) (consumed s + 4)%nat
              (clock s + read_timeout s + Z.pos (overrun s)) (overrun s) in
  find_start fuel timeout s = Some (Ok true, advance s 4)
  /\ read_exact fuel 8 (Some timeout) (advance s 4) = Some (Ok [], s')
  /\ parse_frame_from_serial fuel timeout s = Some (ReturnNone, s').
Proof.
  intros HT Hp Hlate Ht Hfuel s'.
  assert (Hfind : find_start fuel timeout s = Some (Ok true, advance s 4)).
  { apply (find_start_prompt fuel timeout s START_SEQ [] HT Hp);
      [reflexivity|simpl; lia]. }
  assert (Hrd : read_exact fuel 8 (Some timeout) (advance s 4)
                = Some (Ok [], s')).
  { destruct fuel as [|fuel]; [lia|].
    apply (read_exact_idle fuel 8 timeout (advance s 4)); [lia| |exact Ht].
    exact Hlate. }
  split; [exact Hfind|]. split; [exact Hrd|].
  apply (parse_header_short _ _ _ _ _ _ Hfind Hrd). unfold len. simpl. lia.
Qed.

(** X5, witness: the marker at once and the rest of the scenario frame
    after 1.5 s. *)
Lemma X5_decode_gives_up_witness :
  parse_frame_from_serial 4 1000 (mkSerial late_frame 1000 0 0 1)
  = Some (ReturnNone, mkSerial late_frame 1000 4 1001 1).
Proof.
  apply (X5_decode_gives_up_when_bytes_come_late 4 1000
           (mkSerial late_frame 1000 0 0 1)).
  - simpl. lia.
  - intros j b Hj. exists 0. split; [|simpl; lia].
    do 4 (destruct j as [|j]; [injection Hj as <-; reflexivity|]).
    discriminate Hj.
  - intros a b H. vm_compute in H. injection H as <- <-. reflexivity.
  - simpl. lia.
  - lia.
Defined.

Lemma read_exact_loop_blocks fuel size start buf s (n : nat) :
  line s (consumed s + n)%nat = None ->
  len buf + Z.of_nat n < size ->
  read_exact_loop fuel size None start buf s = None.
Proof.
  revert buf s n. induction fuel as [|fuel IH]; intros buf s n Hsilent Hshort;
    [reflexivity|].
  rewrite read_exact_loop_S.
  destruct (Z.ltb_spec (len buf) size) as [Hlt|Hge]; [|lia].
  destruct (ser_read_spec (size - len buf) s)
    as (bs & s1 & Hrd & Hl & Ht & Hc & Hn & Hw & _).
  rewrite Hrd.
  pose proof (wire_silent (line s) (consumed s) (length bs) n Hsilent) as Hle.
  rewrite <- Hw in Hle.
  destruct (negb (len bs =? 0)).
  - apply (IH _ _ (n - length bs)%nat).
    + rewrite Hl, Hc, <- Hsilent. f_equal. lia.
    + rewrite len_app. unfold len in *. lia.
  - apply (IH _ _ (n - length bs)%nat); simpl.
    + rewrite Hl, Hc, <- Hsilent. f_equal. lia.
    + unfold len in *. lia.
Qed.

(** X6.  Called without a timeout, [read_exact] never comes back when the
    line ends before [size] bytes are in: no amount of fuel makes it
    return. *)
Theorem X6_read_exact_without_timeout_blocks size s (n : nat) :
  line s (consumed s + n)%nat = None ->
  Z.of_nat n < size ->
  forall fuel, read_exact fuel size None s = None.
Proof.
  intros Hsilent Hshort fuel. unfold read_exact, bind, time_time.
  apply (read_exact_loop_blocks fuel size (clock s) [] s n Hsilent).
  unfold len. simpl. lia.
Qed.

(** X6, witness: 46 bytes wanted without a timeout, 10 on the line. *)
Lemma X6_read_exact_blocks_witness :
  line short_payload_port (consumed short_payload_port + 10)%nat = None
  /\ forall fuel, read_exact fuel 46 None short_payload_port = None.
Proof.
  split; [reflexivity|].
  apply (X6_read_exact_without_timeout_blocks 46 short_payload_port 10).
  - reflexivity.
  - lia.
Defined.

(** X7.  When the bytes [l] are waiting on the port, [read_exact] hands over
    the first [size] of them at once, without moving the clock, and leaves
    the others waiting. *)
Theorem X7_read_exact_takes_waiting_bytes fuel size timeout s (l : list byte) :
  0 <= read_timeout s -> prompt s l -> 0 <= size <= len l ->
  (2 <= fuel)%nat ->
  read_exact fuel size timeout s
  = Some (Ok (take (Z.to_nat size) l), advance s (Z.to_nat size))
  /\ prompt (advance s (Z.to_nat size)) (drop (Z.to_nat size) l).
Proof.
  intros HT Hp Hsz Hfuel. split.
  - apply read_exact_prompt; assumption.
  - apply prompt_advance, Hp.
Qed.

(** X7, witness: the eight header bytes of the scenario stream. *)
Lemma X7_read_exact_takes_waiting_witness :
  read_exact 2 8 None (advance (port_of scenario_stream) 4)
  = Some (Ok (take 8 (drop 4 scenario_stream)),
          advance (advance (port_of scenario_stream) 4) 8)
  /\ prompt (advance (advance (port_of scenario_stream) 4) 8)
       (drop 8 (drop 4 scenario_stream)).
Proof.
  apply (X7_read_exact_takes_waiting_bytes 2 8 None
           (advance (port_of scenario_stream) 4) (drop 4 scenario_stream)).
  - simpl. lia.
  - apply prompt_advance, prompt_port_of.
  - vm_compute. split; discriminate.
  - lia.
Defined.

(** ** The decode on waiting bytes *)

Lemma parse_after_garbage fuel timeout s (pre hdr bb chk rest : list byte)
    (k : nat) :
  0 <= read_timeout s ->
  prompt s (pre ++ START_SEQ ++ hdr ++ bb ++ chk ++ rest) ->
  (forall i, (i < length pre)%nat ->
             ~ marker_at (pre ++ START_SEQ ++ hdr ++ bb ++ chk ++ rest) i) ->
  length hdr = 8%nat -> raw hdr 4 = Z.of_nat k ->
  length bb = (46 * k)%nat -> length chk = 4%nat ->
  forallb record_ok (records bb k) = true ->
  ge_le 0x01 0x03 (raw hdr 5) = true ->
  (length pre + 16 + 46 * k + length rest <= fuel)%nat ->
  parse_frame_from_serial fuel timeout s
  = Some (Ok (mkMircoData (head_of hdr) (fields <$> records bb k)
                (check_of chk), info_of hdr),
          advance s (length pre + 16 + 46 * k))
  /\ prompt (advance s (length pre + 16 + 46 * k)) rest.
Proof.
  intros HT Hp Hfirst Hhdr Hk Hbb Hchk Hok Hwork Hfuel.
  set (l := pre ++ START_SEQ ++ hdr ++ bb ++ chk ++ rest) in *.
  assert (Hlen : length l = (length pre + 16 + 46 * k + length rest)%nat).
  { unfold l. rewrite !length_app, Hhdr, Hbb, Hchk. simpl. lia. }
  assert (Hm : marker_at l (length pre)).
  { unfold marker_at, l. rewrite drop_app_length. reflexivity. }
  pose proof (scan_first_marker l (length pre) Hm Hfirst) as Hscan.
  assert (Hdrop : drop (length pre + 4) l = hdr ++ bb ++ chk ++ rest).
  { unfold l. rewrite <- drop_drop, drop_app_length. reflexivity. }
  rewrite Hdrop in Hscan.
  split.
  - rewrite (parse_valid_frame fuel timeout s l hdr bb chk rest k);
      try assumption; try lia.
    rewrite Hlen. do 2 f_equal. f_equal. lia.
  - pose proof (prompt_advance s l (length pre + 16 + 46 * k) Hp) as Hp'.
    replace (drop (length pre + 16 + 46 * k) l) with rest in Hp'; [exact Hp'|].
    unfold l. rewrite (app_assoc pre), (app_assoc _ hdr), (app_assoc _ bb),
      (app_assoc _ chk).
    rewrite drop_app_length'; [reflexivity|].
    rewrite !length_app, Hhdr, Hbb, Hchk. simpl. lia.
Qed.

(** X8.  When bytes without a complete marker of their own, and then a
    complete frame that the models accept, are waiting on the port, the
    decode returns that frame, having taken the bytes before it and the
    frame itself, and leaves the bytes behind the frame waiting. *)
Theorem X8_decode_skips_garbage fuel timeout s
    (pre hdr bb chk rest : list byte) (k : nat) :
  0 <= read_timeout s ->
  prompt s (pre ++ START_SEQ ++ hdr ++ bb ++ chk ++ rest) ->
  (forall i, (i < length pre)%nat ->
             ~ marker_at (pre ++ START_SEQ ++ hdr ++ bb ++ chk ++ rest) i) ->
  length hdr = 8%nat -> raw hdr 4 = Z.of_nat k ->
  length bb = (46 * k)%nat -> length chk = 4%nat ->
  forallb record_ok (records bb k) = true ->
  ge_le 0x01 0x03 (raw hdr 5) = true ->
  (length pre + 16 + 46 * k + length rest <= fuel)%nat ->
  parse_frame_from_serial fuel timeout s
  = Some (Ok (mkMircoData (head_of hdr) (fields <$> records bb k)
                (check_of chk), info_of hdr),
          advance s (length pre + 16 + 46 * k))
  /\ prompt (advance s (length pre + 16 + 46 * k)) rest.
Proof. apply parse_after_garbage. Qed.

(** X8, witness: the scenario frame between other bytes. *)
Lemma X8_decode_skips_garbage_witness :
  parse_frame_from_serial 67 1000 (port_of garbage_then_scenario)
  = Some (Ok (mkMircoData (head_of one_target_header)
                (fields <$> records scenario_record 1)
                (check_of good_footer), info_of one_target_header),
          advance (port_of garbage_then_scenario) (3 + 16 + 46 * 1))
  /\ prompt (advance (port_of garbage_then_scenario) (3 + 16 + 46 * 1))
       [x11; x22].
Proof.
  apply (X8_decode_skips_garbage 67 1000 (port_of garbage_then_scenario)
           [x53; x59; x00] one_target_header scenario_record good_footer
           [x11; x22] 1).
  - simpl. lia.
  - apply prompt_port_of.
  - intros i Hi Hm. destruct i as [|[|[|i]]]; [discriminate Hm..|simpl in Hi; lia].
  - reflexivity.
  - reflexivity.
  - reflexivity.
  - reflexivity.
  - vm_compute. reflexivity.
  - reflexivity.
  - vm_compute. repeat constructor.
Defined.

(** X9.  When two frames that the models accept are waiting on the port back
    to back, two calls of the decode in a row return the first and then the
    second, and leave what follows waiting. *)
Theorem X9_successive_calls_decode_successive_frames fuel timeout s
    (hdr1 bb1 chk1 hdr2 bb2 chk2 rest : list byte) (k1 k2 : nat) :
  0 <= read_timeout s ->
  prompt s (START_SEQ ++ hdr1 ++ bb1 ++ chk1
            ++ START_SEQ ++ hdr2 ++ bb2 ++ chk2 ++ rest) ->
  length hdr1 = 8%nat -> raw hdr1 4 = Z.of_nat k1 ->
  length bb1 = (46 * k1)%nat -> length chk1 = 4%nat ->
  forallb record_ok (records bb1 k1) = true ->
  ge_le 0x01 0x03 (raw hdr1 5) = true ->
  length hdr2 = 8%nat -> raw hdr2 4 = Z.of_nat k2 ->
  length bb2 = (46 * k2)%nat -> length chk2 = 4%nat ->
  forallb record_ok (records bb2 k2) = true ->
  ge_le 0x01 0x03 (raw hdr2 5) = true ->
  (32 + 46 * k1 + 46 * k2 + length rest <= fuel)%nat ->
  let s1 := advance s (16 + 46 * k1) in
  let s2 := advance s1 (16 + 46 * k2) in
  parse_frame_from_serial fuel timeout s
  = Some (Ok (mkMircoData (head_of hdr1) (fields <$> records bb1 k1)
                (check_of chk1), info_of hdr1), s1)
  /\ parse_frame_from_serial fuel timeout s1
     = Some (Ok (mkMircoData (head_of hdr2) (fields <$> records bb2 k2)
                   (check_of chk2), info_of hdr2), s2)
  /\ prompt s2 rest.
Proof.
  intros HT Hp Hh1 Hk1 Hb1 Hc1 Hok1 Hw1 Hh2 Hk2 Hb2 Hc2 Hok2 Hw2 Hfuel s1 s2.
  destruct (parse_after_garbage fuel timeout s [] hdr1 bb1 chk1
              (START_SEQ ++ hdr2 ++ bb2 ++ chk2 ++ rest) k1 HT Hp)
    as [Hrun1 Hp1]; try assumption.
  { intros i Hi. simpl in Hi. lia. }
  { rewrite !length_app, Hh2, Hb2, Hc2. simpl. lia. }
  simpl length in Hrun1, Hp1. fold s1 in Hrun1, Hp1.
  split; [exact Hrun1|].
  destruct (parse_after_garbage fuel timeout s1 [] hdr2 bb2 chk2 rest k2 HT Hp1)
    as [Hrun2 Hp2]; try assumption.
  { intros i Hi. simpl in Hi. lia. }
  { simpl. lia. }
  simpl length in Hrun2, Hp2. fold s2 in Hrun2, Hp2.
  split; [exact Hrun2|exact Hp2].
Qed.

(** X9, witness: the scenario frame and the frame with the numbered record. *)
Lemma X9_successive_calls_witness :
  let s1 := advance (port_of two_frames) (16 + 46 * 1) in
  let s2 := advance s1 (16 + 46 * 1) in
  parse_frame_from_serial 124 1000 (port_of two_frames)
  = Some (Ok (mkMircoData (head_of one_target_header)
                (fields <$> records scenario_record 1)
                (check_of good_footer), info_of one_target_header), s1)
  /\ parse_frame_from_serial 124 1000 s1
     = Some (Ok (mkMircoData (head_of one_target_header)
                   (fields <$> records numbered_record 1)
                   (check_of zero_terminator_footer),
                 info_of one_target_header), s2)
  /\ prompt s2 [].
Proof.
  apply (X9_successive_calls_decode_successive_frames 124 1000
           (port_of two_frames) one_target_header scenario_record good_footer
           one_target_header numbered_record zero_terminator_footer [] 1 1);
    first [ apply prompt_port_of
          | reflexivity
          | vm_compute; reflexivity
          | simpl; lia ].
Defined.

(** Marker found behind garbage, header and payload read, all from bytes that
    are already in. *)
Lemma waiting_payload_read fuel timeout s (pre hdr bb tail : list byte)
    (k : nat) :
  0 <= read_timeout s ->
  prompt s (pre ++ START_SEQ ++ hdr ++ bb ++ tail) ->
  (forall i, (i < length pre)%nat ->
             ~ marker_at (pre ++ START_SEQ ++ hdr ++ bb ++ tail) i) ->
  length hdr = 8%nat -> raw hdr 4 = Z.of_nat k ->
  length bb = (46 * k)%nat ->
  (2 <= fuel)%nat -> (length pre + 4 <= fuel)%nat ->
  let a := (length pre + 4)%nat in
  find_start fuel timeout s = Some (Ok true, advance s a)
  /\ read_exact fuel 8 (Some timeout) (advance s a)
     = Some (Ok hdr, advance s (a + 8))
  /\ read_exact fuel (raw hdr 4 * 46) (Some timeout) (advance s (a + 8))
     = Some (Ok bb, advance s (a + 8 + 46 * k))
  /\ prompt (advance s (a + 8 + 46 * k)) tail.
Proof.
  intros HT Hp Hfirst Hhdr Hk Hbb Hf2 Hfuel a.
  set (l := pre ++ START_SEQ ++ hdr ++ bb ++ tail) in *.
  assert (Hm : marker_at l (length pre)).
  { unfold marker_at, l. rewrite drop_app_length. reflexivity. }
  pose proof (marker_at_length _ _ Hm) as Hlen.
  pose proof (scan_first_marker l (length pre) Hm Hfirst) as Hscan.
  assert (Hfind : find_start fuel timeout s = Some (Ok true, advance s a)).
  { rewrite (find_start_prompt fuel timeout s l _ HT Hp Hscan)
      by (rewrite length_drop; lia).
    rewrite length_drop. do 3 f_equal. unfold a. lia. }
  assert (Hp1 : prompt (advance s a) (hdr ++ bb ++ tail)).
  { pose proof (prompt_advance s l a Hp) as Hp'. unfold a, l in Hp'.
    rewrite <- drop_drop, drop_app_length in Hp'. exact Hp'. }
  assert (Hrd1 : read_exact fuel 8 (Some timeout) (advance s a)
                 = Some (Ok hdr, advance s (a + 8))).
  { rewrite (read_exact_prompt fuel 8 (Some timeout) (advance s a) _ HT Hp1)
      by (unfold len; try rewrite !length_app; lia).
    change (Z.to_nat 8) with 8%nat. rewrite <- Hhdr at 1.
    rewrite take_app_length, advance_advance. reflexivity. }
  assert (Hp2 : prompt (advance s (a + 8)) (bb ++ tail)).
  { pose proof (prompt_advance _ _ 8 Hp1) as Hp'.
    rewrite <- Hhdr, drop_app_length, Hhdr, advance_advance in Hp'. exact Hp'. }
  assert (Hrd2 : read_exact fuel (raw hdr 4 * 46) (Some timeout)
                   (advance s (a + 8))
                 = Some (Ok bb, advance s (a + 8 + 46 * k))).
  { rewrite (read_exact_prompt fuel _ (Some timeout) (advance s (a + 8)) _
               HT Hp2) by (unfold len; try rewrite !length_app; lia).
    replace (Z.to_nat (raw hdr 4 * 46)) with (length bb) by lia.
    rewrite take_app_length, advance_advance, Hbb. reflexivity. }
  repeat split; auto.
  pose proof (prompt_advance _ _ (46 * k) Hp2) as Hp'.
  rewrite <- Hbb, drop_app_length, Hbb, advance_advance in Hp'. exact Hp'.
Qed.

(** A waiting frame with a refused record: the decode raises and leaves the
    port just behind the payload. *)
Lemma parse_waiting_refused fuel timeout s (pre hdr bb tail : list byte)
    (k : nat) :
  0 <= read_timeout s ->
  prompt s (pre ++ START_SEQ ++ hdr ++ bb ++ tail) ->
  (forall i, (i < length pre)%nat ->
             ~ marker_at (pre ++ START_SEQ ++ hdr ++ bb ++ tail) i) ->
  length hdr = 8%nat -> raw hdr 4 = Z.of_nat k ->
  length bb = (46 * k)%nat ->
  forallb record_ok (records bb k) = false ->
  (2 <= fuel)%nat -> (length pre + 4 <= fuel)%nat ->
  parse_frame_from_serial fuel timeout s
  = Some (Raised ValidationError, advance s (length pre + 12 + 46 * k))
  /\ prompt (advance s (length pre + 12 + 46 * k)) tail.
Proof.
  intros HT Hp Hfirst Hhdr Hk Hbb Hbad Hf2 Hfuel.
  destruct (waiting_payload_read fuel timeout s pre hdr bb tail k
              HT Hp Hfirst Hhdr Hk Hbb Hf2 Hfuel)
    as (Hfind & Hrd1 & Hrd2 & Hp3).
  replace (length pre + 4 + 8 + 46 * k)%nat
    with (length pre + 12 + 46 * k)%nat in * by lia.
  split; [|exact Hp3].
  rewrite (parse_payload_read _ _ _ _ _ _ _ _ Hfind Hrd1 Hhdr Hrd2)
    by (unfold len; lia).
  rewrite parse_bodies_read by (unfold len; lia).
  rewrite Hk, Nat2Z.id, Hbad. reflexivity.
Qed.

(** X10.  A frame with a record the model refuses makes the decode raise
    with the port left behind the payload, the footer unread; the next call
    skips what lies before the next marker and returns the frame that
    follows, when it is one the models accept. *)
Theorem X10_decode_recovers_after_refused_record fuel timeout s
    (hdr1 bb1 pre hdr2 bb2 chk2 rest : list byte) (k1 k2 : nat) :
  0 <= read_timeout s ->
  prompt s (START_SEQ ++ hdr1 ++ bb1
            ++ pre ++ START_SEQ ++ hdr2 ++ bb2 ++ chk2 ++ rest) ->
  length hdr1 = 8%nat -> raw hdr1 4 = Z.of_nat k1 ->
  length bb1 = (46 * k1)%nat ->
  forallb record_ok (records bb1 k1) = false ->
  (forall i, (i < length pre)%nat ->
             ~ marker_at (pre ++ START_SEQ ++ hdr2 ++ bb2 ++ chk2 ++ rest) i) ->
  length hdr2 = 8%nat -> raw hdr2 4 = Z.of_nat k2 ->
  length bb2 = (46 * k2)%nat -> length chk2 = 4%nat ->
  forallb record_ok (records bb2 k2) = true ->
  ge_le 0x01 0x03 (raw hdr2 5) = true ->
  (4 <= fuel)%nat ->
  (length pre + 16 + 46 * k2 + length rest <= fuel)%nat ->
  let s1 := advance s (12 + 46 * k1) in
  parse_frame_from_serial fuel timeout s = Some (Raised ValidationError, s1)
  /\ parse_frame_from_serial fuel timeout s1
     = Some (Ok (mkMircoData (head_of hdr2) (fields <$> records bb2 k2)
                   (check_of chk2), info_of hdr2),
             advance s1 (length pre + 16 + 46 * k2)).
Proof.
  intros HT Hp Hh1 Hk1 Hb1 Hbad Hfirst Hh2 Hk2 Hb2 Hc2 Hok2 Hw2 Hf4 Hfuel s1.
  destruct (parse_waiting_refused fuel timeout s [] hdr1 bb1
              (pre ++ START_SEQ ++ hdr2 ++ bb2 ++ chk2 ++ rest) k1 HT Hp)
    as [Hrun1 Hp1]; try assumption; try (simpl; lia).
  simpl length in Hrun1, Hp1. fold s1 in Hrun1, Hp1.
  split; [exact Hrun1|].
  apply (parse_after_garbage fuel timeout s1 pre hdr2 bb2 chk2 rest k2 HT Hp1);
    assumption.
Qed.

(** X10, witness: a record with the status byte 0, and then the scenario
    frame. *)
Lemma X10_decode_recovers_witness :
  let s1 := advance (port_of refused_then_scenario) (12 + 46 * 1) in
  parse_frame_from_serial 66 1000 (port_of refused_then_scenario)
  = Some (Raised ValidationError, s1)
  /\ parse_frame_from_serial 66 1000 s1
     = Some (Ok (mkMircoData (head_of one_target_header)
                   (fields <$> records scenario_record 1)
                   (check_of good_footer), info_of one_target_header),
             advance s1 (length good_footer + 16 + 46 * 1)).
Proof.
  apply (X10_decode_recovers_after_refused_record 66 1000
           (port_of refused_then_scenario) one_target_header status_0_record
           good_footer one_target_header scenario_record good_footer [] 1 1);
    first [ apply prompt_port_of
          | reflexivity
          | vm_compute; reflexivity
          | simpl; lia
          | idtac ].
  intros i Hi Hm.
  destruct i as [|[|[|[|i]]]]; [discriminate Hm..|simpl in Hi; lia].
Defined.

(** ** The dictionary returned with the frame *)

(** X11.  The dictionary returned next to a frame says what the header of
    the frame says: the data length, the mode, the number of targets, the
    work status and the reserve bytes are those of the header, and
    [time_minutes] is the two time bytes read as a little-endian number;
    the work status of a returned frame is 1, 2 or 3.  And a complete frame
    that is waiting on the port and that the models accept is returned with
    such a dictionary, holding the header bytes of the frame. *)
Theorem X11_dictionary_agrees_with_header fuel timeout s :
  (forall d info s',
     parse_frame_from_serial fuel timeout s = Some (Ok (d, info), s') ->
     exists t0 t1,
       time (header d) = [t0; t1]
       /\ 0 <= t0 <= 255 /\ 0 <= t1 <= 255
       /\ info !! "data_length" = Some (PInt (data_length (header d)))
       /\ info !! "mode" = Some (PInt (mode (header d)))
       /\ info !! "time_minutes" = Some (PInt (t0 + 256 * t1))
       /\ info !! "num_targets" = Some (PInt (num_TLV (header d)))
       /\ info !! "work_status" = Some (PInt (work_con (header d)))
       /\ info !! "reserve" = Some (PList (reserve (header d)))
       /\ 1 <= work_con (header d) <= 3)
  /\ (forall (hdr bb chk rest : list byte) (k : nat),
        0 <= read_timeout s ->
        prompt s (START_SEQ ++ hdr ++ bb ++ chk ++ rest) ->
        length hdr = 8%nat -> raw hdr 4 = Z.of_nat k ->
        length bb = (46 * k)%nat -> length chk = 4%nat ->
        forallb record_ok (records bb k) = true ->
        1 <= raw hdr 5 <= 3 ->
        (16 + 46 * k + length rest <= fuel)%nat ->
        exists d info s',
          parse_frame_from_serial fuel timeout s = Some (Ok (d, info), s')
          /\ info !! "data_length" = Some (PInt (raw hdr 0))
          /\ info !! "mode" = Some (PInt (raw hdr 1))
          /\ info !! "time_minutes"
             = Some (PInt (raw hdr 2 + 256 * raw hdr 3))
          /\ info !! "num_targets" = Some (PInt (Z.of_nat k))
          /\ info !! "work_status" = Some (PInt (raw hdr 5))
          /\ info !! "reserve" = Some (PList [raw hdr 6; raw hdr 7])).
Proof.
  split.
  - intros d info s' Hparse.
    destruct (parse_Ok_inv _ _ _ _ _ _ Hparse)
      as (s1 & hdr & s2 & bb & s3 & chk & _ & _ & _ & _ & _ & _ & _ & _
          & Hwork & -> & ->).
    exists (raw hdr 2), (raw hdr 3).
    cbn [header head_of time data_length mode num_TLV work_con reserve].
    pose proof (raw_range hdr 2). pose proof (raw_range hdr 3).
    unfold ge_le in Hwork. apply andb_prop in Hwork as [Hw1 Hw3].
    apply Z.leb_le in Hw1, Hw3.
    unfold info_of. rewrite Z.shiftl_mul_pow2 by lia.
    replace (raw hdr 3 * 2 ^ 8) with (256 * raw hdr 3) by lia.
    repeat split; try lia;
      repeat (first [ apply lookup_insert_eq
                    | rewrite lookup_insert_ne by discriminate ]).
  - intros hdr bb chk rest k HT Hp Hhdr Hk Hbb Hchk Hok Hwork Hfuel.
    destruct (parse_after_garbage fuel timeout s [] hdr bb chk rest k HT Hp)
      as [Hrun _]; try assumption; try (simpl; lia).
    { unfold ge_le. apply andb_true_intro. rewrite !Z.leb_le. lia. }
    eexists _, _, _. split; [exact Hrun|].
    pose proof (raw_range hdr 3).
    unfold info_of. rewrite Z.shiftl_mul_pow2 by lia.
    replace (raw hdr 3 * 2 ^ 8) with (256 * raw hdr 3) by lia.
    rewrite <- Hk.
    repeat split;
      repeat (first [ apply lookup_insert_eq
                    | rewrite lookup_insert_ne by discriminate ]).
Qed.

(** X11, witness: the frame returned on the scenario stream. *)
Lemma X11_dictionary_witness :
  (exists t0 t1,
     time (header scenario_frame) = [t0; t1]
     /\ 0 <= t0 <= 255 /\ 0 <= t1 <= 255
     /\ scenario_info !! "data_length"
        = Some (PInt (data_length (header scenario_frame)))
     /\ scenario_info !! "mode" = Some (PInt (mode (header scenario_frame)))
     /\ scenario_info !! "time_minutes" = Some (PInt (t0 + 256 * t1))
     /\ scenario_info !! "num_targets"
        = Some (PInt (num_TLV (header scenario_frame)))
     /\ scenario_info !! "work_status"
        = Some (PInt (work_con (header scenario_frame)))
     /\ scenario_info !! "reserve"
        = Some (PList (reserve (header scenario_frame)))
     /\ 1 <= work_con (header scenario_frame) <= 3)
  /\ (exists d info s',
        parse_frame_from_serial 62 1000 (port_of scenario_stream)
        = Some (Ok (d, info), s')
        /\ info !! "data_length" = Some (PInt (raw one_target_header 0))
        /\ info !! "mode" = Some (PInt (raw one_target_header 1))
        /\ info !! "time_minutes"
           = Some (PInt (raw one_target_header 2
                         + 256 * raw one_target_header 3))
        /\ info !! "num_targets" = Some (PInt (Z.of_nat 1))
        /\ info !! "work_status" = Some (PInt (raw one_target_header 5))
        /\ info !! "reserve"
           = Some (PList [raw one_target_header 6; raw one_target_header 7])).
Proof.
  split.
  - exact (proj1 (X11_dictionary_agrees_with_header 62 1000
                    (port_of scenario_stream)) _ _ _ scenario_run).
  - apply (proj2 (X11_dictionary_agrees_with_header 62 1000
                    (port_of scenario_stream))
             one_target_header scenario_record good_footer [] 1%nat);
      first [ apply prompt_port_of
            | reflexivity
            | simpl; lia
            | vm_compute; split; discriminate ].
Defined.

(** ** Which frames are returned *)

(** A waiting frame the models accept but for the work status: the whole
    frame is read and [MircoHead] raises. *)
Lemma parse_waiting_bad_status fuel timeout s (hdr bb chk rest : list byte)
    (k : nat) :
  0 <= read_timeout s ->
  prompt s (START_SEQ ++ hdr ++ bb ++ chk ++ rest) ->
  length hdr = 8%nat -> raw hdr 4 = Z.of_nat k ->
  length bb = (46 * k)%nat -> length chk = 4%nat ->
  forallb record_ok (records bb k) = true ->
  ge_le 0x01 0x03 (raw hdr 5) = false ->
  (4 <= fuel)%nat ->
  parse_frame_from_serial fuel timeout s
  = Some (Raised ValidationError, advance s (16 + 46 * k)).
Proof.
  intros HT Hp Hhdr Hk Hbb Hchk Hok Hbad Hfuel.
  destruct (waiting_payload_read fuel timeout s [] hdr bb (chk ++ rest) k
              HT Hp) as (Hfind & Hrd1 & Hrd2 & Hp3);
    try assumption; try (simpl; lia).
  change (length (@nil byte) + 4)%nat with 4%nat in *.
  change (4 + 8)%nat with 12%nat in *.
  rewrite (parse_payload_read _ _ _ _ _ _ _ _ Hfind Hrd1 Hhdr Hrd2)
    by (unfold len; lia).
  rewrite parse_bodies_read by (unfold len; lia).
  rewrite Hk, Nat2Z.id, Hok.
  rewrite (read_exact_prompt fuel 4 (Some timeout)
             (advance s (12 + 46 * k)) _ HT Hp3)
    by (unfold len; try rewrite !length_app; lia).
  change (Z.to_nat 4) with 4%nat. rewrite <- Hchk at 1 2.
  rewrite take_app_length, advance_advance.
  destruct (Z.ltb_spec (len chk) 4); [unfold len in *; lia|].
  unfold finish. rewrite Hbad. do 3 f_equal. lia.
Qed.

(** X12.  A complete frame that is waiting on the port has one of three
    outcomes.  It is returned when every record has a TLV byte of at most 2,
    an azimuth byte other than 128 and a status byte of 1 or 2, and the work
    status is 1, 2 or 3.  When only the work status is not, the decode
    raises [ValidationError] behind the footer.  When some record is not as
    said, the decode raises [ValidationError] behind the payload, the
    footer unread.  No other byte of the frame has a say. *)
Theorem X12_outcome_of_a_waiting_frame fuel timeout s
    (hdr bb chk rest : list byte) (k : nat) :
  0 <= read_timeout s ->
  prompt s (START_SEQ ++ hdr ++ bb ++ chk ++ rest) ->
  length hdr = 8%nat -> raw hdr 4 = Z.of_nat k ->
  length bb = (46 * k)%nat -> length chk = 4%nat ->
  (16 + 46 * k + length rest <= fuel)%nat ->
  let accepted (c : list byte) :=
    raw c 0 <= 2 /\ raw c 2 <> 128 /\ (raw c 3 = 1 \/ raw c 3 = 2) in
  let all_accepted := forall i, (i < k)%nat -> accepted (record bb i) in
  (all_accepted -> 1 <= raw hdr 5 <= 3 ->
   parse_frame_from_serial fuel timeout s
   = Some (Ok (mkMircoData (head_of hdr) (fields <$> records bb k)
                 (check_of chk), info_of hdr),
           advance s (16 + 46 * k)))
  /\ (all_accepted -> ~ 1 <= raw hdr 5 <= 3 ->
      parse_frame_from_serial fuel timeout s
      = Some (Raised ValidationError, advance s (16 + 46 * k)))
  /\ (~ all_accepted ->
      parse_frame_from_serial fuel timeout s
      = Some (Raised ValidationError, advance s (12 + 46 * k))).
Proof.
  intros HT Hp Hhdr Hk Hbb Hchk Hfuel accepted all_accepted.
  assert (Hacc : forall c, record_ok c = true <-> accepted c).
  { intros c. unfold record_ok, accepted. pose proof (raw_range c 0).
    rewrite !andb_true_iff, negb_true_iff, orb_true_iff, Z.leb_le,
      Z.eqb_neq, !Z.eqb_eq. tauto. }
  assert (Hall : forallb record_ok (records bb k) = true <-> all_accepted).
  { unfold all_accepted. rewrite forallb_forall. split.
    - intros H i Hi. apply Hacc, H. apply list_elem_of_In.
      apply list_elem_of_lookup. exists i. apply records_lookup, Hi.
    - intros H c Hc. apply list_elem_of_In, list_elem_of_lookup in Hc
        as [i Hi]. unfold records in Hi.
      rewrite list_lookup_fmap in Hi.
      destruct (seq 0 k !! i) as [j|] eqn:Hj; [|discriminate].
      apply lookup_seq in Hj as [-> Hlt]. injection Hi as <-.
      apply Hacc, H, Hlt. }
  assert (Hwork : ge_le 1 3 (raw hdr 5) = true <-> 1 <= raw hdr 5 <= 3).
  { unfold ge_le. rewrite andb_true_iff, !Z.leb_le. tauto. }
  split; [|split].
  - intros Ha Hw.
    apply (parse_after_garbage fuel timeout s [] hdr bb chk rest k HT Hp);
      try assumption; try (simpl; lia).
    + apply Hall, Ha.
    + apply Hwork, Hw.
  - intros Ha Hw.
    apply (parse_waiting_bad_status fuel timeout s hdr bb chk rest k HT Hp);
      try assumption; try lia.
    + apply Hall, Ha.
    + destruct (ge_le 1 3 (raw hdr 5)) eqn:E; [|reflexivity].
      exfalso. apply Hw, Hwork. reflexivity.
  - intros Hna.
    apply (parse_waiting_refused fuel timeout s [] hdr bb (chk ++ rest) k
             HT Hp); try assumption; try (simpl; lia).
    + destruct (forallb record_ok (records bb k)) eqn:E; [|reflexivity].
      exfalso. apply Hna, Hall. reflexivity.
Qed.

(** X12, witness: the scenario frame is returned. *)
Lemma X12_outcome_witness :
  parse_frame_from_serial 62 1000 (port_of scenario_stream)
  = Some (Ok (mkMircoData (head_of one_target_header)
                (fields <$> records scenario_record 1)
                (check_of good_footer), info_of one_target_header),
          advance (port_of scenario_stream) (16 + 46 * 1)).
Proof.
  apply (X12_outcome_of_a_waiting_frame 62 1000 (port_of scenario_stream)
           one_target_header scenario_record good_footer [] 1);
    first [ apply prompt_port_of
          | reflexivity
          | simpl; lia
          | idtac ].
  - intros i Hi. assert (i = 0%nat) as -> by lia.
    vm_compute. repeat split; try discriminate. left; reflexivity.
  - vm_compute. split; discriminate.
Defined.

(** X13.  A frame whose header announces no target is decoded without any
    payload being read: the decode returns the frame with an empty list of
    bodies from the 16 bytes of marker, header and footer, and leaves what
    follows waiting. *)
Theorem X13_frame_without_targets fuel timeout s (hdr chk rest : list byte) :
  0 <= read_timeout s ->
  prompt s (START_SEQ ++ hdr ++ chk ++ rest) ->
  length hdr = 8%nat -> length chk = 4%nat ->
  raw hdr 4 = 0 -> 1 <= raw hdr 5 <= 3 ->
  (16 + length rest <= fuel)%nat ->
  parse_frame_from_serial fuel timeout s
  = Some (Ok (mkMircoData (head_of hdr) [] (check_of chk), info_of hdr),
          advance s 16)
  /\ num_TLV (head_of hdr) = 0
  /\ prompt (advance s 16) rest.
Proof.
  intros HT Hp Hhdr Hchk Hk Hw Hfuel.
  destruct (parse_after_garbage fuel timeout s [] hdr [] chk rest 0 HT Hp)
    as [Hrun Hrest]; try assumption; try reflexivity; try (simpl; lia).
  - unfold ge_le. apply andb_true_intro. rewrite !Z.leb_le. lia.
  - split; [exact Hrun|]. split; [exact Hk|exact Hrest].
Qed.

(** X13, witness: the frame without targets, one more byte behind it. *)
Lemma X13_frame_without_targets_witness :
  parse_frame_from_serial 17 1000 (port_of no_target_stream)
  = Some (Ok (mkMircoData (head_of no_target_header) []
                (check_of good_footer), info_of no_target_header),
          advance (port_of no_target_stream) 16)
  /\ num_TLV (head_of no_target_header) = 0
  /\ prompt (advance (port_of no_target_stream) 16) [x07].
Proof.
  apply (X13_frame_without_targets 17 1000 (port_of no_target_stream)
           no_target_header good_footer [x07]);
    first [ apply prompt_port_of
          | reflexivity
          | simpl; lia
          | vm_compute; split; discriminate ].
Defined.

(** ** What a record's bytes decide *)

Lemma fields_take_42 (c : list byte) :
  fields (take 42 c) = fields c.
Proof.
  unfold fields, raw.
  rewrite !lookup_take_lt by lia.
  rewrite !take_drop_commute, !take_take. reflexivity.
Qed.

(** X14.  The last four bytes of a 46-byte record have no say in what the
    record is decoded into.  Of two records that agree on their first 42
    bytes, both are decoded, into the same body, when the TLV byte is at
    most 2, the azimuth byte is not 128 and the status byte is 1 or 2; and
    both make the model raise [ValidationError] otherwise. *)
Theorem X14_last_four_bytes_of_a_record_unused (c1 c2 : list byte) :
  length c1 = 46%nat -> length c2 = 46%nat ->
  take 42 c1 = take 42 c2 ->
  let accepted :=
    raw c1 0 <= 2 /\ raw c1 2 <> 128 /\ (raw c1 3 = 1 \/ raw c1 3 = 2) in
  (accepted ->
   exists body, parse_body c1 = Ok body /\ parse_body c2 = Ok body)
  /\ (~ accepted ->
      parse_body c1 = Raised ValidationError
      /\ parse_body c2 = Raised ValidationError).
Proof.
  intros H1 H2 Heq accepted.
  assert (Hsame : parse_body c1 = parse_body c2).
  { rewrite (parse_body_46 c1 H1), (parse_body_46 c2 H2).
    rewrite <- (fields_take_42 c1), <- (fields_take_42 c2), Heq.
    reflexivity. }
  assert (Hacc : record_ok c1 = true <-> accepted).
  { unfold record_ok, accepted. pose proof (raw_range c1 0).
    rewrite !andb_true_iff, negb_true_iff, orb_true_iff, Z.leb_le,
      Z.eqb_neq, !Z.eqb_eq. tauto. }
  rewrite <- Hsame. split.
  - intros Ha. exists (fields c1).
    split; apply parse_body_ok; auto; apply Hacc, Ha.
  - intros Hna. split; apply parse_body_refused; auto;
      (destruct (record_ok c1) eqn:E; [|reflexivity]);
      exfalso; apply Hna, Hacc; reflexivity.
Qed.

(** X14, witness: the numbered record and the same with another tail. *)
Lemma X14_last_four_bytes_witness :
  exists body,
    parse_body numbered_record = Ok body
    /\ parse_body numbered_record_other_tail = Ok body.
Proof.
  apply (X14_last_four_bytes_of_a_record_unused numbered_record
           numbered_record_other_tail); try reflexivity.
  vm_compute. repeat split; try discriminate. left. reflexivity.
Defined.

Lemma ints_lookup (l : list byte) (i : nat) :
  ints l !! i = int_of <$> l !! i.
Proof. unfold ints. apply list_lookup_fmap. Qed.

Lemma fields_as_decoded (c : list byte) :
  length c = 46%nat -> record_ok c = true -> body_as_decoded (fields c).
Proof.
  intros Hc Hrec.
  assert (Hcurve : forall (l : list byte) j v,
             ints l !! j = Some v -> 0 <= v <= 255).
  { intros l j v. rewrite ints_lookup.
    destruct (l !! j) as [b|]; [|discriminate].
    intros [= <-]. apply int_of_range. }
  assert (Hat : forall j, (j < 46)%nat ->
             exists b, c !! j = Some b /\ raw c j = int_of b).
  { intros j Hj. destruct (lookup_lt_is_Some_2 c j ltac:(lia)) as [b Hb].
    exists b. split; [exact Hb|]. unfold raw. rewrite Hb. reflexivity. }
  assert (Hresp : forall j, (j < 20)%nat ->
             ints (take 20 (drop 2 c)) !! j = Some (raw c (2 + j))).
  { intros j Hj. rewrite ints_lookup, lookup_take_lt, lookup_drop by lia.
    destruct (Hat (2 + j)%nat ltac:(lia)) as (b & -> & ->). reflexivity. }
  unfold record_ok in Hrec.
  apply andb_prop in Hrec as [Hrec Hst]. apply andb_prop in Hrec as [Htlv Haz].
  apply Z.leb_le in Htlv. apply negb_true_iff, Z.eqb_neq in Haz.
  pose proof (raw_range c 0). pose proof (raw_range c 2).
  pose proof (raw_range c 4). pose proof (raw_range c 5).
  unfold body_as_decoded.
  cbn [fields tlv_signal respiration_value heart_rate_value respiration_curve
       heart_rate_curve target_azimuth current_status].
  repeat split; try lia; try (eapply Hcurve; eassumption).
  - destruct (Z.eqb_spec (raw c 0) 0); lia.
  - rewrite (Hresp 0%nat) by lia. f_equal. simpl Nat.add.
    destruct (Z.leb_spec (raw c 2) 127).
    + rewrite Z.mod_small; lia.
    + replace (raw c 2 - 256) with (raw c 2 + (-1) * 256) by lia.
      rewrite Z.mod_add by lia. rewrite Z.mod_small; lia.
  - rewrite (Hresp 1%nat) by lia. reflexivity.
  - rewrite (Hresp 2%nat) by lia. reflexivity.
  - rewrite (Hresp 3%nat) by lia. reflexivity.
Qed.

(** X15.  A 46-byte record whose TLV, azimuth and status bytes the model
    accepts is decoded into a body with [tlv_signal] 1 or 2, the respiration
    and heart rate values and all values of the two curves between 0 and
    255, and a respiration curve whose first four values repeat the azimuth
    byte, the status, the respiration value and the heart rate value of the
    same body.  Every body of every frame the decode returns is such. *)
Theorem X15_decoded_body_values :
  (forall chunk : list byte,
     length chunk = 46%nat ->
     raw chunk 0 <= 2 -> raw chunk 2 <> 128 ->
     raw chunk 3 = 1 \/ raw chunk 3 = 2 ->
     exists body, parse_body chunk = Ok body /\ body_as_decoded body)
  /\ (forall fuel timeout s d info s' (i : nat) (body : MircoBody),
        parse_frame_from_serial fuel timeout s = Some (Ok (d, info), s') ->
        bodies d !! i = Some body ->
        body_as_decoded body).
Proof.
  split.
  - intros chunk Hlen Htlv Haz Hst.
    assert (Hok : record_ok chunk = true).
    { unfold record_ok.
      rewrite !andb_true_iff, negb_true_iff, orb_true_iff, Z.leb_le,
        Z.eqb_neq, !Z.eqb_eq. auto. }
    exists (fields chunk). split; [apply parse_body_ok; assumption|].
    apply fields_as_decoded; assumption.
  - intros fuel timeout s d info s' i body Hparse Hbody.
    destruct (parse_Ok_inv _ _ _ _ _ _ Hparse)
      as (s1 & hdr & s2 & bb & s3 & chk & _ & _ & _ & _ & Hlen & Hok & _ & _
          & _ & -> & _).
    cbn [bodies] in Hbody.
    destruct (decoded_body_lookup _ _ _ _ Hbody) as [Hi ->].
    apply fields_as_decoded; [|exact (records_all_ok _ _ _ Hok Hi)].
    apply length_record. pose proof (raw_range hdr 4).
    unfold len in Hlen. lia.
Qed.

(** X15, witness: the scenario record, and the body of the frame returned
    on the scenario stream. *)
Lemma X15_decoded_body_values_witness :
  (exists body, parse_body scenario_record = Ok body
                /\ body_as_decoded body)
  /\ (forall body, bodies scenario_frame !! 0%nat = Some body ->
                   body_as_decoded body).
Proof.
  split.
  - apply (proj1 X15_decoded_body_values scenario_record).
    + reflexivity.
    + vm_compute. discriminate.
    + vm_compute. discriminate.
    + left. reflexivity.
  - intros body Hbody.
    exact (proj2 X15_decoded_body_values _ _ _ _ _ _ _ _ scenario_run Hbody).
Defined.

(** ** The reader thread *)

Lemma int_of_ee (b : byte) : int_of b = 0xEE <-> b = xee.
Proof.
  split; [|intros ->; reflexivity].
  intros H. destruct b; vm_compute in H; first [reflexivity|discriminate].
Qed.

Lemma raw_ee (l : list byte) (i : nat) :
  raw l i = 0xEE <-> l !! i = Some xee.
Proof.
  unfold raw. destruct (l !! i) as [b|]; simpl.
  - rewrite int_of_ee. split; [intros ->; reflexivity|intros [= ->]; reflexivity].
  - split; discriminate.
Qed.

Lemma pair_has_ee (l : list byte) (i : nat) :
  (raw l i =? 0xEE) && (raw l (i + 1) =? 0xEE) = true <-> has_ee l i.
Proof.
  unfold has_ee. rewrite andb_true_iff, !Z.eqb_eq, !raw_ee. reflexivity.
Qed.

Lemma has_ee_lt (l : list byte) (i : nat) :
  has_ee l i -> (i + 2 <= length l)%nat.
Proof.
  intros [_ H]. apply lookup_lt_Some in H. lia.
Qed.

Lemma find_ee_Some (l : list byte) (i n k : nat) :
  find_ee l i n = Some k ->
  (i <= k < i + n)%nat /\ has_ee l k
  /\ forall j, (i <= j < k)%nat -> ~ has_ee l j.
Proof.
  revert i. induction n as [|n IH]; intros i; simpl; [discriminate|].
  destruct ((raw l i =? 238) && (raw l (i + 1) =? 238)) eqn:E.
  - intros [= <-]. apply pair_has_ee in E.
    repeat split; try lia; apply E.
  - intros H. destruct (IH _ H) as (Hk & Hee & Hfirst).
    repeat split; try lia; try apply Hee.
    intros j Hj Hj'. destruct (decide (j = i)) as [->|Hne].
    + apply pair_has_ee in Hj'. congruence.
    + apply (Hfirst j); [lia|exact Hj'].
Qed.

Lemma find_ee_None (l : list byte) (i n : nat) :
  find_ee l i n = None ->
  forall j, (i <= j < i + n)%nat -> ~ has_ee l j.
Proof.
  revert i. induction n as [|n IH]; intros i; simpl; [intros _ j Hj; lia|].
  destruct ((raw l i =? 238) && (raw l (i + 1) =? 238)) eqn:E; [discriminate|].
  intros H j Hj Hj'. destruct (decide (j = i)) as [->|Hne].
  - apply pair_has_ee in Hj'. congruence.
  - apply (IH _ H j); [lia|exact Hj'].
Qed.

Lemma find_ee_no_ee (l : list byte) :
  find_ee l 0 (Z.to_nat (len l - 1)) = None <-> no_ee l.
Proof.
  split.
  - intros H j Hj. pose proof (has_ee_lt _ _ Hj) as Hlt.
    apply (find_ee_None _ _ _ H j); [unfold len; lia|exact Hj].
  - intros H. destruct (find_ee l 0 _) as [k|] eqn:E; [|reflexivity].
    destruct (find_ee_Some _ _ _ _ E) as (_ & Hk & _).
    destruct (H k Hk).
Qed.

Lemma has_ee_app_l (f l : list byte) (j : nat) :
  (j + 2 <= length f)%nat -> has_ee (f ++ l) j <-> has_ee f j.
Proof.
  intros Hj. unfold has_ee. rewrite !lookup_app_l by lia. reflexivity.
Qed.

Lemma has_ee_take (l : list byte) (n j : nat) :
  (j + 2 <= n)%nat -> has_ee (take n l) j <-> has_ee l j.
Proof.
  intros Hj. unfold has_ee. rewrite !lookup_take_lt by lia. reflexivity.
Qed.

(** The first pass of the inner loop on a buffer. *)
Lemma find_ee_frame (l : list byte) (i : nat) :
  find_ee l 0 (Z.to_nat (len l - 1)) = Some i ->
  is_frame (take (i + 2) l) /\ (i + 2 <= length l)%nat.
Proof.
  intros H. destruct (find_ee_Some _ _ _ _ H) as (Hi & Hee & Hfirst).
  pose proof (has_ee_lt _ _ Hee) as Hlt. split; [|exact Hlt].
  exists i. rewrite length_take. split; [lia|]. split.
  - apply has_ee_take; [lia|exact Hee].
  - intros j Hj Hj'. apply has_ee_take in Hj'; [|lia].
    apply (Hfirst j); [lia|exact Hj'].
Qed.

Lemma is_frame_first (f l : list byte) :
  is_frame f ->
  find_ee (f ++ l) 0 (Z.to_nat (len (f ++ l) - 1)) = Some (length f - 2)%nat.
Proof.
  intros (i & Hlen & Hee & Hfirst).
  destruct (find_ee (f ++ l) 0 _) as [k|] eqn:E.
  - destruct (find_ee_Some _ _ _ _ E) as (_ & Hk & Hkfirst).
    f_equal. destruct (Nat.lt_trichotomy k i) as [Hlt|[->|Hgt]]; [|lia|].
    + exfalso. apply (Hfirst k Hlt). apply (has_ee_app_l f l); [lia|exact Hk].
    + exfalso. apply (Hkfirst i); [lia|].
      apply (has_ee_app_l f l); [lia|exact Hee].
  - exfalso. apply find_ee_no_ee in E. apply (E i).
    apply (has_ee_app_l f l); [lia|exact Hee].
Qed.

Lemma cuts_concat (l : list byte) fs rest :
  cuts l fs rest -> l = concat fs ++ rest /\ Forall is_frame fs /\ no_ee rest.
Proof.
  induction 1 as [l Hl|f l fs rest Hf _ (-> & Hfs & Hrest)].
  - repeat split; [constructor|exact Hl].
  - simpl. rewrite <- app_assoc. repeat split; [constructor; assumption|exact Hrest].
Qed.

Lemma cuts_app (l d : list byte) fs rest fs' rest' :
  cuts l fs rest -> cuts (rest ++ d) fs' rest' ->
  cuts (l ++ d) (fs ++ fs') rest'.
Proof.
  induction 1 as [l Hl|f l fs rest Hf _ IH]; intros H'.
  - exact H'.
  - rewrite <- app_assoc. simpl. constructor; [exact Hf|apply IH, H'].
Qed.

Lemma is_frame_unique (f f' l l' : list byte) :
  is_frame f -> is_frame f' -> f ++ l = f' ++ l' -> f = f' /\ l = l'.
Proof.
  intros Hf Hf' Heq.
  pose proof (is_frame_first f l Hf) as H1.
  pose proof (is_frame_first f' l' Hf') as H2.
  rewrite Heq, H2 in H1. injection H1 as Hlen.
  destruct Hf as (i & Hi & _), Hf' as (i' & Hi' & _).
  assert (length f = length f') by lia.
  split.
  - apply (f_equal (take (length f))) in Heq.
    rewrite take_app_length in Heq. rewrite H, take_app_length in Heq.
    exact Heq.
  - apply (f_equal (drop (length f))) in Heq.
    rewrite drop_app_length in Heq. rewrite H, drop_app_length in Heq.
    exact Heq.
Qed.

Lemma cuts_unique (l : list byte) fs rest fs' rest' :
  cuts l fs rest -> cuts l fs' rest' -> fs = fs' /\ rest = rest'.
Proof.
  intros H. revert fs' rest'.
  induction H as [l Hl|f l fs rest Hf _ IH]; intros fs' rest' H'.
  - inversion H' as [|f' l' fs'' rest'' Hf' _ Heq]; subst; [auto|].
    exfalso. destruct Hf' as (i & Hi & Hee & _).
    apply (Hl i). apply has_ee_app_l; [lia|exact Hee].
  - inversion H' as [l0 Hl0|f' l' fs'' rest'' Hf' Hc' Heq]; subst.
    + exfalso. destruct Hf as (i & Hi & Hee & _).
      apply (Hl0 i). apply has_ee_app_l; [lia|exact Hee].
    + destruct (is_frame_unique _ _ _ _ Hf Hf' (eq_sym Heq)) as [-> ->].
      destruct (IH _ _ Hc') as [-> ->]. auto.
Qed.

Lemma cut_frames_cuts fuel now r r' :
  cut_frames fuel now r = Some r' ->
  exists fs,
    cuts (all_data r) fs (all_data r')
    /\ data_csv r' = data_csv r ++ (long_frames fs ≫= frame_rows)
    /\ average1_csv r'
       = average1_csv r ++ ((fun f => raw f 20) <$> long_frames fs)
    /\ data_queue r'
       = data_queue r ++ (long_frames fs ≫= fun f => frame_points f now).
Proof.
  revert r. induction fuel as [|fuel IH]; intros r; simpl; [discriminate|].
  destruct (find_ee (all_data r) 0 _) as [i|] eqn:E.
  - intros H. destruct (IH _ H) as (fs & Hcuts & Hcsv & Havg & Hq).
    clear IH H. cbn [all_data data_csv average1_csv data_queue] in *.
    destruct (find_ee_frame _ _ E) as [Hf Hlen].
    assert (Hr : all_data (record_frame
                   (slice (all_data r) 0 (Z.of_nat i + 2)) now r)
                 = all_data r).
    { unfold record_frame. destruct (61 <=? _); reflexivity. }
    rewrite Hr in Hcuts.
    rewrite slice_nonneg in * by (unfold len; lia).
    replace (Z.to_nat (Z.of_nat i + 2 - 0)) with (i + 2)%nat in * by lia.
    replace (Z.to_nat (len (all_data r) - (Z.of_nat i + 2)))
      with (length (all_data r) - (i + 2))%nat in * by (unfold len; lia).
    replace (Z.to_nat (Z.of_nat i + 2)) with (i + 2)%nat in * by lia.
    change (Z.to_nat 0) with 0%nat in *. rewrite drop_0 in *.
    rewrite take_ge in Hcuts by (rewrite length_drop; lia).
    set (f := take (i + 2) (all_data r)) in *.
    exists (f :: fs). split.
    { rewrite <- (take_drop (i + 2) (all_data r)) at 1.
      constructor; assumption. }
    unfold long_frames in *. rewrite filter_cons.
    rewrite Hcsv, Havg, Hq. unfold record_frame.
    destruct (Z.leb_spec 61 (len f)) as [Hlong|Hshort].
    + rewrite decide_True by lia. cbn [data_csv average1_csv data_queue].
      simpl. rewrite <- !app_assoc. auto.
    + rewrite decide_False by lia. auto.
  - intros [= <-]. exists []. simpl. rewrite !app_nil_r.
    split; [|auto]. constructor. apply find_ee_no_ee, E.
Qed.

Lemma cut_frames_returns fuel now r :
  (length (all_data r) < 2 * fuel)%nat ->
  exists r', cut_frames fuel now r = Some r'.
Proof.
  revert r. induction fuel as [|fuel IH]; intros r Hlen; [lia|]. simpl.
  destruct (find_ee (all_data r) 0 _) as [i|] eqn:E; [|eauto].
  apply IH. cbn [all_data].
  destruct (find_ee_frame _ _ E) as [_ Hi].
  assert (Hr : all_data (record_frame
                 (slice (all_data r) 0 (Z.of_nat i + 2)) now r)
               = all_data r).
  { unfold record_frame. destruct (61 <=? _); reflexivity. }
  rewrite Hr, slice_nonneg by (unfold len; lia).
  rewrite length_take, length_drop. lia.
Qed.

Lemma point_values_app (q1 q2 : list item) :
  point_values (q1 ++ q2) = point_values q1 ++ point_values q2.
Proof. apply omap_app. Qed.

Lemma point_values_imap (l : list byte) (now : Z) (k : nat) :
  point_values
    ((fun p => Point (to_signed (int_of p.2)) (now + 50 * p.1))
       <$> imap (fun i x => (0 + Z.of_nat (k + i), x)) l)
  = to_signed <$> ints l.
Proof.
  revert k. induction l as [|x l IH]; intros k; [reflexivity|].
  cbn [imap fmap list_fmap point_values omap list_omap ints].
  cbn [snd]. f_equal.
  specialize (IH (S k)). unfold point_values, ints in IH.
  cbn [fmap] in IH. rewrite <- IH.
  do 2 f_equal. apply imap_ext. intros i y _. simpl.
  do 2 f_equal. lia.
Qed.

Lemma point_values_frame_points (f : list byte) (now : Z) :
  point_values (frame_points f now) = frame_values f.
Proof.
  unfold frame_points, frame_values, enumerate.
  apply (point_values_imap _ now 0).
Qed.

Lemma point_values_frames (fs : list (list byte)) (now : Z) :
  point_values (fs ≫= fun f => frame_points f now) = fs ≫= frame_values.
Proof.
  induction fs as [|f fs IH]; [reflexivity|].
  cbn [mbind list_bind]. rewrite point_values_app, point_values_frame_points.
  f_equal. exact IH.
Qed.

Lemma long_frames_app (fs1 fs2 : list (list byte)) :
  long_frames (fs1 ++ fs2) = long_frames fs1 ++ long_frames fs2.
Proof. apply filter_app. Qed.

Lemma ser_read_taken (size : Z) (s : Serial) :
  exists bs s',
    ser_read size s = Some (Ok bs, s')
    /\ line s' = line s
    /\ consumed s' = (consumed s + length bs)%nat
    /\ bs = wire (line s) (consumed s) (length bs)
    /\ (length bs <= Z.to_nat size)%nat.
Proof.
  destruct (ser_read_spec size s)
    as (bs & s' & H & Hl & _ & Hc & Hsz & Hbs & _).
  exists bs, s'. auto.
Qed.

(** What [rounds] passes of the thread do to a buffer without [EE EE]. *)
Lemma thread_cuts rounds fuel r s r' s' :
  serial_read_thread rounds fuel r s = Some (r', s') ->
  no_ee (all_data r) ->
  line s' = line s
  /\ (consumed s <= consumed s')%nat
  /\ length (taken s s') = (consumed s' - consumed s)%nat
  /\ (consumed s' - consumed s <= 1024 * rounds)%nat
  /\ exists fs,
       cuts (all_data r ++ taken s s') fs (all_data r')
       /\ data_csv r' = data_csv r ++ (long_frames fs ≫= frame_rows)
       /\ average1_csv r'
          = average1_csv r ++ ((fun f => raw f 20) <$> long_frames fs)
       /\ point_values (data_queue r')
          = point_values (data_queue r) ++ (long_frames fs ≫= frame_values).
Proof.
  revert r s. induction rounds as [|rounds IH]; intros r s Hrun Hno.
  - injection Hrun as <- <-. unfold taken. rewrite Nat.sub_diag. simpl.
    repeat split; try lia. exists []. simpl. rewrite !app_nil_r.
    split; [constructor; exact Hno|auto].
  - cbn [serial_read_thread] in Hrun.
    destruct (ser_read_taken 1024 s) as (bs & s1 & Hrd & Hl1 & Hc1 & Hbs & Hsz).
    rewrite Hrd in Hrun.
    destruct (on_data fuel bs (clock s1) r) as [r1|] eqn:Hon; [|discriminate].
    assert (Hr1 : exists fs1,
               cuts (all_data r ++ bs) fs1 (all_data r1)
               /\ data_csv r1 = data_csv r ++ (long_frames fs1 ≫= frame_rows)
               /\ average1_csv r1
                  = average1_csv r ++ ((fun f => raw f 20) <$> long_frames fs1)
               /\ point_values (data_queue r1)
                  = point_values (data_queue r)
                    ++ (long_frames fs1 ≫= frame_values)).
    { unfold on_data in Hon. case_bool_decide as Hempty.
      - injection Hon as <-. subst bs. exists []. simpl. rewrite !app_nil_r.
        split; [constructor; exact Hno|auto].
      - destruct (cut_frames_cuts _ _ _ _ Hon) as (fs1 & Hc & Hcsv & Havg & Hq).
        cbn [all_data data_csv average1_csv data_queue] in *.
        exists fs1. repeat split; try assumption.
        rewrite Hq, point_values_app, point_values_frames. reflexivity. }
    destruct Hr1 as (fs1 & Hcut1 & Hcsv1 & Havg1 & Hq1).
    destruct (cuts_concat _ _ _ Hcut1) as (_ & _ & Hno1).
    destruct (IH _ _ Hrun Hno1)
      as (Hl & Hc & Hlen & Hbound & fs2 & Hcut2 & Hcsv2 & Havg2 & Hq2).
    assert (Htaken : taken s s' = bs ++ taken s1 s').
    { unfold taken. rewrite Hl1.
      replace (consumed s' - consumed s)%nat
        with (length bs + (consumed s' - consumed s1))%nat by lia.
      rewrite wire_app by (rewrite <- Hbs; reflexivity).
      rewrite <- Hbs, <- Hc1. reflexivity. }
    split; [congruence|]. split; [lia|]. split.
    { rewrite Htaken, length_app, Hlen. lia. }
    split; [lia|].
    exists (fs1 ++ fs2). split.
    { rewrite Htaken, app_assoc. eapply cuts_app; eassumption. }
    rewrite long_frames_app, !bind_app, fmap_app.
    rewrite Hcsv2, Havg2, Hq2, Hcsv1, Havg1, Hq1, <- !app_assoc. auto.
Qed.

Lemma reads_S rounds s :
  exists bs s1,
    ser_read 1024 s = Some (Ok bs, s1)
    /\ reads (S rounds) s = (bs ++ (reads rounds s1).1, (reads rounds s1).2).
Proof.
  destruct (ser_read_taken 1024 s) as (bs & s1 & Hrd & _).
  exists bs, s1. split; [exact Hrd|]. cbn [reads]. rewrite Hrd.
  destruct (reads rounds s1) as [more s']. reflexivity.
Qed.

(** The thread leaves the port where its reads leave it, and has read what
    they handed over. *)
Lemma thread_reads rounds fuel r s r' s' :
  serial_read_thread rounds fuel r s = Some (r', s') ->
  no_ee (all_data r) ->
  s' = (reads rounds s).2 /\ taken s s' = (reads rounds s).1.
Proof.
  revert r s. induction rounds as [|rounds IH]; intros r s Hrun Hno.
  - injection Hrun as <- <-. unfold taken. rewrite Nat.sub_diag.
    split; reflexivity.
  - pose proof (thread_cuts _ _ _ _ _ _ Hrun Hno) as (Hl & Hc & Hlen & _).
    destruct (reads_S rounds s) as (bs & s1 & Hrd & ->).
    cbn [serial_read_thread] in Hrun. rewrite Hrd in Hrun.
    destruct (on_data fuel bs (clock s1) r) as [r1|] eqn:Hon; [|discriminate].
    destruct (ser_read_taken 1024 s) as (bs' & s1' & Hrd' & Hl1 & Hc1 & Hbs & _).
    rewrite Hrd in Hrd'. injection Hrd' as <- <-.
    assert (Hno1 : no_ee (all_data r1)).
    { unfold on_data in Hon. case_bool_decide.
      - injection Hon as <-. exact Hno.
      - destruct (cut_frames_cuts _ _ _ _ Hon) as (fs & Hcut & _).
        apply (cuts_concat _ _ _ Hcut). }
    pose proof (thread_cuts _ _ _ _ _ _ Hrun Hno1) as (Hl' & Hc' & Hlen' & _).
    destruct (IH _ _ Hrun Hno1) as [Hs' Htk].
    cbn [fst snd]. split; [exact Hs'|].
    rewrite <- Htk. unfold taken. rewrite Hl1.
    replace (consumed s' - consumed s)%nat
      with (length bs + (consumed s' - consumed s1))%nat by lia.
    rewrite wire_app by (rewrite <- Hbs; reflexivity).
    rewrite <- Hbs, <- Hc1. reflexivity.
Qed.

(** The thread never blocks for good on a port that answers: [rounds]
    passes are made, with fuel for the bytes the buffer holds and the reads
    hand over. *)
Lemma thread_returns rounds fuel r s :
  no_ee (all_data r) ->
  (length (all_data r) + length (reads rounds s).1 < 2 * fuel)%nat ->
  exists r' s', serial_read_thread rounds fuel r s = Some (r', s').
Proof.
  revert r s. induction rounds as [|rounds IH]; intros r s Hno Hfuel.
  - simpl. eauto.
  - destruct (reads_S rounds s) as (bs & s1 & Hrd & Hreads).
    rewrite Hreads in Hfuel. cbn [fst] in Hfuel.
    rewrite length_app in Hfuel.
    cbn [serial_read_thread]. rewrite Hrd.
    assert (Hon : exists r1, on_data fuel bs (clock s1) r = Some r1
                             /\ no_ee (all_data r1)
                             /\ (length (all_data r1)
                                 <= length (all_data r) + length bs)%nat).
    { unfold on_data. case_bool_decide as Hempty.
      - exists r. repeat split; [exact Hno|lia].
      - destruct (cut_frames_returns fuel (clock s1)
                    (mkReader (all_data r ++ bs) (data_csv r)
                       (average1_csv r) (data_queue r))) as [r1 Hr1].
        { cbn [all_data]. rewrite length_app. lia. }
        exists r1. split; [exact Hr1|].
        destruct (cut_frames_cuts _ _ _ _ Hr1) as (fs & Hc & _).
        destruct (cuts_concat _ _ _ Hc) as (Heq & _ & Hno1).
        split; [exact Hno1|]. cbn [all_data] in Heq.
        apply (f_equal length) in Heq. rewrite !length_app in Heq. lia. }
    destruct Hon as (r1 & -> & Hno1 & Hlen1).
    apply IH; [exact Hno1|lia].
Qed.

Lemma hr_data_lookup (frame : list byte) (i : nat) :
  61 <= len frame -> (i < 20)%nat ->
  exists b, slice frame 41 61 !! i = Some b /\ raw frame (41 + i) = int_of b.
Proof.
  intros Hlen Hi. rewrite slice_nonneg by lia.
  change (Z.to_nat (61 - 41)) with 20%nat. change (Z.to_nat 41) with 41%nat.
  rewrite lookup_take_lt, lookup_drop by lia.
  destruct (lookup_lt_is_Some_2 frame (41 + i)) as [b Hb];
    [unfold len in Hlen; lia|].
  exists b. split; [exact Hb|]. unfold raw. rewrite Hb. reflexivity.
Qed.

Lemma hr_data_length (frame : list byte) :
  61 <= len frame -> length (slice frame 41 61) = 20%nat.
Proof.
  intros Hlen. rewrite slice_nonneg by lia.
  rewrite length_take, length_drop. unfold len in Hlen. lia.
Qed.

Lemma to_signed_range (v : Z) :
  0 <= v <= 255 ->
  -128 <= to_signed v <= 127 /\ to_signed v mod 256 = v.
Proof.
  intros Hv. unfold to_signed. destruct (Z.leb_spec 128 v).
  - split; [lia|]. replace (v - 256) with (v + (-1) * 256) by lia.
    rewrite Z.mod_add by lia. apply Z.mod_small. lia.
  - split; [lia|]. apply Z.mod_small. lia.
Qed.

Lemma frame_points_lookup (frame : list byte) (now : Z) (i : nat) :
  61 <= len frame -> (i < 20)%nat ->
  frame_points frame now !! i
  = Some (Point (to_signed (raw frame (41 + i))) (now + 50 * Z.of_nat i)).
Proof.
  intros Hlen Hi. destruct (hr_data_lookup frame i Hlen Hi) as (b & Hb & ->).
  unfold frame_points, enumerate.
  rewrite list_lookup_fmap, list_lookup_imap, Hb. reflexivity.
Qed.

Lemma frame_rows_lookup (frame : list byte) (i : nat) :
  61 <= len frame -> (i < 20)%nat ->
  frame_rows frame !! i
  = Some (Z.of_nat i + 1, format_02X (raw frame (41 + i))).
Proof.
  intros Hlen Hi. destruct (hr_data_lookup frame i Hlen Hi) as (b & Hb & ->).
  unfold frame_rows, enumerate.
  rewrite list_lookup_fmap, list_lookup_imap, Hb. simpl.
  do 2 f_equal. lia.
Qed.

Lemma frame_values_lookup (frame : list byte) (i : nat) :
  61 <= len frame -> (i < 20)%nat ->
  frame_values frame !! i = Some (to_signed (raw frame (41 + i))).
Proof.
  intros Hlen Hi. destruct (hr_data_lookup frame i Hlen Hi) as (b & Hb & ->).
  unfold frame_values, ints. rewrite !list_lookup_fmap, Hb. reflexivity.
Qed.

(** X16.  The inner loop of [serial_read_thread] comes back once the fuel
    exceeds half the length of the buffer, and has then cut the buffer into
    pieces that each end with their first [EE EE], followed by a rest in
    which no [EE EE] is left: no byte is lost and none is moved.  Each piece
    of 61 bytes or more has added its rows to the two files and its points
    to the queue, in the order of the pieces; a shorter piece has added
    nothing. *)
Theorem X16_buffer_cut_behind_every_terminator fuel now r :
  (length (all_data r) < 2 * fuel)%nat ->
  exists r' fs,
    cut_frames fuel now r = Some r'
    /\ all_data r = concat fs ++ all_data r'
    /\ Forall is_frame fs
    /\ no_ee (all_data r')
    /\ data_csv r' = data_csv r ++ (long_frames fs ≫= frame_rows)
    /\ average1_csv r'
       = average1_csv r ++ ((fun f => raw f 20) <$> long_frames fs)
    /\ data_queue r'
       = data_queue r ++ (long_frames fs ≫= fun f => frame_points f now).
Proof.
  intros Hfuel. destruct (cut_frames_returns fuel now r Hfuel) as [r' Hr'].
  destruct (cut_frames_cuts _ _ _ _ Hr') as (fs & Hc & Hcsv & Havg & Hq).
  destruct (cuts_concat _ _ _ Hc) as (Heq & Hfs & Hno).
  exists r', fs. auto 10.
Qed.

(** X16, witness: a buffer with a short piece, the scenario frame and two
    bytes more. *)
Lemma X16_buffer_cut_witness :
  exists r' fs,
    cut_frames 40 7 (mkReader two_pieces_and_a_tail [] [] []) = Some r'
    /\ two_pieces_and_a_tail = concat fs ++ all_data r'
    /\ Forall is_frame fs
    /\ no_ee (all_data r')
    /\ data_csv r' = [] ++ (long_frames fs ≫= frame_rows)
    /\ average1_csv r' = [] ++ ((fun f => raw f 20) <$> long_frames fs)
    /\ data_queue r' = [] ++ (long_frames fs ≫= fun f => frame_points f 7).
Proof.
  apply (X16_buffer_cut_behind_every_terminator 40 7
           (mkReader two_pieces_and_a_tail [] [] [])).
  vm_compute. lia.
Defined.

(** X17.  A piece of 61 bytes or more puts twenty points on the queue and
    twenty rows into [data.csv], and one row into [average1.csv].  Point
    [i] carries byte 41+i of the piece read as a signed byte, a value from
    -128 to 127, and the time 50*i ms after the time of the frame; row [i]
    carries the number i+1 and the same byte in two hexadecimal digits. *)
Theorem X17_twenty_points_per_frame (frame : list byte) (now : Z)
    (r : Reader) :
  61 <= len frame ->
  exists pts rows,
    record_frame frame now r
    = mkReader (all_data r) (data_csv r ++ rows)
        (average1_csv r ++ [raw frame 20]) (data_queue r ++ pts)
    /\ length pts = 20%nat /\ length rows = 20%nat
    /\ forall i, (i < 20)%nat ->
         exists v,
           pts !! i = Some (Point v (now + 50 * Z.of_nat i))
           /\ rows !! i
              = Some (Z.of_nat i + 1, format_02X (raw frame (41 + i)))
           /\ -128 <= v <= 127
           /\ v mod 256 = raw frame (41 + i).
Proof.
  intros Hlen. exists (frame_points frame now), (frame_rows frame).
  split; [|split; [|split]].
  - unfold record_frame. destruct (Z.leb_spec 61 (len frame)); [reflexivity|lia].
  - unfold frame_points, enumerate.
    rewrite length_fmap, length_imap. apply hr_data_length, Hlen.
  - unfold frame_rows, enumerate.
    rewrite length_fmap, length_imap. apply hr_data_length, Hlen.
  - intros i Hi. exists (to_signed (raw frame (41 + i))).
    split; [apply frame_points_lookup; assumption|].
    split; [apply frame_rows_lookup; assumption|].
    apply to_signed_range, raw_range.
Qed.

(** X17, witness: the scenario frame. *)
Lemma X17_twenty_points_witness :
  exists pts rows,
    record_frame scenario_stream 0 (mkReader [] [] [] [])
    = mkReader [] ([] ++ rows) ([] ++ [raw scenario_stream 20]) ([] ++ pts)
    /\ length pts = 20%nat /\ length rows = 20%nat
    /\ forall i, (i < 20)%nat ->
         exists v,
           pts !! i = Some (Point v (0 + 50 * Z.of_nat i))
           /\ rows !! i
              = Some (Z.of_nat i + 1,
                      format_02X (raw scenario_stream (41 + i)))
           /\ -128 <= v <= 127
           /\ v mod 256 = raw scenario_stream (41 + i).
Proof.
  apply (X17_twenty_points_per_frame scenario_stream 0 (mkReader [] [] [] [])).
  vm_compute. discriminate.
Defined.

(** X18.  However the port hands over the bytes, [rounds] passes of
    [serial_read_thread] come back, given fuel for the bytes held and read,
    and leave the port where [rounds] reads of 1024 bytes leave it.  What
    these reads handed over, put behind the bytes the buffer held, has been
    cut as by one pass over the whole: into pieces that each end with their
    first [EE EE], which have given their rows and points, and a rest
    without [EE EE] that stays in the buffer.  A frame that came in over
    several reads is put together. *)
Theorem X18_reads_put_frames_together rounds fuel r s :
  no_ee (all_data r) ->
  (length (all_data r) + length (reads rounds s).1 < 2 * fuel)%nat ->
  exists r' fs,
    serial_read_thread rounds fuel r s = Some (r', (reads rounds s).2)
    /\ all_data r ++ (reads rounds s).1 = concat fs ++ all_data r'
    /\ Forall is_frame fs
    /\ no_ee (all_data r')
    /\ data_csv r' = data_csv r ++ (long_frames fs ≫= frame_rows)
    /\ average1_csv r'
       = average1_csv r ++ ((fun f => raw f 20) <$> long_frames fs)
    /\ point_values (data_queue r')
       = point_values (data_queue r) ++ (long_frames fs ≫= frame_values).
Proof.
  intros Hno Hfuel.
  destruct (thread_returns rounds fuel r s Hno Hfuel) as (r' & s' & Hrun).
  destruct (thread_reads _ _ _ _ _ _ Hrun Hno) as [-> Htk].
  destruct (thread_cuts _ _ _ _ _ _ Hrun Hno)
    as (_ & _ & _ & _ & fs & Hc & Hcsv & Havg & Hq).
  destruct (cuts_concat _ _ _ Hc) as (Heq & Hfs & Hno').
  rewrite Htk in Heq.
  exists r', fs. auto 10.
Qed.

Lemma no_ee_nil : no_ee [].
Proof. intros i [H _]. discriminate. Qed.

(** X18, witness: 60 passes on the slow line, which hand over the scenario
    frame byte by byte. *)
Lemma X18_reads_put_frames_together_witness :
  (reads 60 trickle_port).1 = scenario_stream
  /\ exists r' fs,
       serial_read_thread 60 36 (mkReader [] [] [] []) trickle_port
       = Some (r', (reads 60 trickle_port).2)
       /\ [] ++ (reads 60 trickle_port).1 = concat fs ++ all_data r'
       /\ Forall is_frame fs
       /\ no_ee (all_data r')
       /\ data_csv r' = [] ++ (long_frames fs ≫= frame_rows)
       /\ average1_csv r' = [] ++ ((fun f => raw f 20) <$> long_frames fs)
       /\ point_values (data_queue r')
          = point_values [] ++ (long_frames fs ≫= frame_values).
Proof.
  assert (H : (reads 60 trickle_port).1 = scenario_stream)
    by (vm_compute; reflexivity).
  split; [exact H|].
  apply (X18_reads_put_frames_together 60 36 (mkReader [] [] [] [])
           trickle_port).
  - apply no_ee_nil.
  - rewrite H. simpl. lia.
Defined.

(** X19.  What the thread writes depends on the bytes it has read and not on
    how the reads delivered them: two runs that start with the same buffer
    and files and whose reads hand over the same bytes, from whatever lines
    and in however many passes, both come back, and end with the same
    buffer, the same rows in the two files and the same values on the
    queue. *)
Theorem X19_thread_output_independent_of_timing
    rounds1 fuel1 rounds2 fuel2 r s1 s2 :
  no_ee (all_data r) ->
  (reads rounds1 s1).1 = (reads rounds2 s2).1 ->
  (length (all_data r) + length (reads rounds1 s1).1 < 2 * fuel1)%nat ->
  (length (all_data r) + length (reads rounds2 s2).1 < 2 * fuel2)%nat ->
  exists r1 r2,
    serial_read_thread rounds1 fuel1 r s1 = Some (r1, (reads rounds1 s1).2)
    /\ serial_read_thread rounds2 fuel2 r s2
       = Some (r2, (reads rounds2 s2).2)
    /\ all_data r1 = all_data r2
    /\ data_csv r1 = data_csv r2
    /\ average1_csv r1 = average1_csv r2
    /\ point_values (data_queue r1) = point_values (data_queue r2).
Proof.
  intros Hno Heq Hfuel1 Hfuel2.
  destruct (thread_returns rounds1 fuel1 r s1 Hno Hfuel1)
    as (r1 & s1' & Hrun1).
  destruct (thread_returns rounds2 fuel2 r s2 Hno Hfuel2)
    as (r2 & s2' & Hrun2).
  destruct (thread_reads _ _ _ _ _ _ Hrun1 Hno) as [-> Htk1].
  destruct (thread_reads _ _ _ _ _ _ Hrun2 Hno) as [-> Htk2].
  destruct (thread_cuts _ _ _ _ _ _ Hrun1 Hno)
    as (_ & _ & _ & _ & fs1 & Hc1 & Hcsv1 & Havg1 & Hq1).
  destruct (thread_cuts _ _ _ _ _ _ Hrun2 Hno)
    as (_ & _ & _ & _ & fs2 & Hc2 & Hcsv2 & Havg2 & Hq2).
  rewrite Htk1, Heq in Hc1. rewrite Htk2 in Hc2.
  destruct (cuts_unique _ _ _ _ _ Hc1 Hc2) as [-> Hrest].
  exists r1, r2. repeat split; congruence.
Qed.

(** X19, witness: the scenario frame read at once and read from the slow
    line, in 60 passes. *)
Lemma X19_thread_output_witness :
  exists r1 r2,
    serial_read_thread 1 36 (mkReader [] [] [] []) (port_of scenario_stream)
    = Some (r1, (reads 1 (port_of scenario_stream)).2)
    /\ serial_read_thread 60 36 (mkReader [] [] [] []) trickle_port
       = Some (r2, (reads 60 trickle_port).2)
    /\ all_data r1 = all_data r2
    /\ data_csv r1 = data_csv r2
    /\ average1_csv r1 = average1_csv r2
    /\ point_values (data_queue r1) = point_values (data_queue r2).
Proof.
  assert (H1 : (reads 1 (port_of scenario_stream)).1 = scenario_stream)
    by (vm_compute; reflexivity).
  assert (H2 : (reads 60 trickle_port).1 = scenario_stream)
    by (vm_compute; reflexivity).
  apply (X19_thread_output_independent_of_timing 1 36 60 36
           (mkReader [] [] [] []) (port_of scenario_stream) trickle_port).
  - apply no_ee_nil.
  - rewrite H1, H2. reflexivity.
  - rewrite H1. simpl. lia.
  - rewrite H2. simpl. lia.
Defined.

Lemma cut_frames_enough fuel now r fs rest :
  cuts (all_data r) fs rest -> (length fs < fuel)%nat ->
  exists r', cut_frames fuel now r = Some r'.
Proof.
  intros Hc. remember (all_data r) as l eqn:Hl. revert r fuel Hl.
  induction Hc as [l Hno|f l fs rest Hf _ IH]; intros r fuel Hl Hfuel;
    (destruct fuel as [|fuel]; [simpl in Hfuel; lia|]); cbn [cut_frames].
  - apply find_ee_no_ee in Hno. rewrite <- Hl, Hno. eauto.
  - rewrite <- Hl, (is_frame_first f l Hf).
    apply IH; [|simpl in Hfuel; lia]. cbn [all_data].
    destruct Hf as (i & Hi & _).
    assert (Hr : forall fr, all_data (record_frame fr now r) = all_data r).
    { intros fr. unfold record_frame. destruct (61 <=? _); reflexivity. }
    rewrite Hr, <- Hl.
    rewrite slice_nonneg by (unfold len; rewrite length_app; lia).
    replace (Z.to_nat (Z.of_nat (length f - 2) + 2)) with (length f) by lia.
    rewrite drop_app_length, take_ge; [reflexivity|].
    unfold len. rewrite length_app. lia.
Qed.

(** X20.  For a frame of one target, 62 bytes that hold [EE EE] nowhere
    before their end, the twenty values the thread puts on the queue are
    the last 17 bytes of the record, the two checksum bytes and the first
    terminator byte, each as a signed byte: the last value is always -18.
    The first 13 of them are the values 8 to 20 of the heart rate curve the
    decoder reads from the same record. *)
Theorem X20_thread_plots_footer_of_one_target_frame fuel now r
    (hdr rec : list byte) (c0 c1 : byte) :
  length hdr = 8%nat -> length rec = 46%nat ->
  let frame := START_SEQ ++ hdr ++ rec ++ [c0; c1; xee; xee] in
  all_data r = frame ->
  (forall j, (j < 60)%nat -> ~ has_ee frame j) ->
  (2 <= fuel)%nat ->
  exists r',
    cut_frames fuel now r = Some r'
    /\ all_data r' = []
    /\ data_queue r' = data_queue r ++ frame_points frame now
    /\ frame_values frame
       = (to_signed <$> ints (drop 29 rec))
         ++ [to_signed (int_of c0); to_signed (int_of c1); -18]
    /\ take 13 (frame_values frame)
       = to_signed <$> drop 7 (heart_rate_curve (fields rec)).
Proof.
  intros Hhdr Hrec frame Hbuf Hfirst Hfuel.
  assert (Hlen : length frame = 62%nat).
  { unfold frame. rewrite !length_app, Hhdr, Hrec. reflexivity. }
  assert (Hframe : is_frame frame).
  { exists 60%nat. split; [exact Hlen|]. split; [|exact Hfirst].
    unfold has_ee, frame.
    rewrite !app_assoc, !lookup_app_r
      by (rewrite !length_app, Hhdr, Hrec; simpl; lia).
    rewrite !length_app, Hhdr, Hrec. split; reflexivity. }
  assert (Hc' : cuts (all_data r) [frame] []).
  { rewrite Hbuf, <- (app_nil_r frame) at 1.
    constructor; [exact Hframe|constructor; apply no_ee_nil]. }
  destruct (cut_frames_enough fuel now r _ _ Hc') as [r' Hr']; [simpl; lia|].
  destruct (cut_frames_cuts _ _ _ _ Hr') as (fs & Hc & _ & _ & Hq).
  destruct (cuts_unique _ _ _ _ _ Hc Hc') as [-> Hrest].
  exists r'. split; [exact Hr'|]. split; [exact Hrest|]. split.
  { rewrite Hq. unfold long_frames. rewrite filter_cons, filter_nil.
    rewrite decide_True by (unfold len; lia).
    simpl. rewrite app_nil_r. reflexivity. }
  unfold frame.
  do 9 (destruct hdr as [|? hdr]; try discriminate Hhdr).
  do 47 (destruct rec as [|? rec]; try discriminate Hrec).
  split; reflexivity.
Qed.

(** X20, witness: the scenario frame. *)
Lemma X20_thread_plots_footer_witness :
  exists r',
    cut_frames 2 0 (mkReader scenario_stream [] [] []) = Some r'
    /\ all_data r' = []
    /\ data_queue r' = [] ++ frame_points scenario_stream 0
    /\ frame_values scenario_stream
       = (to_signed <$> ints (drop 29 scenario_record))
         ++ [to_signed (int_of xab); to_signed (int_of xcd); -18]
    /\ take 13 (frame_values scenario_stream)
       = to_signed <$> drop 7 (heart_rate_curve (fields scenario_record)).
Proof.
  apply (X20_thread_plots_footer_of_one_target_frame 2 0
           (mkReader scenario_stream [] [] []) one_target_header
           scenario_record xab xcd);
    first [ reflexivity | lia | idtac ].
  intros j Hj [H1 H2].
  do 60 (destruct j as [|j]; [discriminate|]). lia.
Defined.

(** ** The plot *)

Lemma drain_spec q hr ts c st :
  exists vts q' st',
    drain q hr ts c st
    = (q', hr ++ vts.*1, ts ++ vts.*2, c + len vts, st')
    /\ ((q = points vts /\ q' = [] /\ st' = st)
        \/ (q = points vts ++ ERROR :: q' /\ st' = Serial_Error)).
Proof.
  revert hr ts c. induction q as [|[v t|] q IH]; intros hr ts c.
  - exists [], [], st. simpl. rewrite !app_nil_r, Z.add_0_r. auto.
  - destruct (IH (hr ++ [v]) (ts ++ [t]) (c + 1)) as (vts & q' & st' & H & Hq).
    exists ((v, t) :: vts), q', st'. cbn [drain]. rewrite H.
    split.
    + simpl. rewrite <- !app_assoc. simpl. do 2 f_equal. unfold len. simpl. lia.
    + destruct Hq as [(-> & -> & ->)|(-> & ->)]; [left|right]; auto.
  - exists [], q, Serial_Error. simpl. rewrite !app_nil_r, Z.add_0_r. auto.
Qed.

Lemma slice_last {A} (l : list A) (n : Z) :
  0 < n -> slice l (- n) (len l) = last_n (Z.to_nat n) l.
Proof.
  intros Hn. unfold slice, slice_bound, last_n, len.
  destruct (Z.ltb_spec (- n) 0); [|lia].
  destruct (Z.ltb_spec (Z.of_nat (length l)) 0); [lia|].
  rewrite Z.min_id.
  replace (Z.to_nat (Z.max (- n + Z.of_nat (length l)) 0))
    with (length l - Z.to_nat n)%nat by lia.
  apply take_ge. rewrite length_drop. lia.
Qed.

Lemma last_n_all {A} (n : nat) (l : list A) :
  (length l <= n)%nat -> last_n n l = l.
Proof.
  intros H. unfold last_n. replace (length l - n)%nat with 0%nat by lia.
  reflexivity.
Qed.

Lemma length_last_n {A} (n : nat) (l : list A) :
  length (last_n n l) = Nat.min n (length l).
Proof. unfold last_n. rewrite length_drop. lia. Qed.

(** One call on a plot whose two lists have the same length. *)
Lemma update_plot_eq q p :
  length (times p) = length (heart_rate_data p) ->
  exists vts q' st',
    ((q = points vts /\ q' = [] /\ st' = status_label p)
     \/ (q = points vts ++ ERROR :: q' /\ st' = Serial_Error))
    /\ let hr := last_n 600 (heart_rate_data p ++ vts.*1) in
       let ts := last_n 600 (times p ++ vts.*2) in
       let curve :=
         Some ((fun t => t - (last_of ts - Z.min 30000 (50 * len hr))) <$> ts,
               hr) in
       length ts = length hr
       /\ heart_rate_data (update_plot q p).2 = hr
       /\ times (update_plot q p).2 = ts
       /\ update_plot q p
          = (q',
             if bool_decide (hr = [])
             then mkPlot hr ts st' (points_label p) (axes p) (canvas p)
             else mkPlot hr ts
                    (Current_Avg (last_of hr) (py_sum (last_n 200 hr))
                       (Z.min 200 (len hr)))
                    (len hr) curve
                    (if 0 <? len vts then curve else canvas p)).
Proof.
  intros Hsame.
  destruct (drain_spec q (heart_rate_data p) (times p) 0 (status_label p))
    as (vts & q' & st' & Hd & Hq).
  exists vts, q', st'. split; [exact Hq|]. intros hr ts curve.
  assert (Hlen : length ts = length hr).
  { unfold ts, hr. rewrite !length_last_n, !length_app, !length_fmap. lia. }
  split; [exact Hlen|].
  enough (E : update_plot q p
              = (q',
                 if bool_decide (hr = [])
                 then mkPlot hr ts st' (points_label p) (axes p) (canvas p)
                 else mkPlot hr ts
                        (Current_Avg (last_of hr) (py_sum (last_n 200 hr))
                           (Z.min 200 (len hr)))
                        (len hr) curve
                        (if 0 <? len vts then curve else canvas p))).
  { rewrite E. cbn [snd]. destruct (bool_decide (hr = [])); auto. }
  unfold update_plot. rewrite Hd. cbv zeta.
  change (- (600)) with (-600).
  assert (Hlast : forall l : list Z,
             (if 600 <? len l then slice l (-600) (len l) else l)
             = last_n 600 l).
  { intros l. destruct (Z.ltb_spec 600 (len l)).
    - apply (slice_last l 600). lia.
    - symmetry. apply last_n_all. unfold len in *. lia. }
  assert (Hts : (if 600 <? len (heart_rate_data p ++ vts.*1)
                 then slice (times p ++ vts.*2) (-600)
                        (len (times p ++ vts.*2))
                 else times p ++ vts.*2) = ts).
  { replace (len (heart_rate_data p ++ vts.*1))
      with (len (times p ++ vts.*2))
      by (unfold len; rewrite !length_app, !length_fmap; lia).
    apply Hlast. }
  rewrite Hts, Hlast. fold hr.
  case_bool_decide as Hhr; [reflexivity|].
  assert (Hpos : 0 < len hr).
  { unfold len. destruct hr; [congruence|simpl; lia]. }
  rewrite bool_decide_false
    by (intros E; rewrite E in Hlen; unfold len in Hpos; simpl in Hlen; lia).
  rewrite (slice_last ts (len hr)) by lia.
  rewrite (last_n_all _ ts) by (unfold len; lia).
  pose proof (slice_last hr 200 ltac:(lia)) as H200.
  change (- (200)) with (-200) in H200. rewrite H200.
  change (Z.to_nat 200) with 200%nat.
  replace (len (_ <$> ts)) with (len hr)
    by (unfold len; rewrite length_fmap; lia).
  rewrite Z.eqb_refl, Z.add_0_l. reflexivity.
Qed.

(** X21.  A call of [update_plot] on a plot whose two lists are equally long
    takes the points off the queue up to the first [ERROR], which it takes
    as well, and leaves on the queue what stood behind it.  It keeps the
    last 600 of the values held before and taken now, and the times that go
    with them: the two lists stay equally long and never exceed 600. *)
Theorem X21_plot_keeps_last_600_points q p :
  length (times p) = length (heart_rate_data p) ->
  exists vts,
    (q = points vts /\ (update_plot q p).1 = []
     \/ q = points vts ++ ERROR :: (update_plot q p).1)
    /\ heart_rate_data (update_plot q p).2
       = last_n 600 (heart_rate_data p ++ vts.*1)
    /\ times (update_plot q p).2 = last_n 600 (times p ++ vts.*2)
    /\ (length (heart_rate_data (update_plot q p).2) <= 600)%nat
    /\ length (times (update_plot q p).2)
       = length (heart_rate_data (update_plot q p).2).
Proof.
  intros Hsame.
  destruct (update_plot_eq q p Hsame)
    as (vts & q' & st' & Hq & Hlen & Hhr & Hts & E).
  exists vts. rewrite Hhr, Hts, E. cbn [fst].
  split; [destruct Hq as [(-> & -> & _)|(-> & _)]; auto|].
  split; [reflexivity|]. split; [reflexivity|].
  split; [rewrite length_last_n; lia|exact Hlen].
Qed.

(** X21, witness: a thousand points put before an empty plot. *)
Lemma X21_plot_keeps_last_600_witness :
  let p := mkPlot [] [] Waiting_for_data 0 None None in
  exists vts,
    (thousand_points = points vts /\ (update_plot thousand_points p).1 = []
     \/ thousand_points
        = points vts ++ ERROR :: (update_plot thousand_points p).1)
    /\ heart_rate_data (update_plot thousand_points p).2
       = last_n 600 ([] ++ vts.*1)
    /\ times (update_plot thousand_points p).2 = last_n 600 ([] ++ vts.*2)
    /\ (length (heart_rate_data (update_plot thousand_points p).2) <= 600)%nat
    /\ length (times (update_plot thousand_points p).2)
       = length (heart_rate_data (update_plot thousand_points p).2).
Proof.
  exact (X21_plot_keeps_last_600_points thousand_points
           (mkPlot [] [] Waiting_for_data 0 None None) eq_refl).
Defined.

(** X22.  After a call of [update_plot], the status label reads
    [Serial Error] only while the plot holds no point.  As soon as it holds
    one, the label shows the last value and the average of the last 200,
    and the points label their number, an [ERROR] taken off the queue in
    the same call notwithstanding; with no point held, an [ERROR] on the
    queue does set the label to [Serial Error]. *)
Theorem X22_serial_error_shown_only_without_data q p :
  length (times p) = length (heart_rate_data p) ->
  let p' := (update_plot q p).2 in
  (heart_rate_data p' <> [] ->
   status_label p'
   = Current_Avg (last_of (heart_rate_data p'))
       (py_sum (last_n 200 (heart_rate_data p')))
       (Z.min 200 (len (heart_rate_data p')))
   /\ points_label p' = len (heart_rate_data p'))
  /\ (status_label p' = Serial_Error -> heart_rate_data p' = [])
  /\ (heart_rate_data p' = [] -> In ERROR q -> status_label p' = Serial_Error).
Proof.
  intros Hsame.
  destruct (update_plot_eq q p Hsame)
    as (vts & q' & st' & Hq & Hlen & _ & _ & ->).
  cbv zeta. cbn [fst snd].
  case_bool_decide as Hhr; cbn [heart_rate_data status_label points_label].
  - split; [congruence|]. split; [auto|]. intros _ Hin.
    destruct Hq as [(-> & _ & _)|(_ & ->)]; [|reflexivity].
    exfalso. unfold points in Hin. apply in_map_iff in Hin as (x & Hx & _).
    discriminate.
  - split; [auto|]. split; [discriminate|]. congruence.
Qed.

(** X22, witness: one point and then the error item. *)
Lemma X22_serial_error_witness :
  status_label
    (update_plot [Point 70 0; ERROR]
       (mkPlot [] [] Waiting_for_data 0 None None)).2
  = Current_Avg 70 70 1.
Proof.
  destruct (X22_serial_error_shown_only_without_data [Point 70 0; ERROR]
              (mkPlot [] [] Waiting_for_data 0 None None) eq_refl)
    as (H & _ & _).
  destruct H as [H _]; [discriminate|]. exact H.
Defined.

Lemma points_app (a b : list (Z * Z)) : points (a ++ b) = points a ++ points b.
Proof. apply fmap_app. Qed.

Lemma points_unique (a b : list (Z * Z)) (x y : list item) :
  (points a = points b -> a = b)
  /\ (points a ++ ERROR :: x = points b ++ ERROR :: y -> a = b /\ x = y)
  /\ points a <> points b ++ ERROR :: y.
Proof.
  revert b. induction a as [|[v t] a IH]; intros [|[v' t'] b]; simpl.
  - split; [auto|]. split; [|discriminate]. intros [= ->]. auto.
  - repeat split; discriminate.
  - repeat split; discriminate.
  - destruct (IH b) as (H1 & H2 & H3). split; [|split].
    + intros [= -> -> H]. f_equal. auto.
    + intros [= -> -> H]. destruct (H2 H) as [-> ->]. auto.
    + intros [= -> -> H]. exact (H3 H).
Qed.

Lemma last_n_last_n {A} (n : nat) (x y : list A) :
  last_n n (last_n n x ++ y) = last_n n (x ++ y).
Proof.
  unfold last_n. rewrite !length_app, length_drop.
  destruct (Nat.le_gt_cases (length x) n) as [Hle|Hgt].
  - replace (length x - n)%nat with 0%nat by lia. rewrite drop_0.
    f_equal. lia.
  - replace (length x - (length x - n) + length y - n)%nat
      with (length y) by lia.
    replace (length x + length y - n)%nat
      with ((length x - n) + length y)%nat by lia.
    rewrite <- drop_drop. f_equal.
    rewrite drop_app_le by lia. reflexivity.
Qed.

(** X23.  Points taken off the queue in two calls of [update_plot] leave the
    same values and times in the plot, and the same items on the queue, as
    the same points taken in one call. *)
Theorem X23_plot_data_same_in_one_call_or_two (vts : list (Z * Z)) q p :
  length (times p) = length (heart_rate_data p) ->
  let once := update_plot (points vts ++ q) p in
  let twice := update_plot q (update_plot (points vts) p).2 in
  (update_plot (points vts) p).1 = []
  /\ twice.1 = once.1
  /\ heart_rate_data twice.2 = heart_rate_data once.2
  /\ times twice.2 = times once.2.
Proof.
  intros Hsame once twice. subst once twice.
  destruct (update_plot_eq (points vts) p Hsame)
    as (v1 & q1 & st1 & Hq1 & Hlen1 & Hhr1 & Hts1 & E1).
  destruct Hq1 as [(Hv1 & -> & _)|(Hbad & _)];
    [|destruct (proj2 (proj2 (points_unique vts v1 [] q1)) Hbad)].
  apply (points_unique vts v1 [] []) in Hv1 as <-.
  assert (Hsame1 : length (times (update_plot (points vts) p).2)
                   = length (heart_rate_data (update_plot (points vts) p).2))
    by (rewrite Hhr1, Hts1; exact Hlen1).
  destruct (update_plot_eq q _ Hsame1)
    as (v2 & q2 & st2 & Hq2 & _ & Hhr2 & Hts2 & E2).
  destruct (update_plot_eq (points vts ++ q) p Hsame)
    as (v3 & q3 & st3 & Hq3 & _ & Hhr3 & Hts3 & E3).
  assert (Hv : v3 = vts ++ v2 /\ q2 = q3).
  { destruct Hq2 as [(-> & -> & _)|(-> & _)].
    - rewrite <- points_app in Hq3.
      destruct Hq3 as [(H & -> & _)|(H & _)].
      + apply (points_unique _ v3 [] []) in H as <-. auto.
      + destruct (proj2 (proj2 (points_unique _ v3 [] q3)) H).
    - rewrite app_assoc, <- points_app in Hq3.
      destruct Hq3 as [(H & _ & _)|(H & _)].
      + symmetry in H.
        destruct (proj2 (proj2 (points_unique v3 (vts ++ v2) [] q2)) H).
      + apply (points_unique (vts ++ v2) v3 q2 q3) in H as [<- <-]. auto. }
  destruct Hv as [-> ->].
  rewrite Hhr2, Hts2, Hhr3, Hts3, Hhr1, Hts1, !last_n_last_n.
  rewrite E2, E3, E1. cbn [fst].
  rewrite !fmap_app, !app_assoc. auto.
Qed.

(** X23, witness: two points and then a third. *)
Lemma X23_plot_data_witness :
  let p := mkPlot [] [] Waiting_for_data 0 None None in
  let once := update_plot (points [(70, 0); (71, 50)] ++ [Point 72 100]) p in
  let twice :=
    update_plot [Point 72 100] (update_plot (points [(70, 0); (71, 50)]) p).2
  in
  (update_plot (points [(70, 0); (71, 50)]) p).1 = []
  /\ twice.1 = once.1
  /\ heart_rate_data twice.2 = heart_rate_data once.2
  /\ times twice.2 = times once.2.
Proof.
  exact (X23_plot_data_same_in_one_call_or_two [(70, 0); (71, 50)]
           [Point 72 100] (mkPlot [] [] Waiting_for_data 0 None None)
           eq_refl).
Defined.

(** ** The formatting of the header *)

Lemma status_map_lookup :
  status_map !! 1 = Some "Normal"
  /\ status_map !! 2 = Some "Standby"
  /\ status_map !! 3 = Some "Abnormal".
Proof. repeat split; vm_compute; reflexivity. Qed.

(** The text for the dictionary built from the header bytes [hdr], when
    their work status is 1, 2 or 3. *)
Lemma format_info_of (hdr : list byte) :
  1 <= raw hdr 5 <= 3 ->
  exists status_str,
    _format_header_info (info_of hdr)
    = inr ("Data Length: " +:+ pretty (raw hdr 0) +:+ " bytes, "
           +:+ "Mode: "
           +:+ default ("Unknown(" +:+ pretty (raw hdr 1) +:+ ")")
                 (mode_map !! raw hdr 1)
           +:+ ", "
           +:+ "Time: " +:+ pretty (raw hdr 2 + 256 * raw hdr 3) +:+ " mins, "
           +:+ "Targets: " +:+ pretty (raw hdr 4) +:+ ", "
           +:+ "Status: " +:+ status_str +:+ ", "
           +:+ "Reserve: " +:+ py_str (PList [raw hdr 6; raw hdr 7]))
    /\ (raw hdr 5 = 1 /\ status_str = "Normal"
        \/ raw hdr 5 = 2 /\ status_str = "Standby"
        \/ raw hdr 5 = 3 /\ status_str = "Abnormal").
Proof.
  intros Hwork.
  destruct status_map_lookup as (Hs1 & Hs2 & Hs3).
  exists (default "" (status_map !! raw hdr 5)).
  assert (Hst : raw hdr 5 = 1 \/ raw hdr 5 = 2 \/ raw hdr 5 = 3) by lia.
  pose proof (raw_range hdr 3).
  split.
  - unfold _format_header_info, dict_item, info_of.
    repeat (first [ rewrite lookup_insert_eq
                  | rewrite lookup_insert_ne by discriminate ]).
    cbn [ebind dict_get].
    rewrite Z.shiftl_mul_pow2 by lia.
    replace (raw hdr 3 * 2 ^ 8) with (256 * raw hdr 3) by lia.
    destruct Hst as [-> | [-> | ->]]; rewrite ?Hs1, ?Hs2, ?Hs3; reflexivity.
  - destruct Hst as [-> | [-> | ->]]; rewrite ?Hs1, ?Hs2, ?Hs3; auto.
Qed.

(** X24.  The dictionary returned next to a decoded frame is always
    formatted: no key is missing and the result is the text with the data
    length, the mode by its name (or [Unknown(m)] for a mode other than 1 to
    5), the time in minutes, the number of targets, which is the number of
    bodies of the frame, the status and the reserve bytes.  The status is
    one of [Normal], [Standby], [Abnormal], never [Unknown(...)].  And a
    complete frame that is waiting on the port and that the models accept
    is returned with a dictionary that is so formatted. *)
Theorem X24_header_of_a_decoded_frame_is_formatted fuel timeout s :
  (forall d info s',
     parse_frame_from_serial fuel timeout s = Some (Ok (d, info), s') ->
     exists t0 t1 status_str,
       time (header d) = [t0; t1]
       /\ _format_header_info info
          = inr ("Data Length: " +:+ pretty (data_length (header d))
                 +:+ " bytes, "
                 +:+ "Mode: "
                 +:+ default ("Unknown(" +:+ pretty (mode (header d))
                              +:+ ")")
                       (mode_map !! mode (header d))
                 +:+ ", "
                 +:+ "Time: " +:+ pretty (t0 + 256 * t1) +:+ " mins, "
                 +:+ "Targets: " +:+ pretty (len (bodies d)) +:+ ", "
                 +:+ "Status: " +:+ status_str +:+ ", "
                 +:+ "Reserve: " +:+ py_str (PList (reserve (header d))))
       /\ (work_con (header d) = 1 /\ status_str = "Normal"
           \/ work_con (header d) = 2 /\ status_str = "Standby"
           \/ work_con (header d) = 3 /\ status_str = "Abnormal"))
  /\ (forall (hdr bb chk rest : list byte) (k : nat),
        0 <= read_timeout s ->
        prompt s (START_SEQ ++ hdr ++ bb ++ chk ++ rest) ->
        length hdr = 8%nat -> raw hdr 4 = Z.of_nat k ->
        length bb = (46 * k)%nat -> length chk = 4%nat ->
        forallb record_ok (records bb k) = true ->
        1 <= raw hdr 5 <= 3 ->
        (16 + 46 * k + length rest <= fuel)%nat ->
        exists d info s' text,
          parse_frame_from_serial fuel timeout s = Some (Ok (d, info), s')
          /\ _format_header_info info = inr text).
Proof.
  split.
  - intros d info s' Hparse.
    destruct (parse_Ok_inv _ _ _ _ _ _ Hparse)
      as (s1 & hdr & s2 & bb & s3 & chk & _ & _ & _ & _ & Hlen & _ & _ & _
          & Hwork & -> & ->).
    pose proof (raw_range hdr 4) as H4.
    assert (Hst : 1 <= raw hdr 5 <= 3).
    { unfold ge_le in Hwork. apply andb_prop in Hwork as [Hw1 Hw3].
      apply Z.leb_le in Hw1, Hw3. lia. }
    destruct (format_info_of hdr Hst) as (status_str & Hfmt & Hstatus).
    exists (raw hdr 2), (raw hdr 3), status_str.
    cbn [header head_of time data_length mode num_TLV work_con reserve bodies].
    split; [reflexivity|].
    assert (Hbodies : len (fields <$> records bb (Z.to_nat (raw hdr 4)))
                      = raw hdr 4).
    { unfold len, records. rewrite !length_fmap, length_seq. lia. }
    rewrite Hbodies. split; [exact Hfmt|exact Hstatus].
  - intros hdr bb chk rest k HT Hp Hhdr Hk Hbb Hchk Hok Hwork Hfuel.
    destruct (parse_after_garbage fuel timeout s [] hdr bb chk rest k HT Hp)
      as [Hrun _]; try assumption; try (simpl; lia).
    { unfold ge_le. apply andb_true_intro. rewrite !Z.leb_le. lia. }
    destruct (format_info_of hdr Hwork) as (status_str & Hfmt & _).
    eexists _, _, _, _. split; [exact Hrun|exact Hfmt].
Qed.

(** X24, witness: the dictionary returned on the scenario stream. *)
Lemma X24_header_formatted_witness :
  (exists t0 t1 status_str,
     time (header scenario_frame) = [t0; t1]
     /\ _format_header_info scenario_info
        = inr ("Data Length: "
               +:+ pretty (data_length (header scenario_frame))
               +:+ " bytes, "
               +:+ "Mode: "
               +:+ default ("Unknown("
                            +:+ pretty (mode (header scenario_frame))
                            +:+ ")")
                     (mode_map !! mode (header scenario_frame))
               +:+ ", "
               +:+ "Time: " +:+ pretty (t0 + 256 * t1) +:+ " mins, "
               +:+ "Targets: " +:+ pretty (len (bodies scenario_frame))
               +:+ ", "
               +:+ "Status: " +:+ status_str +:+ ", "
               +:+ "Reserve: "
               +:+ py_str (PList (reserve (header scenario_frame))))
     /\ (work_con (header scenario_frame) = 1 /\ status_str = "Normal"
         \/ work_con (header scenario_frame) = 2 /\ status_str = "Standby"
         \/ work_con (header scenario_frame) = 3
            /\ status_str = "Abnormal"))
  /\ (exists d info s' text,
        parse_frame_from_serial 62 1000 (port_of scenario_stream)
        = Some (Ok (d, info), s')
        /\ _format_header_info info = inr text).
Proof.
  split.
  - exact (proj1 (X24_header_of_a_decoded_frame_is_formatted 62 1000
                    (port_of scenario_stream)) _ _ _ scenario_run).
  - apply (proj2 (X24_header_of_a_decoded_frame_is_formatted 62 1000
                    (port_of scenario_stream))
             one_target_header scenario_record good_footer [] 1%nat);
      first [ apply prompt_port_of
            | reflexivity
            | simpl; lia
            | vm_compute; split; discriminate ].
Defined.

Lemma dict_item_inr (header_data : gmap string pyval) (key : string) v :
  header_data !! key = Some v -> dict_item header_data key = inr v.
Proof. unfold dict_item. intros ->. reflexivity. Qed.

Lemma dict_item_inl (header_data : gmap string pyval) (key : string) :
  header_data !! key = None -> dict_item header_data key = inl (KeyError key).
Proof. unfold dict_item. intros ->. reflexivity. Qed.

(** X25.  [_format_header_info] returns a text exactly when the six keys it
    reads are all in the dictionary and the values under [mode] and
    [work_status] can be hashed, that is, are no lists; otherwise it raises.
    Other keys of the dictionary have no say. *)
Theorem X25_formatting_needs_all_six_keys (header_data : gmap string pyval) :
  (exists text, _format_header_info header_data = inr text)
  <-> (forall key, key ∈ format_keys -> is_Some (header_data !! key))
      /\ (forall v, header_data !! "mode" = Some v -> hashable v)
      /\ (forall v, header_data !! "work_status" = Some v -> hashable v).
Proof.
  unfold _format_header_info. split.
  - intros [text H].
    destruct (header_data !! "mode") as [m|] eqn:Em;
      [|rewrite (dict_item_inl _ _ Em) in H; discriminate].
    rewrite (dict_item_inr _ _ _ Em) in H. cbn [ebind] in H.
    destruct m as [m| |m]; [|discriminate|]; cbn [dict_get ebind] in H.
    all: destruct (header_data !! "work_status") as [w|] eqn:Ew;
      [|rewrite (dict_item_inl _ _ Ew) in H; discriminate].
    all: rewrite (dict_item_inr _ _ _ Ew) in H; cbn [ebind] in H.
    all: destruct w as [w| |w]; [|discriminate|]; cbn [dict_get ebind] in H.
    all: destruct (header_data !! "data_length") as [x1|] eqn:E1;
      [|rewrite (dict_item_inl _ _ E1) in H; discriminate].
    all: rewrite (dict_item_inr _ _ _ E1) in H; cbn [ebind] in H.
    all: destruct (header_data !! "time_minutes") as [x2|] eqn:E2;
      [|rewrite (dict_item_inl _ _ E2) in H; discriminate].
    all: rewrite (dict_item_inr _ _ _ E2) in H; cbn [ebind] in H.
    all: destruct (header_data !! "num_targets") as [x3|] eqn:E3;
      [|rewrite (dict_item_inl _ _ E3) in H; discriminate].
    all: rewrite (dict_item_inr _ _ _ E3) in H; cbn [ebind] in H.
    all: destruct (header_data !! "reserve") as [x4|] eqn:E4;
      [|rewrite (dict_item_inl _ _ E4) in H; discriminate].
    all: (split; [|split; intros v [= <-]; exact I]).
    all: intros key Hkey; unfold format_keys in Hkey.
    all: repeat (apply elem_of_cons in Hkey as [->|Hkey]; [eauto|]).
    all: apply elem_of_nil in Hkey; destruct Hkey.
  - intros (Hkeys & Hmode & Hwork).
    assert (Hk : forall key, key ∈ format_keys ->
               exists v, dict_item header_data key = inr v
                         /\ header_data !! key = Some v).
    { intros key Hkey. destruct (Hkeys key Hkey) as [v Hv].
      exists v. split; [apply dict_item_inr, Hv|exact Hv]. }
    destruct (Hk "mode") as (m & -> & Hm); [unfold format_keys; repeat constructor|].
    destruct (Hk "work_status") as (w & -> & Hw); [unfold format_keys; repeat constructor|].
    destruct (Hk "data_length") as (x1 & -> & _); [unfold format_keys; repeat constructor|].
    destruct (Hk "time_minutes") as (x2 & -> & _); [unfold format_keys; repeat constructor|].
    destruct (Hk "num_targets") as (x3 & -> & _); [unfold format_keys; repeat constructor|].
    destruct (Hk "reserve") as (x4 & -> & _); [unfold format_keys; repeat constructor|].
    specialize (Hmode m Hm). specialize (Hwork w Hw).
    cbn [ebind].
    destruct m as [m|m|m]; [|destruct Hmode|];
      (destruct w as [w|w|w]; [|destruct Hwork|]);
      cbn [dict_get ebind]; eauto.
Qed.

(** X25, witness: the dictionary returned on the scenario stream. *)
Lemma X25_formatting_witness :
  exists text, _format_header_info scenario_info = inr text.
Proof.
  apply X25_formatting_needs_all_six_keys. unfold scenario_info.
  split; [|split].
  - intros key Hkey. unfold format_keys in Hkey.
    repeat (apply elem_of_cons in Hkey as [->|Hkey];
            [repeat (first [ rewrite lookup_insert_eq
                           | rewrite lookup_insert_ne by discriminate ]);
             eauto|]).
    apply elem_of_nil in Hkey. destruct Hkey.
  - intros v Hv.
    repeat (first [ rewrite lookup_insert_eq in Hv
                  | rewrite lookup_insert_ne in Hv by discriminate ]).
    injection Hv as <-. exact I.
  - intros v Hv.
    repeat (first [ rewrite lookup_insert_eq in Hv
                  | rewrite lookup_insert_ne in Hv by discriminate ]).
    injection Hv as <-. exact I.
Defined.
